(* ===== verification/_CoqProject ===== *)
-Q . S2P
Prelude.v
Calendar.v
Sort.v
Frame.v
Reduce.v
Timestamp.v
Dataset.v
Load.v
Analyzer.v
DailySeries.v
GeoMap.v
Dashboard.v
Session.v
Script.v
