(* ===== verification/Prelude.v ===== *)
(** * Verification of the Brazil e-commerce dashboard

    The program is one Streamlit script, src/dashboard/dashboard.py.  It
    loads a joined order table ([all_df]) and a geolocation table once
    per run, sorts the orders on their approval-time text and converts
    that text to timestamps, shows a sidebar whose date picker gives a
    range, filters the orders to that range ([main_df]) and hands the
    slice to [DataAnalyzer], whose four methods derive the tables the
    page shows: a daily series of distinct orders and revenue, a daily
    series of spend, product counts per category and distinct customers
    per state with the most common state.  The page prints totals and
    means of these tables, draws line and bar charts of them, recomputes
    the most common state from the sorted state table (line 196), and,
    through [BrazilMapPlotter], scatters the deduplicated customer
    locations over a map of Brazil fetched from the network.  Streamlit
    runs the whole script again on every interaction.

    ** Files, in dependency order

    - [Prelude] (this file): the result type of Python-level exceptions
      ([PyError], [result] with stdpp's monad notation, [is_ValueError]
      for the exception hierarchy, the [mapM] lemmas of a column
      converted cell by cell), column sums
      ([sumZ], notation [Σ] in [frame_scope]), [nunique], the partition
      of rows into keyed buckets and its lemmas ([buckets_perm]), list
      helpers ([seqZ_check_decide] turns a check by evaluation over a
      range into a lemma), the tactics [inv_res], [mem_cases],
      [mem_pick], [bind_step] and the hint databases [frame] and
      [frame_rw].
    - [Calendar]: the proleptic Gregorian calendar of [datetime64]:
      [days_from_civil] and [civil_from_days] on day numbers, counted
      with March-based years ([years_days]); they are inverse on valid
      dates and order-preserving ([date_key]).
    - [Sort]: [sort_values] as the class [SortValues], the interface
      between pandas and the components that sort (the contract pandas
      documents: a sorted permutation, ties in no fixed order), with
      three lawful instances, [insertion_sort_values] (stable),
      [merge_sort_values] (stdpp's merge sort, which reorders ties) and
      [reversed_ties_sort_values] (ties in reverse order), and what a
      client may conclude from the contract alone.
    - [Frame]: the other pandas operations the script calls, as
      executable definitions: [resample_D] (daily bins from the first to the last day, empty days
      included, NaT rows dropped); [groupby] (distinct non-missing keys in
      ascending order); [idxmax] (first maximal row, [ValueError] when
      empty, specified by [first_max]); [drop_duplicates] (first row per
      key); [value_counts]; [index0].
    - [Reduce]: what [Series.sum()] and [Series.mean()] run in numpy:
      on a float64 column, [np.add.reduce] as [DOUBLE_pairwise_sum]
      ([pairwise_sum]: eight accumulators over blocks of eight up to
      [PW_BLOCKSIZE] = 128 values, recursion on halves beyond, with the
      recursion depth as fuel; [add_reduce] runs it); on an int64
      column, [LONG_add]'s sequential loop with the 64-bit wrap-around
      written out ([int64_add_reduce], [wrap_int64]).
    - [Timestamp]: timestamps as text: [format_datetime] (the CSV's
      "YYYY-MM-DD HH:MM:SS"), [parse_datetime] ([pd.to_datetime] on that
      form), [format_date] (Python's [str] of a date) and [parse_date]
      (such a string compared with a [datetime64] column); the storage
      of [datetime64[ns]], a signed 64-bit nanosecond count with [iNaT]
      for NaT ([in_ns_bounds]).
    - [Dataset]: [OrderRecord] (the columns the script reads, missing
      values as [None]), the load sort [load_all_df] on instants (line
      68), [min_date]/[max_date] (lines 78-79), the picker default
      [default_date_range] (lines 86-91) and the filter [main_df]
      (lines 94-95).
    - [Load]: the same steps on the text the CSV holds: [RawOrder] with
      the six [datetime_cols] as text (line 66), the text sort
      [approved_text_le] (line 68), the loop [to_datetime] (lines 75-76:
      [to_datetime_col] on each column in order, [to_datetime_cell]
      raising [ValueError] on malformed text and [OutOfBoundsDatetime]
      outside the [datetime64[ns]] range), [load_csv], and the filter as
      written, [main_df_text], with [str_date].
    - [Analyzer]: the class [DataAnalyzer] as a record holding [df] and
      its methods [create_daily_orders_df], [create_sum_spend_df],
      [create_sum_order_items_df], [create_bystate_df] (lines 8-45),
      parameterised by [SortValues]; the output tables are records in the
      modules [DailyOrders], [SumSpend], [SumOrderItems], [ByState].
    - [DailySeries]: the calendar contract of the daily series,
      [daily_series_spec], stated without pandas.
    - [GeoMap]: [GeoPoint], [dedup_geolocation] (line 73), and
      [BrazilMapPlotter.plot] (lines 47-60) as the list of drawing
      commands it issues, the image fetch being the [ImageResource]
      capability (a class), whose failure propagates.
    - [Dashboard]: the page [render_page] (lines 97-227) of a slice:
      the widgets emitted, in order, and the exception that stopped the
      script, the tabs and the two explanation expanders verbatim
      ([state_explanation], [map_explanation]); [render], the page of
      the slice [main_df] of the loaded rows (lines 94-95);
      [summary_widgets] (lines 105-193), [displayed_most_common_state]
      (line 196), [state_bar_chart] (lines 199-204), [mean].
    - [Session]: the sidebar (lines 81-91), [date_input] and the
      unpacking [unpack_pair] (line 86), one run of the script [run]
      (composed with [render]), and the rerun loop: a [Session] holds the
      picker's value and the screen, [step] is an interaction (a pick the
      widget allows, or a rerun), [reachable] is the reflexive-transitive
      closure ([rtc]) of [step] from [session_init].  [step] models
      Streamlit, not dashboard.py: which picks the widget allows
      ([valid_pick]) is an assumption about [st.date_input], so only
      what a run does with a pick (line 86) is claimed.
    - [Script]: the whole script from the CSV text, [script_run]:
      [load_csv], the sidebar and picker of [Session], the text filter
      [main_df_text] and [render_page], composed as dashboard.py runs
      them, and the first screen it shows, stated against the CSV alone
      ([approved_before_day_of]).

    ** What the theorems show (claims C1-C28 of the manifest)

    - Totals (C1, C2, C3, C11, C17): the daily revenue adds up to the
      payments of the slice; the daily distinct-order counts add up to
      the distinct orders when every order is approved on one day; the
      category counts add up to the product ids of rows with a category;
      the page's "Total Revenue" and "Total Spend" are the payments; the
      state counts add up to the distinct customers when each customer
      has one state.
    - Integer width (C13): "Total Order" and "Total Items", int64 sums,
      never wrap on a slice of fewer than 2^63 rows, since they count at
      most one per row.
    - Shape of the tables (C12, C14-C16, C18, C21): the daily series has
      one row per day from the first to the last approval, zero-filled,
      and is the only series meeting the calendar contract (a
      refinement); the spend series is the revenue column; empty input
      gives empty daily tables; one category row per category present;
      every table is independent of the row order.
    - Charts and averages (C25, C28): the two category charts show the
      five largest and the five smallest counts, whatever the tie order;
      "Average Spend" divides the payments by the calendar days from the
      first approval day to the last, empty days included, "Average
      Items" the product ids by the distinct categories, each NaN on
      empty input.
    - The most common state (C4, C9, C10): [create_bystate_df] returns
      the state of largest count, alphabetically first among ties.  Line
      196 counts the rows of the state table, one per state, so which
      state it shows is decided by the tie order alone: under a stable
      tie order it agrees with line 42 and the bars carry their own
      counts; under the ties-reversed order the contract equally allows,
      it names a state with the fewest customers and mislabels the bars,
      on every slice.
    - Errors (C5, C6, C20, C22, C24): [create_bystate_df] raises
      [ValueError] exactly when no row has a state, so an empty date
      range renders nothing; a page run stops only there or at the map's
      image fetch, never with [IndexError] at line 196; a half-picked
      range raises [ValueError] at line 86; one timestamp text in any of
      the six converted columns that is malformed or out of range stops
      the load with that cell's error.
    - Dates (C7, C8): the slice holds the days [start .. end-1] and only
      the midnight instant of the end day; the default range drops the
      last day's orders.
    - Load (C23, C26): loading the text gives the parsed rows sorted by
      instant, missing times last, for any tie order; a timestamp
      converts exactly when its text lies between 1677-09-21 00:12:44
      and 2262-04-11 23:47:16.
    - The first screen (C27), from the CSV text to the page: when every
      timestamp converts, the "Total Revenue" of the screen drawn before
      the picker is touched is the payments of the orders approved
      before the day of the latest approval (or at its midnight), for
      any tie order of the sorts.  The step that makes the tie order
      irrelevant is that the slice, the picker's bounds and the page are
      functions of the multiset of rows: [Proper] instances for [(≡ₚ)]
      ([main_df_proper], [default_date_range_proper],
      [create_daily_orders_df_proper] and the other tables,
      [render_page_proper]).
    - Geolocation (C19): deduplication keeps one row per customer, the
      first, in order.

    Lemmas about the library models that the claims rest on, and that
    no change to dashboard.py could affect, are kept as lemmas of their
    files: the calendar conversions are inverse and monotone
    ([Calendar.calendar_roundtrip]); the timestamp text round-trips and
    sorts as its instant ([Timestamp.timestamp_text_roundtrip],
    [Timestamp.timestamp_text_order]); numpy's pairwise summation
    returns within depth [Nat.log2 n] ([Reduce.pairwise_sum_total]).

    ** Modelling choices and bounds

    Timestamps are [datetime64[ns]] values as [Z] (nanoseconds since the
    epoch), so day arithmetic is floor division by [ns_per_day]; picked
    dates are day numbers, and [str_date] prints their calendar date.
    The calendar theorems hold for every day number; the text theorems
    need a four-digit year, and the [str(date)] round trip the range of
    Python's [datetime.date] (years 1-9999, [py_date]), which contains
    the day of every [datetime64[ns]] value ([py_date_floor_day]); the
    64-bit range itself is kept ([in_ns_bounds]) where [pd.to_datetime]
    checks it.  The month table is checked by
    evaluation on the 366 days of a year and the 12 months, all else by
    arithmetic.  Payments are exact integers (centavos): the order in
    which numpy adds a column is modelled ([Reduce]), its binary64
    rounding is not.  Counts are summed as int64 with their wrap-around.  Coordinates are integers in
    units of 1e-8 degree.  Strings are [string] with Python's code-point
    order, [String.le] (UTF-8 bytes, which order as code points).

    Termination: every loop of the script runs over a finite collection
    (the six [datetime_cols], the rows of a frame, the days between two
    dates), and Streamlit runs the script once per interaction; these
    are structurally recursive (the year search corrects an estimate by
    one step, proved enough by [year_of_spec]).  The one recursion that
    is not structural is numpy's pairwise summation, which recurses on
    halves of the column: [Reduce.pairwise_sum] takes its recursion
    depth as fuel, and [add_reduce] runs it with fuel [Nat.log2 n],
    which [pairwise_sum_total] proves enough: each halving leaves at
    most [n/2 + 8] values, so the measure [Nat.log2 (n - 15)] drops by
    one per level.  On exact values the regrouping cannot change the
    sum; it would only matter for binary64 rounding, not modelled.

    ** Not modelled

    The network fetch and CSV tokenising ([pd.read_csv]: the raw rows are
    inputs), text forms of timestamps other than the CSV's, the values
    of the five timestamp columns the script converts but never reads
    (their conversion errors are modelled), the picker when the
    approval column holds no timestamp at all, chart styling (lines
    62-63, figure sizes, fonts, colours and the axis calls), and the
    rendering itself (a chart is its data, the map a command list, an
    expander its label and text).  Floating-point payments: the values
    of [payment_value] come from [pd.read_csv]'s decimal parser, pandas
    sums a resampled column with Kahan-compensated group sums, numpy
    rounds each addition of its pairwise tree, and the page prints the
    result with Python's shortest float repr; none of these is code of
    the script, and a faithful binary64 model of them (the parser
    included) would model the libraries rather than the program, so
    payments are kept as exact centavos and the sums are exact, in the
    order numpy performs them.  The mean of the int64 [product_count]
    column (line 167) reaches the float loop through numpy's casting
    buffers of 8192 values, which restart the pairwise tree per buffer;
    on exact values every grouping gives the same sum.  The picker when
    the approval column holds no timestamp at all: [min()] is NaT and
    what [st.date_input] then does with NaT bounds is undocumented
    Streamlit behaviour, so [Script.script_run] returns [None] there. *)

From Stdlib Require Export ZArith.
From stdpp Require Export sorting.
From stdpp Require Export base list sets strings numbers.
(* stdpp list lemmas take precedence over the Stdlib names of the same name *)
Export stdpp.list.

(** ** Python-level errors and results *)

(** The exceptions the modelled code can raise.  [ValueError] is raised
    by [Series.idxmax] on an empty series; [IndexError] by [Index[0]]
    on an empty index; [URLError] by [urllib.request.urlopen] when the
    background image cannot be fetched; [OutOfBoundsDatetime] by
    [pd.to_datetime] on a timestamp a [datetime64[ns]] cannot hold. *)
Inductive PyError :=
| ValueError
| IndexError
| URLError
| OutOfBoundsDatetime.

#[export] Instance PyError_eq_dec : EqDecision PyError.
Proof. solve_decision. Defined.

(** [except ValueError] catches [pandas.errors.OutOfBoundsDatetime],
    a subclass of [ValueError]. *)
Definition is_ValueError (e : PyError) : bool :=
  match e with ValueError | OutOfBoundsDatetime => true | _ => false end.

(** A computation of the source either returns a value or raises. *)
Inductive result (A : Type) :=
| Ok (a : A)
| Raise (e : PyError).
Arguments Ok {A} a.
Arguments Raise {A} e.

#[export] Instance result_ret : MRet result := λ A a, Ok a.
#[export] Instance result_bind : MBind result :=
  λ A B f m, match m with Ok a => f a | Raise e => Raise e end.

Declare Scope frame_scope.
Delimit Scope frame_scope with frame.
Open Scope frame_scope.

(** ** Column sums *)

(** [Series.sum] on an integer-valued column (missing values skipped
    before the call, see [Frame.sum_skipna]). *)
Definition sumZ (l : list Z) : Z := foldr Z.add 0%Z l.

Notation "'Σ' l" := (sumZ l) (at level 10, l at level 9) : frame_scope.

(** [Series.nunique]: the number of distinct non-missing values. *)
Definition nunique {A} `{EqDecision A} (l : list (option A)) : nat :=
  length (remove_dups (omap id l)).

Create HintDb frame discriminated.
Create Rewrite HintDb frame_rw.

Lemma bind_Some {A B} (x : A) (f : A → option B) : Some x ≫= f = f x.
Proof. done. Qed.

(** One step of a parser in the option monad: feed the value to the
    continuation and take its tuple pattern apart, unfolding nothing
    else. *)
Ltac bind_step := rewrite bind_Some; cbv beta iota.

Ltac inv_res :=
  repeat match goal with
  | H : Ok _ = Ok _ |- _ => injection H as H
  | H : Ok _ = Raise _ |- _ => discriminate H
  | H : Raise _ = Ok _ |- _ => discriminate H
  | H : Raise _ = Raise _ |- _ => injection H as H
  end; subst.

(** Case analysis on membership in a concrete list. *)
Ltac mem_cases :=
  repeat match goal with
  | H : _ ∈ [] |- _ => apply elem_of_nil in H; contradiction
  | H : _ ∈ _ :: _ |- _ => apply elem_of_cons in H as [->|H]
  end.

(** Membership of a given element in a concrete list. *)
Ltac mem_pick :=
  repeat first [apply list_elem_of_here | apply list_elem_of_further].

Lemma bind_Ok {A B} (a : A) (f : A → result B) : Ok a ≫= f = f a.
Proof. done. Qed.

Lemma bind_Raise {A B} e (f : A → result B) : Raise e ≫= f = Raise e.
Proof. done. Qed.

(** ** [mapM] in the result monad

    [pd.to_datetime] converts a column cell by cell and raises the
    error of the first cell it cannot convert. *)

Section mapM_result.
Context {A B : Type} (g : A → result B).

Lemma mapM_Ok_fmap (f : A → B) l :
  (∀ x, x ∈ l → g x = Ok (f x)) → mapM g l = Ok (f <$> l).
Proof.
  induction l as [|x l IH]; intros Hg; [done|]. simpl. rewrite (Hg x) by left. simpl.
  rewrite IH; [done|]. intros y Hy. apply Hg. by right.
Qed.

Lemma mapM_Ok_elem l l' y : mapM g l = Ok l' → y ∈ l' → ∃ x, x ∈ l ∧ g x = Ok y.
Proof.
  revert l'. induction l as [|x l IH]; intros l'; simpl; [intros [= <-]; set_solver|].
  destruct (g x) as [b|e] eqn:Hx; simpl; [|done].
  destruct (mapM g l) as [k|e] eqn:Hk; simpl; [|done].
  intros [= <-] [->|Hy]%elem_of_cons; [exists x; split; [left|done]|].
  destruct (IH k eq_refl Hy) as (x' & ? & ?). exists x'. split; [by right|done].
Qed.

Lemma mapM_Ok_inv l l' x : mapM g l = Ok l' → x ∈ l → ∃ y, g x = Ok y.
Proof.
  revert l'. induction l as [|x0 l IH]; intros l'; simpl; [set_solver|].
  destruct (g x0) as [b|e] eqn:Hx; simpl; [|done].
  destruct (mapM g l) as [k|e] eqn:Hk; simpl; [|done].
  intros _ [->|Hx']%elem_of_cons; eauto.
Qed.

Lemma mapM_Raise_inv l e : mapM g l = Raise e → ∃ x, x ∈ l ∧ g x = Raise e.
Proof.
  induction l as [|x l IH]; simpl; [done|].
  destruct (g x) as [b|e'] eqn:Hx; simpl; [|intros [= ->]; exists x; split; [left|done]].
  destruct (mapM g l) as [k|e'] eqn:Hk; simpl; [done|].
  intros [= ->]. destruct IH as (x' & ? & ?); [done|]. exists x'. split; [by right|done].
Qed.

Lemma mapM_Raise_exists l x e : x ∈ l → g x = Raise e → ∃ e', mapM g l = Raise e'.
Proof.
  intros Hx He. destruct (mapM g l) as [l'|e'] eqn:Hm; [|by eexists].
  destruct (mapM_Ok_inv _ _ _ Hm Hx) as [y Hy]. congruence.
Qed.
End mapM_result.

Lemma forallb_false_elem {A} (f : A → bool) l : forallb f l = false → ∃ x, x ∈ l ∧ f x = false.
Proof.
  induction l as [|a l IH]; simpl; [done|]. destruct (f a) eqn:Ha; simpl.
  - intros (x & ? & ?)%IH. exists x. split; [by right|done].
  - intros _. exists a. split; [left|done].
Qed.

(** ** Lemmas on decisions *)

Lemma decide_iff {B} (P Q : Prop) `{Decision P, Decision Q} (a b : B) :
  (P ↔ Q) → (if decide P then a else b) = (if decide Q then a else b).
Proof. intros. repeat case_decide; tauto. Qed.

(** ** Lemmas on lists *)

Lemma filter_all_false {A} (P : A → Prop) `{∀ x, Decision (P x)} (l : list A) :
  (∀ x, x ∈ l → ¬ P x) → filter P l = [].
Proof.
  induction l as [|x l IH]; intros Hl; [done|]. rewrite filter_cons, decide_False by set_solver.
  apply IH. set_solver.
Qed.

Lemma filter_all_true {A} (P : A → Prop) `{∀ x, Decision (P x)} (l : list A) :
  (∀ x, x ∈ l → P x) → filter P l = l.
Proof.
  induction l as [|x l IH]; intros Hl; [done|]. rewrite filter_cons, decide_True by set_solver.
  f_equal. apply IH. set_solver.
Qed.

Lemma fmap_eq_nil {A B} (f : A → B) (l : list A) : f <$> l = [] ↔ l = [].
Proof. split; [apply fmap_nil_inv | by intros ->]. Qed.

Lemma seqZ_nil_inv m n : seqZ m n = [] → (n ≤ 0)%Z.
Proof. intros Hs. pose proof (length_seqZ m n) as Hl. rewrite Hs in Hl. simpl in Hl. lia. Qed.

(** A property checked by evaluation on every point of a range. *)
Lemma seqZ_check (f : Z → bool) m e :
  forallb f (seqZ m (e - m)) = true → ∀ x, (m ≤ x < e)%Z → f x = true.
Proof.
  intros Hall x Hx. apply forallb_forall with (x := x) in Hall; [done|].
  apply list_elem_of_In, elem_of_seqZ. lia.
Qed.

Lemma seqZ_check_decide (P : Z → Prop) `{∀ x, Decision (P x)} m e :
  forallb (λ x, bool_decide (P x)) (seqZ m (e - m)) = true → ∀ x, (m ≤ x < e)%Z → P x.
Proof. intros Hall x Hx. apply (bool_decide_eq_true_1 (P x)), (seqZ_check _ m e Hall x Hx). Qed.

(** [StronglySorted_fmap] when the map carries the order only between
    members of the list. *)
Lemma StronglySorted_fmap_in {A B} (f : A → B) (R1 : relation A) (R2 : relation B) l :
  (∀ x y, x ∈ l → y ∈ l → R1 x y → R2 (f x) (f y)) →
  StronglySorted R1 l → StronglySorted R2 (f <$> l).
Proof.
  intros Hf Hs. induction Hs as [|x l Hs IH Hall]; simpl; constructor.
  - apply IH. intros y z Hy Hz. apply Hf; by right.
  - apply Forall_fmap, Forall_forall. intros y Hy. apply Hf; [left|by right|].
    by eapply Forall_forall in Hall.
Qed.

Lemma StronglySorted_lookup_lt {A} (R : relation A) (l : list A) i j x y :
  StronglySorted R l → l !! i = Some x → l !! j = Some y → i < j → R x y.
Proof.
  intros Hs. revert i j. induction Hs as [|z l Hs IH Hall]; intros i j Hi Hj Hij; [done|].
  destruct i as [|i], j as [|j]; simpl in *; [lia| |lia|].
  - simplify_eq. rewrite Forall_forall in Hall. apply Hall. by eapply list_elem_of_lookup_2.
  - apply (IH i j); [done..|lia].
Qed.

(** ** Lemmas on sums *)

Lemma sumZ_cons x l : Σ (x :: l) = (x + Σ l)%Z.
Proof. done. Qed.

Lemma sumZ_app l1 l2 : Σ (l1 ++ l2) = (Σ l1 + Σ l2)%Z.
Proof. induction l1; [done|]. cbn [app]. rewrite !sumZ_cons, IHl1. lia. Qed.

Lemma sumZ_of_nat (l : list nat) : Σ (Z.of_nat <$> l) = Z.of_nat (sum_list l).
Proof. induction l as [|n l IH]; [done|]. rewrite fmap_cons, sumZ_cons, IH. simpl. lia. Qed.

Lemma sumZ_nonneg l : Forall (λ x, 0 ≤ x)%Z l → (0 ≤ Σ l)%Z.
Proof. induction 1; [cbn; lia|]. rewrite sumZ_cons. lia. Qed.

Lemma sum_list_fmap_le {A} (f g : A → nat) l :
  (∀ x, x ∈ l → f x ≤ g x) → sum_list (f <$> l) ≤ sum_list (g <$> l).
Proof.
  induction l as [|x l IH]; intros Hfg; [done|].
  pose proof (Hfg x ltac:(set_solver)). pose proof (IH ltac:(set_solver)).
  rewrite !fmap_cons. cbn [sum_list]. by apply Nat.add_le_mono.
Qed.

(** [filter] only looks at the elements of its list. *)
Lemma filter_ext_elem {A} (P Q : A → Prop) `{∀ x, Decision (P x), ∀ x, Decision (Q x)} (l : list A) :
  (∀ x, x ∈ l → P x ↔ Q x) → filter P l = filter Q l.
Proof.
  induction l as [|x l IH]; intros HPQ; [done|]. rewrite !filter_cons, IH by set_solver.
  pose proof (HPQ x ltac:(set_solver)). by repeat case_decide; naive_solver.
Qed.

#[export] Instance sumZ_Permutation : Proper ((≡ₚ) ==> (=)) sumZ.
Proof. induction 1; simpl; lia. Qed.

Lemma join_cons {A} (l : list A) (ls : list (list A)) : mjoin (l :: ls) = l ++ mjoin ls.
Proof. done. Qed.

#[export] Hint Rewrite sumZ_cons sumZ_app @join_cons : frame_rw.

Lemma sumZ_join (ls : list (list Z)) : Σ (mjoin ls) = Σ (sumZ <$> ls).
Proof. induction ls; [done|]. rewrite fmap_cons. autorewrite with frame_rw. lia. Qed.

#[export] Instance sum_list_Permutation : Proper ((≡ₚ) ==> (=)) sum_list.
Proof. induction 1; simpl; lia. Qed.

#[export] Hint Rewrite sumZ_join : frame_rw.
#[export] Hint Resolve NoDup_remove_dups NoDup_seqZ : frame.

(** ** Lemmas on [nunique] *)

Section nunique.
  Context {A : Type} `{EqDecision A}.
  Implicit Types l : list (option A).

Lemma elem_of_omap_id (l : list (option A)) x : x ∈ omap id l ↔ Some x ∈ l.
Proof.
  rewrite list_elem_of_omap. split; [intros (y & Hy & Hxy); by simplify_eq/=|].
  intros H. by exists (Some x).
Qed.

Lemma nunique_same_elems l1 l2 :
  (∀ x, Some x ∈ l1 ↔ Some x ∈ l2) → nunique l1 = nunique l2.
Proof.
  intros H. unfold nunique. apply Permutation_length, NoDup_Permutation;
    [apply NoDup_remove_dups .. |].
  intros x. by rewrite !elem_of_remove_dups, !elem_of_omap_id.
Qed.

#[export] Instance nunique_Permutation : Proper ((≡ₚ) ==> (=)) (@nunique A _).
Proof. intros l1 l2 Hp. apply nunique_same_elems. intros x. by rewrite Hp. Qed.

Lemma nunique_app_disjoint l1 l2 :
  (∀ x, Some x ∈ l1 → Some x ∉ l2) →
  nunique (l1 ++ l2) = (nunique l1 + nunique l2)%nat.
Proof.
  intros Hd. unfold nunique. rewrite <-length_app. apply Permutation_length.
  apply NoDup_Permutation; [apply NoDup_remove_dups| |].
  - apply list.NoDup_app. split_and!; [apply NoDup_remove_dups | | apply NoDup_remove_dups].
    intros x. rewrite !elem_of_remove_dups, !elem_of_omap_id. apply Hd.
  - intros x. rewrite elem_of_app, !elem_of_remove_dups, omap_app, elem_of_app. done.
Qed.

Lemma length_remove_dups_le (l : list A) : (length (remove_dups l) ≤ length l)%nat.
Proof. induction l; simpl; [done|]. case_decide; simpl; lia. Qed.

Lemma nunique_zero_iff l : nunique l = 0%nat ↔ ∀ x, x ∈ l → x = None.
Proof.
  unfold nunique. split.
  - intros H0 [a|] Hx; [exfalso|done].
    assert (a ∈ remove_dups (omap id l)) as Ha by (apply elem_of_remove_dups, elem_of_omap_id, Hx).
    destruct (remove_dups _); [by apply elem_of_nil in Ha|done].
  - intros Hall. destruct (omap id l) as [|a l'] eqn:Ho; [done|]. exfalso.
    assert (a ∈ omap id l) as Ha by (rewrite Ho; left).
    apply elem_of_omap_id, Hall in Ha. discriminate.
Qed.

Lemma nunique_le_length l : (nunique l ≤ length l)%nat.
Proof.
  unfold nunique. etrans; [apply length_remove_dups_le|].
  induction l as [|[] l IH]; cbn; lia.
Qed.
End nunique.

(** ** Partition of a list into keyed buckets *)

(** Grouping the rows by a key and concatenating the buckets of a
    duplicate-free list of keys that covers every key present gives back
    the rows that have a key, up to order.  This is the fact behind every
    "the per-group totals add up to the grand total" theorem. *)
Section buckets.
  Context {A K : Type} `{EqDecision K} (key : A → option K).

Definition bucket (l : list A) (d : K) : list A :=
    filter (λ x, key x = Some d) l.

Lemma bucket_cons x l d :
  bucket (x :: l) d = (if decide (key x = Some d) then [x] else []) ++ bucket l d.
Proof. unfold bucket. rewrite filter_cons. by case_decide. Qed.

Lemma join_map_app {B C} (f g : B → list C) (ds : list B) :
  mjoin ((λ d, f d ++ g d) <$> ds) ≡ₚ mjoin (f <$> ds) ++ mjoin (g <$> ds).
Proof.
  induction ds as [|d ds IH]; [done|].
  rewrite !fmap_cons, !join_cons, IH. solve_Permutation.
Qed.

Lemma join_single_hit x (ds : list K) :
  NoDup ds →
  mjoin ((λ d, if decide (key x = Some d) then [x] else []) <$> ds) =
  match key x with Some k => if decide (k ∈ ds) then [x] else [] | None => [] end.
Proof.
  induction 1 as [|d ds Hnin Hnd IH]; [by destruct (key x) as [k|]; [case_decide; set_solver|]|].
  rewrite fmap_cons, join_cons, IH. destruct (key x) as [k|]; [|by case_decide].
  repeat case_decide; simplify_eq/=; try done; set_solver.
Qed.

Lemma buckets_perm (ds : list K) (l : list A) :
  NoDup ds →
  (∀ x d, x ∈ l → key x = Some d → d ∈ ds) →
  mjoin (bucket l <$> ds) ≡ₚ filter (λ x, is_Some (key x)) l.
Proof.
  intros Hnd. induction l as [|x l IH]; intros Hcov.
  { clear Hnd Hcov. induction ds as [|d ds IHd]; [done|]. by rewrite fmap_cons, join_cons, IHd. }
  rewrite (list_fmap_ext (bucket (x :: l))
    (λ d, (if decide (key x = Some d) then [x] else []) ++ bucket l d) ds)
    by (intros; apply bucket_cons).
  rewrite join_map_app, join_single_hit by done.
  rewrite IH by (intros; eapply Hcov; [by right|done]).
  rewrite filter_cons. specialize (Hcov x). destruct (key x) as [k|].
  - rewrite decide_True by (eapply Hcov; [by left|done]). by rewrite decide_True by done.
  - by rewrite decide_False by (intros []; done).
Qed.
End buckets.
