(* ===== verification/Calendar.v ===== *)
(** * Calendar: the proleptic Gregorian calendar of [datetime64]

    pandas stores a timestamp as nanoseconds since 1970-01-01 00:00:00
    and converts it to and from a calendar date (year, month, day)
    when it parses a text column ([pd.to_datetime], lines 75-76), when
    a date is taken from a timestamp ([st.date_input] with
    [value=[min_date, max_date]], lines 86-91) and when a date is
    printed ([str(start_date)], lines 94-95).  This file models the
    two conversions on day numbers: [days_from_civil] (the day number
    of a date) and [civil_from_days] (the date of a day number), and
    proves them mutually inverse on valid dates and order-preserving.
    Years are counted from March ([march_year]), so that the leap day
    ends a year: [years_days Y] is the number of days from 0000-03-01
    to Y-03-01.  The proofs are arithmetic on floor division; only the
    twelve-month table is checked by evaluation. *)

From S2P Require Import Prelude.

Local Open Scope Z_scope.

(** ** Definitions *)

Definition is_leap (y : Z) : bool :=
  ((y mod 4 =? 0) && negb (y mod 100 =? 0)) || (y mod 400 =? 0).

Definition days_in_month (y m : Z) : Z :=
  if m =? 2 then (if is_leap y then 29 else 28)
  else if (m =? 4) || (m =? 6) || (m =? 9) || (m =? 11) then 30
  else 31.

Definition valid_date (y m d : Z) : bool :=
  (1 <=? m) && (m <=? 12) && (1 <=? d) && (d <=? days_in_month y m).

(** Days from 0000-03-01 to Y-03-01. *)
Definition years_days (Y : Z) : Z := 365 * Y + Y `div` 4 - Y `div` 100 + Y `div` 400.

(** The year counted from March, and the month counted from March (0
    for March, 11 for February). *)
Definition march_year (y m : Z) : Z := if m <=? 2 then y - 1 else y.
Definition march_month (m : Z) : Z := (m + 9) `mod` 12.

(** Days from March 1 to the first day of the [mp]-th month from March. *)
Definition month_offset (mp : Z) : Z := (153 * mp + 2) `div` 5.

(** 0000-03-01 is 719468 days before 1970-01-01. *)
Definition epoch_shift : Z := 719468.

Definition days_from_civil (y m d : Z) : Z :=
  years_days (march_year y m) + month_offset (march_month m) + d - 1 - epoch_shift.

(** The March-year containing day [z'] (counted from 0000-03-01): an
    estimate from the mean year of 146097/400 days, corrected by one. *)
Definition year_of (z' : Z) : Z :=
  let Y0 := (400 * z') `div` 146097 in
  if z' <? years_days Y0 then Y0 - 1
  else if years_days (Y0 + 1) <=? z' then Y0 + 1
  else Y0.

(** Month from March of a day of the March-year. *)
Definition month_of_doy (doy : Z) : Z := (5 * doy + 2) `div` 153.

Definition civil_month (mp : Z) : Z := if mp <? 10 then mp + 3 else mp - 9.

Definition civil_from_days (z : Z) : Z * Z * Z :=
  let z' := z + epoch_shift in
  let Y := year_of z' in
  let doy := z' - years_days Y in
  let mp := month_of_doy doy in
  let m := civil_month mp in
  (if m <=? 2 then Y + 1 else Y, m, doy - month_offset mp + 1).

(** The date read as the number YYYYMMDD: on valid dates its order is
    the lexicographic order of (year, month, day). *)
Definition date_key (ymd : Z * Z * Z) : Z :=
  let '(y, m, d) := ymd in y * 10000 + m * 100 + d.

(** ** Years *)

Lemma div_succ_diff n Y :
  0 < n → (Y + 1) `div` n - Y `div` n = if (Y + 1) mod n =? 0 then 1 else 0.
Proof.
  intros Hn. destruct (Z.eqb_spec ((Y + 1) mod n) 0) as [H0|H0];
    Z.div_mod_to_equations; nia.
Qed.

Lemma leap_indicator y :
  (if y mod 4 =? 0 then 1 else 0) - (if y mod 100 =? 0 then 1 else 0) +
  (if y mod 400 =? 0 then 1 else 0) = if is_leap y then 1 else 0.
Proof.
  unfold is_leap.
  destruct (Z.eqb_spec (y mod 4) 0), (Z.eqb_spec (y mod 100) 0), (Z.eqb_spec (y mod 400) 0);
    simpl; try lia; exfalso; Z.div_mod_to_equations; lia.
Qed.

Lemma years_days_succ Y :
  years_days (Y + 1) = years_days Y + 365 + (if is_leap (Y + 1) then 1 else 0).
Proof.
  rewrite <-leap_indicator, <-!div_succ_diff by lia. unfold years_days. lia.
Qed.

Lemma years_days_bounds Y :
  146097 * Y - 699 ≤ 400 * years_days Y ≤ 146097 * Y + 396.
Proof. unfold years_days. Z.div_mod_to_equations. lia. Qed.

Lemma years_days_add Y (n : nat) : years_days Y + 365 * Z.of_nat n ≤ years_days (Y + Z.of_nat n).
Proof.
  induction n as [|n IH]; [simpl; rewrite !Z.add_0_r; lia|].
  rewrite Nat2Z.inj_succ, <-Z.add_1_r, Z.add_assoc, years_days_succ. destruct (is_leap _); lia.
Qed.

Lemma years_days_lt Y1 Y2 : Y1 ≤ Y2 → years_days Y1 + 365 * (Y2 - Y1) ≤ years_days Y2.
Proof.
  intros Hle. pose proof (years_days_add Y1 (Z.to_nat (Y2 - Y1))) as H.
  rewrite Z2Nat.id in H by lia. by replace (Y1 + (Y2 - Y1)) with Y2 in H by lia.
Qed.

(** The March-year of a day is unique. *)
Lemma year_unique z' Y1 Y2 :
  years_days Y1 ≤ z' < years_days (Y1 + 1) → years_days Y2 ≤ z' < years_days (Y2 + 1) →
  Y1 = Y2.
Proof.
  intros H1 H2. destruct (Z.lt_trichotomy Y1 Y2) as [Hlt|[->|Hlt]]; [|done|].
  - pose proof (years_days_lt (Y1 + 1) Y2 ltac:(lia)). lia.
  - pose proof (years_days_lt (Y2 + 1) Y1 ltac:(lia)). lia.
Qed.

Lemma year_of_spec z' : years_days (year_of z') ≤ z' < years_days (year_of z' + 1).
Proof.
  unfold year_of. set (Y0 := (400 * z') `div` 146097).
  assert (146097 * Y0 ≤ 400 * z' < 146097 * (Y0 + 1)) as HY0
    by (subst Y0; Z.div_mod_to_equations; lia).
  pose proof (years_days_bounds (Y0 - 1)). pose proof (years_days_bounds (Y0 + 2)).
  destruct (Z.ltb_spec z' (years_days Y0)) as [Hlt|Hge].
  - rewrite Z.sub_add. lia.
  - destruct (Z.leb_spec (years_days (Y0 + 1)) z'); [|lia].
    replace (Y0 + 1 + 1) with (Y0 + 2) by lia. lia.
Qed.

(** ** The month table *)

Lemma month_offset_mono a b : a ≤ b → month_offset a ≤ month_offset b.
Proof. intros Hab. unfold month_offset. apply Z.div_le_mono; lia. Qed.

(** The month of a day of the year is the one whose offsets bracket it. *)
Lemma month_bracket_unique doy a b :
  month_offset a ≤ doy < month_offset (a + 1) → month_offset b ≤ doy < month_offset (b + 1) →
  a = b.
Proof.
  intros Ha Hb. destruct (Z.lt_trichotomy a b) as [Hlt|[?|Hlt]]; [|done|].
  - pose proof (month_offset_mono (a + 1) b ltac:(lia)). lia.
  - pose proof (month_offset_mono (b + 1) a ltac:(lia)). lia.
Qed.

(** Checked on the 366 days of a March-year: each lies in the month
    [month_of_doy] names. *)
Lemma month_of_doy_spec : ∀ doy,
  0 ≤ doy < 366 →
  0 ≤ month_of_doy doy ≤ 11 ∧
  month_offset (month_of_doy doy) ≤ doy < month_offset (month_of_doy doy + 1).
Proof. refine (seqZ_check_decide _ _ _ _). by vm_compute. Qed.

(** Checked on the twelve months: the two numberings are inverse, a
    month is January or February exactly when it is one of the last two
    from March, and every month other than February has the length the
    offsets give it. *)
Lemma march_month_spec : ∀ m,
  1 ≤ m < 13 →
  0 ≤ march_month m ≤ 11 ∧ civil_month (march_month m) = m ∧
  (m ≤ 2 ↔ 10 ≤ march_month m) ∧
  (m ≠ 2 → month_offset (march_month m + 1) - month_offset (march_month m) =
           days_in_month 1 m).
Proof. refine (seqZ_check_decide _ _ _ _). by vm_compute. Qed.

Lemma civil_month_spec : ∀ mp,
  0 ≤ mp < 12 → 1 ≤ civil_month mp ≤ 12 ∧ march_month (civil_month mp) = mp.
Proof. refine (seqZ_check_decide _ _ _ _). by vm_compute. Qed.

Lemma days_in_month_not_feb y y' m : m ≠ 2 → days_in_month y m = days_in_month y' m.
Proof. unfold days_in_month. intros Hm. by rewrite (proj2 (Z.eqb_neq m 2) Hm). Qed.

Lemma days_in_feb y : days_in_month y 2 = 28 + (if is_leap y then 1 else 0).
Proof. unfold days_in_month. simpl. by destruct (is_leap y). Qed.

Lemma month_offset_feb : month_offset 11 = 337.
Proof. done. Qed.

Lemma month_offset_end : month_offset 12 = 367.
Proof. done. Qed.

(** ** The two conversions are inverse *)

Lemma year_length Y :
  years_days (Y + 1) - years_days Y = 365 + (if is_leap (Y + 1) then 1 else 0).
Proof. rewrite years_days_succ. lia. Qed.

(** Every day number is the day number of the date it converts to, and
    that date is valid. *)
Theorem civil_from_days_inv z :
  let '(y, m, d) := civil_from_days z in valid_date y m d = true ∧ days_from_civil y m d = z.
Proof.
  unfold civil_from_days. set (z' := z + epoch_shift). set (Y := year_of z').
  set (doy := z' - years_days Y). set (mp := month_of_doy doy).
  pose proof (year_of_spec z') as HY. fold Y in HY. pose proof (year_length Y) as Hlen.
  assert (0 ≤ doy < 366) as Hdoy by (destruct (is_leap _); lia).
  destruct (month_of_doy_spec doy Hdoy) as (Hmp & Hlo & Hhi). fold mp in Hmp, Hlo, Hhi.
  destruct (civil_month_spec mp ltac:(lia)) as (Hm & Hmm).
  destruct (march_month_spec (civil_month mp) ltac:(lia)) as (_ & _ & Hjf & Hlen_m).
  rewrite Hmm in Hjf, Hlen_m.
  assert (march_year (if civil_month mp <=? 2 then Y + 1 else Y) (civil_month mp) = Y) as HmY.
  { unfold march_year. destruct (Z.leb_spec (civil_month mp) 2); lia. }
  split.
  - unfold valid_date. apply andb_true_iff; split; [apply andb_true_iff; split|];
      [apply andb_true_iff; split| |]; try (apply Z.leb_le; lia).
    apply Z.leb_le. destruct (decide (civil_month mp = 2)) as [Hfeb|Hfeb].
    + assert (mp = 11) as Hmp11.
      { assert (mp = 10 ∨ mp = 11) as [H10|H11] by lia; [|done].
        rewrite H10 in Hfeb. by vm_compute in Hfeb. }
      rewrite Hfeb, days_in_feb. simpl. rewrite Hmp11, month_offset_feb.
      destruct (is_leap (Y + 1)); lia.
    + rewrite (days_in_month_not_feb _ 1 _ Hfeb), <-(Hlen_m Hfeb). lia.
  - unfold days_from_civil. rewrite HmY, Hmm. lia.
Qed.

Lemma valid_date_spec y m d :
  valid_date y m d = true ↔ 1 ≤ m ≤ 12 ∧ 1 ≤ d ≤ days_in_month y m.
Proof. unfold valid_date. rewrite !andb_true_iff, !Z.leb_le. lia. Qed.

(** The day of a valid date lies within its March-year, in its month. *)
Lemma valid_date_doy y m d :
  valid_date y m d = true →
  let mp := march_month m in
  let doy := month_offset mp + d - 1 in
  0 ≤ doy < years_days (march_year y m + 1) - years_days (march_year y m) ∧
  month_offset mp ≤ doy < month_offset (mp + 1).
Proof.
  intros (Hm & Hd)%valid_date_spec. cbv zeta.
  destruct (march_month_spec m ltac:(lia)) as (Hmp & Hcm & Hjf & Hlen_m).
  rewrite year_length. pose proof (month_offset_mono 0 (march_month m) ltac:(lia)) as H0.
  change (month_offset 0) with 0 in H0.
  destruct (decide (m = 2)) as [->|Hfeb].
  - assert (march_month 2 = 11) as -> by done. rewrite month_offset_feb.
    change (month_offset (11 + 1)) with 367.
    rewrite days_in_feb in Hd. unfold march_year. simpl. rewrite Z.sub_add.
    destruct (is_leap y); lia.
  - rewrite (days_in_month_not_feb _ 1 _ Hfeb), <-(Hlen_m Hfeb) in Hd.
    assert (march_month m ≠ 11) by (intros Heq; rewrite Heq in Hcm; by subst m).
    pose proof (month_offset_mono (march_month m + 1) 11 ltac:(lia)).
    rewrite month_offset_feb in *. destruct (is_leap _); lia.
Qed.

(** Every valid date is the date of its day number. *)
Theorem days_from_civil_inv y m d :
  valid_date y m d = true → civil_from_days (days_from_civil y m d) = (y, m, d).
Proof.
  intros Hv. destruct (valid_date_doy y m d Hv) as [Hyear Hmonth].
  apply valid_date_spec in Hv as [Hm Hd].
  destruct (march_month_spec m ltac:(lia)) as (Hmp & Hcm & Hjf & _).
  unfold civil_from_days, days_from_civil.
  set (Y := march_year y m) in *. set (mp := march_month m) in *.
  replace (years_days Y + month_offset mp + d - 1 - epoch_shift + epoch_shift)
    with (years_days Y + (month_offset mp + d - 1)) by lia.
  assert (year_of (years_days Y + (month_offset mp + d - 1)) = Y) as ->.
  { apply (year_unique (years_days Y + (month_offset mp + d - 1))); [apply year_of_spec | lia]. }
  replace (years_days Y + (month_offset mp + d - 1) - years_days Y)
    with (month_offset mp + d - 1) by lia.
  destruct (month_of_doy_spec (month_offset mp + d - 1)) as (_ & Hbr);
    [pose proof (year_length Y); destruct (is_leap _); lia|].
  rewrite (month_bracket_unique _ _ _ Hbr Hmonth), Hcm.
  f_equal; [|lia]. f_equal. subst Y. unfold march_year.
  destruct (Z.leb_spec m 2); lia.
Qed.

(** ** The conversions preserve order *)

(** [date_key] of a date less its year part, for the day [doy] of a
    March-year (January and February belong to the next civil year). *)
Definition doy_key (doy : Z) : Z :=
  let mp := month_of_doy doy in
  let m := civil_month mp in
  (if m <=? 2 then 10000 else 0) + m * 100 + (doy - month_offset mp + 1).

Lemma date_key_civil z :
  date_key (civil_from_days z) =
  year_of (z + epoch_shift) * 10000 +
  doy_key (z + epoch_shift - years_days (year_of (z + epoch_shift))).
Proof.
  unfold civil_from_days, date_key, doy_key.
  destruct (civil_month _ <=? 2); lia.
Qed.

(** Checked on the days of a March-year: the key grows from one day to
    the next, and stays below the key of the next March 1. *)
Lemma doy_key_succ : ∀ doy, 0 ≤ doy < 365 → doy_key doy < doy_key (doy + 1).
Proof. refine (seqZ_check_decide _ _ _ _). by vm_compute. Qed.

Lemma doy_key_below_next_year : ∀ doy, 0 ≤ doy < 366 → doy_key doy < 10000 + doy_key 0.
Proof. refine (seqZ_check_decide _ _ _ _). by vm_compute. Qed.

Lemma date_key_civil_succ z : date_key (civil_from_days z) < date_key (civil_from_days (z + 1)).
Proof.
  rewrite !date_key_civil. replace (z + 1 + epoch_shift) with (z + epoch_shift + 1) by lia.
  set (z' := z + epoch_shift). set (Y := year_of z').
  pose proof (year_of_spec z') as HY. fold Y in HY. pose proof (year_length Y) as Hlen.
  destruct (decide (z' + 1 = years_days (Y + 1))) as [Hend|Hin].
  - assert (year_of (z' + 1) = Y + 1) as ->.
    { apply (year_unique (z' + 1)); [apply year_of_spec|].
      pose proof (years_days_lt (Y + 1) (Y + 1 + 1) ltac:(lia)). lia. }
    rewrite Hend, Z.sub_diag. pose proof (doy_key_below_next_year (z' - years_days Y)).
    destruct (is_leap (Y + 1)); lia.
  - assert (year_of (z' + 1) = Y) as -> by (apply (year_unique (z' + 1)); [apply year_of_spec|lia]).
    replace (z' + 1 - years_days Y) with (z' - years_days Y + 1) by lia.
    pose proof (doy_key_succ (z' - years_days Y)). destruct (is_leap (Y + 1)); lia.
Qed.

Lemma date_key_civil_add z (n : nat) :
  date_key (civil_from_days z) < date_key (civil_from_days (z + Z.of_nat (S n))).
Proof.
  induction n as [|n IH]; [apply date_key_civil_succ|].
  etrans; [apply IH|]. rewrite (Nat2Z.inj_succ (S n)), <-Z.add_1_r, Z.add_assoc.
  apply date_key_civil_succ.
Qed.

(** [civil_from_days] is strictly increasing for the order of dates. *)
Lemma civil_from_days_lt z1 z2 :
  z1 < z2 → date_key (civil_from_days z1) < date_key (civil_from_days z2).
Proof.
  intros Hlt. pose proof (date_key_civil_add z1 (Z.to_nat (z2 - z1 - 1))) as H.
  by replace (z1 + Z.of_nat (S (Z.to_nat (z2 - z1 - 1)))) with z2 in H by lia.
Qed.

Lemma date_key_lt_iff y1 m1 d1 y2 m2 d2 :
  1 ≤ m1 ≤ 12 → 1 ≤ d1 ≤ 31 → 1 ≤ m2 ≤ 12 → 1 ≤ d2 ≤ 31 →
  date_key (y1, m1, d1) < date_key (y2, m2, d2) ↔
  y1 < y2 ∨ (y1 = y2 ∧ (m1 < m2 ∨ (m1 = m2 ∧ d1 < d2))).
Proof. simpl. lia. Qed.

(** On valid dates, the day numbers are in the order of the dates. *)
Lemma days_from_civil_lt_iff y1 m1 d1 y2 m2 d2 :
  valid_date y1 m1 d1 = true → valid_date y2 m2 d2 = true →
  days_from_civil y1 m1 d1 < days_from_civil y2 m2 d2 ↔
  date_key (y1, m1, d1) < date_key (y2, m2, d2).
Proof.
  intros H1 H2. split.
  - intros Hlt. pose proof (civil_from_days_lt _ _ Hlt) as H.
    by rewrite !days_from_civil_inv in H.
  - intros Hk. destruct (Z.lt_trichotomy (days_from_civil y1 m1 d1) (days_from_civil y2 m2 d2))
      as [|[Heq|Hgt]]; [done| |].
    + apply (f_equal civil_from_days) in Heq. rewrite !days_from_civil_inv in Heq by done.
      simplify_eq. lia.
    + pose proof (civil_from_days_lt _ _ Hgt) as H. rewrite !days_from_civil_inv in H by done. lia.
Qed.

Lemma date_key_civil_le z1 z2 :
  z1 ≤ z2 → date_key (civil_from_days z1) ≤ date_key (civil_from_days z2).
Proof.
  intros Hle. destruct (Z.eq_dec z1 z2) as [->|Hne]; [lia|].
  pose proof (civil_from_days_lt z1 z2 ltac:(lia)). lia.
Qed.

(** Pandas' calendar conversions are inverse and monotone: every
    day number is the day number of its date, which is a valid date;
    every valid date is the date of its day number; and one day is
    before another exactly when its date is (compared as YYYYMMDD). *)
Theorem calendar_roundtrip :
  (∀ z, let '(y, m, d) := civil_from_days z in
        valid_date y m d = true ∧ days_from_civil y m d = z) ∧
  (∀ y m d, valid_date y m d = true → civil_from_days (days_from_civil y m d) = (y, m, d)) ∧
  (∀ z1 z2, z1 < z2 ↔ date_key (civil_from_days z1) < date_key (civil_from_days z2)).
Proof.
  split_and!; [apply civil_from_days_inv | apply days_from_civil_inv |].
  intros z1 z2. split; [apply civil_from_days_lt|].
  intros Hk. destruct (Z.lt_ge_cases z1 z2) as [?|Hge]; [done|].
  pose proof (date_key_civil_le _ _ Hge). lia.
Qed.
