(* ===== verification/Sort.v ===== *)
(** * Sort: the [sort_values] contract and two of its implementations

    pandas' [sort_values] with its default [kind='quicksort'] returns a
    permutation of the rows sorted by the key, and leaves the order of
    tied rows unspecified.  [SortValues] is that contract as a class:
    the components that sort (the load at line 68, the category and
    state tables at lines 36 and 44, [value_counts] at lines 196-200)
    are parameterised by it, so their theorems hold for every tie order.
    Three lawful instances discharge it: [insertion_sort_values]
    (stable), [merge_sort_values] (stdpp's merge sort, which reorders
    ties) and [reversed_ties_sort_values] (ties in reverse order).
    The file also holds what a client may conclude from the contract
    alone ([elem_of_sort_values], [sort_values_desc_head]) and the
    specification [first_max] of the first row of largest value. *)

From S2P Require Import Prelude.

(** ** [sort_values]: any sorted permutation *)

(** The contract of [DataFrame.sort_values]: the result is a permutation
    of the rows, sorted by the given (total, transitive) order.  The
    relation [R a b] reads "a may come before b". *)
Class SortValues := {
  sort_values {A} (R : relation A) `{!RelDecision R} : list A → list A;
  sort_values_Permutation {A} (R : relation A) `{!RelDecision R} l :
    sort_values R l ≡ₚ l;
  sort_values_sorted {A} (R : relation A) `{!RelDecision R, !Transitive R, !Total R} l :
    StronglySorted R (sort_values R l)
}.

(** [sort_values(by=c, ascending=False)] and [ascending=True] on a count
    column [f]. *)
Definition desc_by {A} (f : A → nat) : relation A := λ a b, f b ≤ f a.
Definition asc_by {A} (f : A → nat) : relation A := λ a b, f a ≤ f b.

Section order_instances.
  Context {A : Type} (f : A → nat).
#[export] Instance desc_by_dec : RelDecision (desc_by f).
Proof. intros a b. unfold desc_by. apply _. Defined.
#[export] Instance asc_by_dec : RelDecision (asc_by f).
Proof. intros a b. unfold asc_by. apply _. Defined.
#[export] Instance desc_by_trans : Transitive (desc_by f).
Proof. unfold desc_by. intros ???; lia. Qed.
#[export] Instance asc_by_trans : Transitive (asc_by f).
Proof. unfold asc_by. intros ???; lia. Qed.
#[export] Instance desc_by_total : Total (desc_by f).
Proof. unfold desc_by. intros ??; lia. Qed.
#[export] Instance asc_by_total : Total (asc_by f).
Proof. unfold asc_by. intros ??; lia. Qed.
End order_instances.

(** The specification [idxmax] meets: [x] is the row at position [i] of
  [l], no row is larger, and every earlier row is strictly smaller. *)
Definition first_max {A} (f : A → nat) (l : list A) (i : nat) (x : A) : Prop :=
l !! i = Some x ∧ (∀ y, y ∈ l → f y ≤ f x) ∧ (∀ j y, j < i → l !! j = Some y → f y < f x).

(** Insertion into a sorted list, before the first row it may precede:
  rows that tie keep their input order. *)
Fixpoint insert_by {A} (R : relation A) `{!RelDecision R} (x : A) (l : list A) : list A :=
match l with
| [] => [x]
| y :: l => if decide (R x y) then x :: y :: l else y :: insert_by R x l
end.

Definition insertion_sort {A} (R : relation A) `{!RelDecision R} (l : list A) : list A :=
foldr (insert_by R) [] l.

Section insertion_sort.
Context {A : Type} (R : relation A) `{!RelDecision R}.

Lemma insert_by_Permutation x l : insert_by R x l ≡ₚ x :: l.
Proof.
induction l as [|y l IH]; [done|]. simpl. case_decide; [done|].
rewrite IH. apply Permutation_swap.
Qed.

Lemma insertion_sort_Permutation l : insertion_sort R l ≡ₚ l.
Proof.
  induction l as [|x l IH]; [done|]. simpl. by rewrite insert_by_Permutation, IH.
Qed.

Lemma insertion_sort_sorted `{!Transitive R, !Total R} l :
  StronglySorted R (insertion_sort R l).
Proof.
  induction l as [|x l IH]; simpl; [constructor|].
  induction IH as [|y k Hk IHk Hall]; simpl; [repeat constructor|].
  case_decide as Hxy.
  - constructor; [by constructor|]. constructor; [done|].
    eapply Forall_impl; [apply Hall|]. intros z Hyz. by trans y.
  - assert (R y x) as Hyx by (destruct (total R x y); [contradiction|done]).
    constructor; [done|]. rewrite insert_by_Permutation. by constructor.
Qed.

(** Stability: rows that all tie are left in their order. *)
Lemma insertion_sort_tied l :
  (∀ x y, x ∈ l → y ∈ l → R x y) → insertion_sort R l = l.
Proof.
  induction l as [|x l IH]; intros Htie; [done|]. simpl.
  rewrite IH by (intros; apply Htie; by right).
  destruct l as [|y l]; simpl; [done|].
  rewrite decide_True by (apply Htie; [left | right; left]). done.
Qed.
End insertion_sort.

(** A stable sort commutes with a map that carries the order: sorting
    the images gives the images of the sorted list. *)
Section insertion_sort_fmap.
Context {A B : Type} (R : relation A) `{!RelDecision R} (R' : relation B) `{!RelDecision R'}
  (f : A → B).

Lemma insert_by_fmap x l :
  (∀ y, y ∈ l → R x y ↔ R' (f x) (f y)) →
  f <$> insert_by R x l = insert_by R' (f x) (f <$> l).
Proof.
  induction l as [|y l IH]; intros Hxy; [done|]. simpl.
  pose proof (Hxy y ltac:(left)) as Hy.
  destruct (decide (R x y)) as [H1|H1], (decide (R' (f x) (f y))) as [H2|H2]; [done|tauto|tauto|].
  rewrite fmap_cons, IH; [done|]. intros z Hz. apply Hxy. by right.
Qed.

Lemma insertion_sort_fmap l :
  (∀ x y, x ∈ l → y ∈ l → R x y ↔ R' (f x) (f y)) →
  f <$> insertion_sort R l = insertion_sort R' (f <$> l).
Proof.
  induction l as [|x l IH]; intros Hord; [done|]. simpl.
  rewrite insert_by_fmap, IH; [done| |].
  - intros y y' Hy Hy'. apply Hord; by right.
  - intros y Hy. rewrite (insertion_sort_Permutation R l) in Hy. apply Hord; [left|by right].
Qed.
End insertion_sort_fmap.

(** Stability: the first row of a descending insertion sort is the
    first row of largest value. *)
Lemma insertion_sort_desc_head {A} (f : A → nat) l x l' :
  insertion_sort (desc_by f) l = x :: l' → ∃ i, first_max f l i x.
Proof.
  revert x l'. induction l as [|y l IH]; intros x l' Hs; [done|]. simpl in Hs.
  destruct (insertion_sort (desc_by f) l) as [|h t] eqn:Hl.
  { simpl in Hs. injection Hs as <- <-. exists 0. split_and!; [done| |lia].
    assert (l = []) as ->.
    { apply Permutation_nil_r. rewrite <-(insertion_sort_Permutation (desc_by f) l), Hl. done. }
    by intros z ->%list_elem_of_singleton. }
  destruct (IH h t eq_refl) as (i & Hi & Hmax & Hfirst). simpl in Hs. unfold desc_by in Hs.
  case_decide as Hyh; injection Hs as <- _.
  - exists 0. split_and!; [done| |lia].
    intros z [->|Hz]%elem_of_cons; [done|]. specialize (Hmax z Hz). lia.
  - exists (S i). split_and!; [done| |].
    + intros z [->|Hz]%elem_of_cons; [lia|by apply Hmax].
    + intros [|j] z Hj Hz; simpl in Hz; [injection Hz as <-; lia|].
      apply (Hfirst j); [lia|done].
Qed.

(** A stable implementation of the contract: what numpy's quicksort does
    on fewer than 17 rows, where it falls back to insertion sort. *)
Definition insertion_sort_values : SortValues.
Proof.
  refine {| sort_values A R _ := insertion_sort R |}.
  - intros. apply insertion_sort_Permutation.
  - intros. by apply insertion_sort_sorted.
Defined.

(** stdpp's merge sort, another implementation of the contract: its
    last merges put later runs first, so tied rows can change order
    (on three tied rows [a; b; c] it returns [c; a; b]). *)
Definition merge_sort_values : SortValues.
Proof.
  refine {| sort_values A R _ := merge_sort R |}.
  - intros. apply merge_sort_Permutation.
  - intros. by apply StronglySorted_merge_sort.
Defined.

(** A third implementation of the contract: a stable sort of the rows
    taken in reverse, so tied rows come out in reverse input order.
    numpy's default sort is an introsort, which is not stable from 17
    rows on; the contract, not one tie order, is what pandas promises. *)
Definition reversed_ties_sort_values : SortValues.
Proof.
  refine {| sort_values A R _ l := insertion_sort R (reverse l) |}.
  - intros. by rewrite insertion_sort_Permutation, reverse_Permutation.
  - intros. by apply insertion_sort_sorted.
Defined.

(** ** Consequences of the [sort_values] contract *)

(** In a sorted list every element of the first [n] precedes every
    element after them. *)
Lemma StronglySorted_take_drop {A} (R : relation A) l n x y :
  StronglySorted R l → x ∈ take n l → y ∈ drop n l → R x y.
Proof.
  intros Hs (i & Hi & Hin)%elem_of_take Hy. apply list_elem_of_lookup in Hy as [j Hj].
  rewrite lookup_drop in Hj. apply (StronglySorted_lookup_lt R l i (n + j) x y Hs Hi Hj). lia.
Qed.

Section sort_values_facts.
  Context `{SortValues} {A : Type}.

Lemma elem_of_sort_values (R : relation A) `{!RelDecision R} x l :
  x ∈ sort_values R l ↔ x ∈ l.
Proof. by rewrite sort_values_Permutation. Qed.

Lemma length_sort_values (R : relation A) `{!RelDecision R} l :
  length (sort_values R l) = length l.
Proof. by rewrite sort_values_Permutation. Qed.

(** The first row of a descending sort carries the largest value. *)
Lemma sort_values_desc_head (f : A → nat) l x l' :
  sort_values (desc_by f) l = x :: l' → ∀ y, y ∈ l → f y ≤ f x.
Proof.
  intros Hs y Hy. pose proof (sort_values_sorted (desc_by f) l) as Hss.
  rewrite Hs in Hss. apply StronglySorted_inv in Hss as [_ Hall].
  rewrite <-(elem_of_sort_values (desc_by f)), Hs in Hy.
  apply elem_of_cons in Hy as [->|Hy]; [done|].
  rewrite Forall_forall in Hall. exact (Hall y Hy).
Qed.
End sort_values_facts.

(** The last row of a list sorted by a descending count has the
    smallest count. *)
Lemma StronglySorted_desc_last {A} (f : A → nat) l x :
  StronglySorted (desc_by f) (l ++ [x]) → ∀ y, y ∈ l ++ [x] → f x ≤ f y.
Proof.
  induction l as [|z l IH]; intros Hs y Hy; simpl in *.
  - apply list_elem_of_singleton in Hy as ->. done.
  - apply StronglySorted_inv in Hs as [Hs Hall]. apply elem_of_cons in Hy as [->|Hy]; [|by apply IH].
    rewrite Forall_forall in Hall. apply (Hall x). set_solver.
Qed.
