(* ===== verification/Frame.v ===== *)
(** * Frame: the pandas operations the dashboard calls

    The dashboard delegates its tabular work to pandas.  This file gives
    the executable meaning of each call the source makes, at the level of
    detail the source relies on ([sort_values] is the class of [Sort]):
    - [resample(rule='D', on=c)] as [resample_D]: one bin per calendar day
      from the first to the last day present, empty days included, rows
      whose timestamp is NaT dropped;
    - [groupby(key)] as [groupby]: one group per distinct non-missing key,
      in ascending key order ([sort=True]);
    - [Series.idxmax] as [idxmax]: first position of the maximum, raising
      [ValueError] on an empty series;
    - [value_counts] and [drop_duplicates(keep='first')]. *)

From S2P Require Import Prelude Sort.

(** ** Column reductions with missing values *)

(** [Series.sum] skips NaN; the sum of no values is 0. *)
Definition sum_skipna (l : list (option Z)) : Z := Σ (omap id l).

(** [Series.count]: the number of non-missing values. *)
Definition count_notna {A} (l : list (option A)) : nat := length (omap id l).

(** ** [resample(rule='D', on=c)] *)

(** Timestamps are [datetime64[ns]]: nanoseconds since the epoch.  A
    daily bin is labelled by the midnight that starts it. *)
Definition ns_per_day : Z := 86400 * 1000000000.

Definition floor_day (t : Z) : Z := t `div` ns_per_day.

Section resample.
  Context {R B : Type} (ts : R → option Z).

(** The calendar day of a row, NaT giving none. *)
Definition row_day (r : R) : option Z := floor_day <$> ts r.

(** The bins: every day from the first to the last day present. *)
Definition resample_bins (rows : list R) : list Z :=
    match omap row_day rows with
    | [] => []
    | d :: ds => let lo := foldr Z.min d ds in
                 let hi := foldr Z.max d ds in
                 seqZ lo (hi - lo + 1)
    end.

(** [df.resample(rule='D', on=c).agg(...)]: one row per bin, labelled
    by the bin's first instant, aggregating the rows of that day. *)
Definition resample_D (agg : list R → B) (rows : list R) : list (Z * B) :=
    (λ k, (k * ns_per_day, agg (bucket row_day rows k)))%Z <$> resample_bins rows.
End resample.

(** ** [groupby(key)] *)

(** The group keys: the distinct non-missing keys in ascending order
    (pandas drops NaN keys and sorts the keys by default). *)
Definition group_keys {R} (key : R → option string) (rows : list R) : list string :=
  merge_sort String.le (remove_dups (omap key rows)).

(** [df.groupby(key)[...].agg().reset_index()]: one row per key. *)
Definition groupby {R B} (key : R → option string) (agg : list R → B) (rows : list R)
    : list (string * B) :=
  (λ k, (k, agg (bucket key rows k))) <$> group_keys key rows.

(** ** [Series.idxmax] *)

(** Scan keeping the first row of largest value seen so far: a later
    row replaces it only when strictly larger. *)
Fixpoint idxmax_go {A} (f : A → nat) (best : A) (l : list A) : A :=
  match l with
  | [] => best
  | x :: l => idxmax_go f (if decide (f best < f x) then x else best) l
  end.

(** [df.loc[df[c].idxmax()]]: the first row of maximal [f]; an empty
    series raises [ValueError] ("attempt to get argmax of an empty
    sequence"). *)
Definition idxmax {A} (f : A → nat) (l : list A) : result A :=
  match l with
  | [] => Raise ValueError
  | x :: l => Ok (idxmax_go f x l)
  end.

(** ** [drop_duplicates(subset=key, keep='first')] *)

(** The rows whose key was not seen before, in order; [seen] is the
    hash set of keys met so far.  NaN keys compare equal here, as in
    [DataFrame.duplicated]. *)
Fixpoint drop_duplicates_go {A K} `{EqDecision K} (key : A → K) (seen : list K) (l : list A)
    : list A :=
  match l with
  | [] => []
  | x :: l =>
      if decide (key x ∈ seen) then drop_duplicates_go key seen l
      else x :: drop_duplicates_go key (key x :: seen) l
  end.

Definition drop_duplicates {A K} `{EqDecision K} (key : A → K) (l : list A) : list A :=
  drop_duplicates_go key [] l.

(** ** [Series.value_counts()] and [Index[0]] *)

(** The count of each distinct non-missing value, in order of first
    appearance, then sorted by count descending with [sort_values]. *)
Definition value_counts `{SortValues} (l : list (option string)) : list (string * nat) :=
  sort_values (desc_by snd)
    ((λ k, (k, length (filter (λ x, x = Some k) l))) <$> drop_duplicates id (omap id l)).

(** [s.index[0]]: the first label, [IndexError] on an empty index. *)
Definition index0 {B} (l : list (string * B)) : result string :=
  match l with
  | [] => Raise IndexError
  | (k, _) :: _ => Ok k
  end.

(** ** Daily bins *)

Lemma floor_day_spec t :
  (ns_per_day * floor_day t ≤ t < ns_per_day * floor_day t + ns_per_day)%Z.
Proof.
  unfold floor_day. pose proof (Z.div_mod t ns_per_day ltac:(done)).
  pose proof (Z.mod_pos_bound t ns_per_day ltac:(done)). lia.
Qed.

Lemma foldr_min_le d ds x : x ∈ d :: ds → (foldr Z.min d ds ≤ x)%Z.
Proof.
  induction ds as [|d' ds IH]; intros Hx; simpl; [apply list_elem_of_singleton in Hx; lia|].
  rewrite !elem_of_cons in Hx. destruct Hx as [->|[->|Hx]];
    [specialize (IH (proj2 (elem_of_cons _ _ _) (or_introl eq_refl))) | |
     specialize (IH (proj2 (elem_of_cons _ _ _) (or_intror Hx)))]; lia.
Qed.

Lemma foldr_max_ge d ds x : x ∈ d :: ds → (x ≤ foldr Z.max d ds)%Z.
Proof.
  induction ds as [|d' ds IH]; intros Hx; simpl; [apply list_elem_of_singleton in Hx; lia|].
  rewrite !elem_of_cons in Hx. destruct Hx as [->|[->|Hx]];
    [specialize (IH (proj2 (elem_of_cons _ _ _) (or_introl eq_refl))) | |
     specialize (IH (proj2 (elem_of_cons _ _ _) (or_intror Hx)))]; lia.
Qed.

Section resample_facts.
  Context {R : Type} (ts : R → option Z).
  Implicit Types rows : list R.

Lemma filter_row_day rows :
  filter (λ r, is_Some (row_day ts r)) rows = filter (λ r, is_Some (ts r)) rows.
Proof.
  apply list_filter_iff. intros r. unfold row_day.
  split; intros [x Hx]; [apply fmap_Some in Hx as (t & -> & _)|rewrite Hx]; by eexists.
Qed.

Lemma resample_bins_NoDup rows : NoDup (resample_bins ts rows).
Proof. unfold resample_bins. destruct (omap _ rows); [constructor|auto with frame]. Qed.

(** Every day on which a row was approved has its bin. *)
Lemma resample_bins_cover rows r d :
  r ∈ rows → row_day ts r = Some d → d ∈ resample_bins ts rows.
Proof.
  intros Hr Hd. assert (Hin : d ∈ omap (row_day ts) rows)
    by (apply list_elem_of_omap; eauto).
  unfold resample_bins. destruct (omap _ rows) as [|d0 ds]; [set_solver|].
  apply elem_of_seqZ. pose proof (foldr_min_le d0 ds d Hin).
  pose proof (foldr_max_ge d0 ds d Hin). lia.
Qed.

(** The bins are consecutive days: no day is skipped. *)
Lemma resample_bins_consecutive rows i a b :
  resample_bins ts rows !! i = Some a → resample_bins ts rows !! S i = Some b → b = (a + 1)%Z.
Proof.
  unfold resample_bins. destruct (omap _ rows); [done|].
  rewrite !lookup_seqZ. lia.
Qed.

(** Concatenating the day buckets gives back the rows with a timestamp. *)
Lemma resample_buckets_perm rows :
  mjoin (bucket (row_day ts) rows <$> resample_bins ts rows)
    ≡ₚ filter (λ r, is_Some (row_day ts r)) rows.
Proof.
  apply buckets_perm; [apply resample_bins_NoDup|].
  intros. by eapply resample_bins_cover.
Qed.
End resample_facts.

(** ** Group keys *)

Section groupby_facts.
  Context {R : Type} (key : R → option string).
  Implicit Types rows : list R.

Lemma group_keys_Permutation rows :
  group_keys key rows ≡ₚ remove_dups (omap key rows).
Proof. apply merge_sort_Permutation. Qed.

Lemma group_keys_NoDup rows : NoDup (group_keys key rows).
Proof. rewrite group_keys_Permutation. apply NoDup_remove_dups. Qed.

Lemma elem_of_group_keys rows k :
  k ∈ group_keys key rows ↔ ∃ r, r ∈ rows ∧ key r = Some k.
Proof. by rewrite group_keys_Permutation, elem_of_remove_dups, list_elem_of_omap. Qed.

Lemma group_keys_sorted rows : StronglySorted String.le (group_keys key rows).
Proof. apply StronglySorted_merge_sort; apply _. Qed.

Lemma groupby_buckets_perm rows :
  mjoin (bucket key rows <$> group_keys key rows) ≡ₚ filter (λ r, is_Some (key r)) rows.
Proof.
  apply buckets_perm; [apply group_keys_NoDup|].
  intros r k Hr Hk. apply elem_of_group_keys. eauto.
Qed.
End groupby_facts.

#[export] Hint Resolve resample_bins_NoDup group_keys_NoDup : frame.

(** ** [idxmax] returns the first maximal row *)

Section idxmax_facts.
  Context {A : Type} (f : A → nat).

Lemma idxmax_go_first_max p best l i :
  first_max f p i best → ∃ i', first_max f (p ++ l) i' (idxmax_go f best l).
Proof.
  revert p best i. induction l as [|x l IH]; intros p best i (Hi & Hmax & Hfirst); simpl.
  { rewrite app_nil_r. by exists i. }
  rewrite cons_middle, (assoc_L (++)).
  apply IH with (i := if decide (f best < f x) then length p else i).
  case_decide as Hlt; split_and!.
  - by apply list_lookup_middle.
  - intros y [Hy | ->%list_elem_of_singleton]%elem_of_app; [|done].
    specialize (Hmax y Hy). lia.
  - intros j y Hj Hy. rewrite lookup_app_l in Hy by done.
    assert (y ∈ p) as Hyp by (by eapply list_elem_of_lookup_2).
    specialize (Hmax y Hyp). lia.
  - by apply lookup_app_l_Some.
  - intros y [Hy | ->%list_elem_of_singleton]%elem_of_app; [by apply Hmax | lia].
  - intros j y Hj Hy. apply lookup_lt_Some in Hi.
    rewrite lookup_app_l in Hy by lia. by eapply Hfirst.
Qed.

Lemma idxmax_first_max l x : idxmax f l = Ok x → ∃ i, first_max f l i x.
Proof.
  destruct l as [|y l]; simpl; [done|]. intros [= <-].
  apply (idxmax_go_first_max [y] y l 0). split_and!; [done| |lia].
  intros z ->%list_elem_of_singleton. done.
Qed.

Lemma idxmax_raise l e : idxmax f l = Raise e ↔ l = [] ∧ e = ValueError.
Proof. destruct l; simpl; split; intros; simplify_eq/=; naive_solver. Qed.

(** The first maximal row is unique. *)
Lemma first_max_unique l i j x y :
  first_max f l i x → first_max f l j y → i = j ∧ x = y.
Proof.
  intros (Hi & Hxmax & Hxfirst) (Hj & Hymax & Hyfirst).
  assert (x ∈ l) as Hxl by (by eapply list_elem_of_lookup_2).
  assert (y ∈ l) as Hyl by (by eapply list_elem_of_lookup_2).
  destruct (lt_eq_lt_dec i j) as [[Hlt| ->]|Hlt].
  - specialize (Hyfirst i x Hlt Hi). specialize (Hxmax y Hyl). lia.
  - split; congruence.
  - specialize (Hxfirst j y Hlt Hj). specialize (Hymax x Hxl). lia.
Qed.

(** Conversely, a non-empty series always yields its first maximal row. *)
Lemma idxmax_Ok l i x : first_max f l i x → idxmax f l = Ok x.
Proof.
  intros Hfm. destruct (idxmax f l) as [x'|e] eqn:He.
  - destruct (idxmax_first_max l x' He) as [i' Hfm'].
    by destruct (first_max_unique l i i' x x' Hfm Hfm') as [_ ->].
  - apply idxmax_raise in He as [-> _]. destruct Hfm as [Hi _]. by rewrite lookup_nil in Hi.
Qed.
End idxmax_facts.

(** ** [drop_duplicates] keeps the first row of each key *)

Section drop_duplicates_facts.
  Context {A K : Type} `{EqDecision K} (key : A → K).
  Implicit Types (seen : list K) (l : list A).

(** The streaming characterisation: a row appended at the end is kept
    exactly when its key has not been met before. *)
Lemma drop_duplicates_go_snoc seen l x :
  drop_duplicates_go key seen (l ++ [x]) =
  drop_duplicates_go key seen l ++ (if decide (key x ∈ seen ++ (key <$> l)) then [] else [x]).
Proof.
  revert seen. induction l as [|y l IH]; intros seen; simpl.
  { rewrite app_nil_r. by case_decide. }
  change (list_fmap A K key l) with (key <$> l).
  case_decide as Hy; rewrite IH; [f_equal | simpl; do 2 f_equal];
    apply decide_iff; rewrite !elem_of_app, !elem_of_cons, ?elem_of_app; [|tauto].
  split; [tauto|]. intros [?|[Heq|?]]; [tauto | left; by rewrite Heq | tauto].
Qed.

Lemma drop_duplicates_go_elem seen l y :
  y ∈ drop_duplicates_go key seen l → y ∈ l ∧ key y ∉ seen.
Proof.
  revert seen. induction l as [|x l IH]; intros seen; simpl; [set_solver|].
  case_decide as Hx.
  - intros []%IH. set_solver.
  - intros [->|[? Hs]%IH]%elem_of_cons; set_solver.
Qed.

Lemma drop_duplicates_go_NoDup seen l : NoDup (key <$> drop_duplicates_go key seen l).
Proof.
  revert seen. induction l as [|x l IH]; intros seen; simpl; [constructor|].
  case_decide; [done|]. rewrite fmap_cons. constructor; [|done].
  intros (y & Hxy & Hy)%list_elem_of_fmap. apply drop_duplicates_go_elem in Hy.
  set_solver.
Qed.

Lemma drop_duplicates_go_keys seen l k :
  k ∈ key <$> drop_duplicates_go key seen l ↔ k ∈ key <$> l ∧ k ∉ seen.
Proof.
  revert seen. induction l as [|x l IH]; intros seen; cbn [drop_duplicates_go].
  { rewrite fmap_nil. split; [intros []%elem_of_nil | intros [[]%elem_of_nil _]]. }
  rewrite fmap_cons, elem_of_cons. case_decide as Hx.
  - rewrite IH. split; [naive_solver|]. intros [[->|?] ?]; [contradiction|done].
  - rewrite fmap_cons, elem_of_cons, IH, not_elem_of_cons. split.
    + intros [->|(? & ? & ?)]; split; auto.
    + intros [[->|?] ?]; [by left|]. destruct (decide (k = key x)) as [->|?]; [by left|by right].
Qed.

Lemma drop_duplicates_go_sublist seen l : drop_duplicates_go key seen l `sublist_of` l.
Proof.
  revert seen. induction l as [|x l IH]; intros seen; simpl; [done|].
  case_decide; [by apply sublist_cons | by apply sublist_skip].
Qed.

Lemma drop_duplicates_go_id seen l :
  NoDup (key <$> l) → (∀ y, y ∈ l → key y ∉ seen) → drop_duplicates_go key seen l = l.
Proof.
  revert seen. induction l as [|x l IH]; intros seen Hnd Hfresh; simpl; [done|].
  rewrite fmap_cons in Hnd. apply NoDup_cons in Hnd as [Hx Hnd].
  rewrite decide_False by set_solver. f_equal. apply IH; [done|].
  intros y Hy [Heq|Hs]%elem_of_cons.
  - apply Hx. rewrite <-Heq. by apply list_elem_of_fmap_2.
  - by apply (Hfresh y); [right|].
Qed.
End drop_duplicates_facts.

(** ** Totals over buckets *)

(** The per-bucket reductions the dashboard displays add up to the
    reduction over all the rows that have a key. *)
Section bucket_totals.
  Context {R K V : Type} `{EqDecision K, EqDecision V} (key : R → option K).
  Implicit Types (l : list R) (ds : list K).

Lemma omap_id_fmap {B} (g : R → option B) l : omap id (g <$> l) = omap g l.
Proof. induction l as [|r l IH]; [done|]. cbn. destruct (g r); cbn; [f_equal|]; exact IH. Qed.

Lemma sum_skipna_join (g : R → option Z) ds l :
  Σ ((λ k, sum_skipna (g <$> bucket key l k)) <$> ds) =
  sum_skipna (g <$> mjoin (bucket key l <$> ds)).
Proof.
  unfold sum_skipna. induction ds as [|d ds IH]; [done|].
  rewrite !fmap_cons, join_cons, fmap_app, omap_app. autorewrite with frame_rw.
  by rewrite IH, !omap_id_fmap.
Qed.

Lemma count_notna_join {B} (g : R → option B) ds l :
  sum_list ((λ k, count_notna (g <$> bucket key l k)) <$> ds) =
  count_notna (g <$> mjoin (bucket key l <$> ds)).
Proof.
  unfold count_notna. induction ds as [|d ds IH]; [done|].
  rewrite !fmap_cons, join_cons. simpl. rewrite IH, fmap_app, !omap_id_fmap, omap_app, length_app.
  by rewrite !omap_id_fmap.
Qed.

(** Distinct values add up across buckets when no value occurs in two
    buckets, i.e. when the key is a function of the value. *)
Lemma nunique_join (g : R → option V) ds l :
  NoDup ds →
  (∀ r1 r2 v, r1 ∈ l → r2 ∈ l → g r1 = Some v → g r2 = Some v → key r1 = key r2) →
  sum_list ((λ k, nunique (g <$> bucket key l k)) <$> ds) =
  nunique (g <$> mjoin (bucket key l <$> ds)).
Proof.
  intros Hnd Hfun. induction Hnd as [|d ds Hnin Hnd IH]; [done|].
  rewrite !fmap_cons, join_cons. simpl. rewrite IH, fmap_app, nunique_app_disjoint; [done|].
  intros v (r1 & Hg1 & Hr1)%list_elem_of_fmap (r2 & Hg2 & Hr2)%list_elem_of_fmap.
  apply list_elem_of_join in Hr2 as (b & Hr2 & Hb).
  apply list_elem_of_fmap in Hb as (d' & -> & Hd').
  unfold bucket in Hr1, Hr2. apply list_elem_of_filter in Hr1 as [Hk1 Hr1], Hr2 as [Hk2 Hr2].
  assert (key r1 = key r2) as Hk by (eapply Hfun; eauto).
  rewrite Hk1, Hk2 in Hk. injection Hk as ->. contradiction.
Qed.

Lemma mjoin_buckets_elem ds l r : r ∈ mjoin (bucket key l <$> ds) → r ∈ l.
Proof.
  intros (b & Hr & Hb)%list_elem_of_join. apply list_elem_of_fmap in Hb as (d & -> & _).
  by apply list_elem_of_filter in Hr as [_ ?].
Qed.
End bucket_totals.

(** ** Independence from the row order *)

Lemma foldr_min_elem d ds : foldr Z.min d ds ∈ d :: ds.
Proof.
  induction ds as [|d' ds IH]; simpl; [by left|].
  destruct (Z.min_spec d' (foldr Z.min d ds)) as [[_ ->]|[_ ->]];
    [by right; left | apply elem_of_cons in IH as [->|?]; [by left | by right; right]].
Qed.

Lemma foldr_max_elem d ds : foldr Z.max d ds ∈ d :: ds.
Proof.
  induction ds as [|d' ds IH]; simpl; [by left|].
  destruct (Z.max_spec d' (foldr Z.max d ds)) as [[_ ->]|[_ ->]];
    [apply elem_of_cons in IH as [->|?]; [by left | by right; right] | by right; left].
Qed.

Lemma foldr_min_perm d ds d' ds' :
  d :: ds ≡ₚ d' :: ds' → foldr Z.min d ds = foldr Z.min d' ds'.
Proof.
  intros Hp. pose proof (foldr_min_elem d ds) as H1. pose proof (foldr_min_elem d' ds') as H2.
  rewrite Hp in H1. rewrite <-Hp in H2.
  pose proof (foldr_min_le _ _ _ H1). pose proof (foldr_min_le _ _ _ H2). lia.
Qed.

Lemma foldr_max_perm d ds d' ds' :
  d :: ds ≡ₚ d' :: ds' → foldr Z.max d ds = foldr Z.max d' ds'.
Proof.
  intros Hp. pose proof (foldr_max_elem d ds) as H1. pose proof (foldr_max_elem d' ds') as H2.
  rewrite Hp in H1. rewrite <-Hp in H2.
  pose proof (foldr_max_ge _ _ _ H1). pose proof (foldr_max_ge _ _ _ H2). lia.
Qed.

Section perm_facts.
  Context {R : Type}.
  Implicit Types l : list R.

Lemma omap_perm {B} (g : R → option B) l1 l2 : l1 ≡ₚ l2 → omap g l1 ≡ₚ omap g l2.
Proof. intros Hp. by rewrite Hp. Qed.

Lemma sum_skipna_perm (g : R → option Z) l1 l2 :
  l1 ≡ₚ l2 → sum_skipna (g <$> l1) = sum_skipna (g <$> l2).
Proof. intros Hp. unfold sum_skipna. by rewrite !omap_id_fmap, (omap_perm g l1 l2 Hp). Qed.

Lemma count_notna_perm {B} (g : R → option B) l1 l2 :
  l1 ≡ₚ l2 → count_notna (g <$> l1) = count_notna (g <$> l2).
Proof. intros Hp. unfold count_notna. by rewrite !omap_id_fmap, (omap_perm g l1 l2 Hp). Qed.

Lemma bucket_perm {K} `{EqDecision K} (key : R → option K) l1 l2 k :
  l1 ≡ₚ l2 → bucket key l1 k ≡ₚ bucket key l2 k.
Proof. intros Hp. unfold bucket. by rewrite Hp. Qed.

Lemma resample_bins_perm (ts : R → option Z) l1 l2 :
  l1 ≡ₚ l2 → resample_bins ts l1 = resample_bins ts l2.
Proof.
  intros Hp. unfold resample_bins. pose proof (omap_perm (row_day ts) l1 l2 Hp) as Ho.
  destruct (omap _ l1) as [|d ds], (omap _ l2) as [|d' ds'].
  - done.
  - by apply Permutation_nil_cons in Ho.
  - symmetry in Ho. by apply Permutation_nil_cons in Ho.
  - by rewrite (foldr_min_perm d ds d' ds' Ho), (foldr_max_perm d ds d' ds' Ho).
Qed.

Lemma group_keys_perm (key : R → option string) l1 l2 :
  l1 ≡ₚ l2 → group_keys key l1 = group_keys key l2.
Proof.
  intros Hp. apply (StronglySorted_unique String.le); [apply group_keys_sorted..|].
  apply NoDup_Permutation; [apply group_keys_NoDup..|].
  intros k. rewrite !elem_of_group_keys. by setoid_rewrite Hp.
Qed.
End perm_facts.

(** ** Totals of resampled and grouped columns *)

Section column_totals.
Context {R V : Type} `{EqDecision V}.
Implicit Types rows : list R.

Lemma resample_sum_skipna (ts : R → option Z) (g : R → option Z) rows :
  Σ ((λ k, sum_skipna (g <$> bucket (row_day ts) rows k)) <$> resample_bins ts rows) =
  sum_skipna (g <$> filter (λ r, is_Some (ts r)) rows).
Proof.
  rewrite sum_skipna_join. apply sum_skipna_perm.
  by rewrite resample_buckets_perm, filter_row_day.
Qed.

Lemma resample_nunique (ts : R → option Z) (g : R → option V) rows :
  (∀ r1 r2 v, r1 ∈ rows → r2 ∈ rows → g r1 = Some v → g r2 = Some v →
     row_day ts r1 = row_day ts r2) →
  sum_list ((λ k, nunique (g <$> bucket (row_day ts) rows k)) <$> resample_bins ts rows) =
  nunique (g <$> filter (λ r, is_Some (ts r)) rows).
Proof.
  intros Hfun. rewrite nunique_join; [|auto with frame|done].
  by rewrite resample_buckets_perm, filter_row_day.
Qed.

Lemma groupby_count_notna {B} (key : R → option string) (g : R → option B) rows :
  sum_list ((λ k, count_notna (g <$> bucket key rows k)) <$> group_keys key rows) =
  count_notna (g <$> filter (λ r, is_Some (key r)) rows).
Proof. rewrite count_notna_join. apply count_notna_perm, groupby_buckets_perm. Qed.

Lemma groupby_nunique (key : R → option string) (g : R → option V) rows :
  (∀ r1 r2 v, r1 ∈ rows → r2 ∈ rows → g r1 = Some v → g r2 = Some v → key r1 = key r2) →
  sum_list ((λ k, nunique (g <$> bucket key rows k)) <$> group_keys key rows) =
  nunique (g <$> filter (λ r, is_Some (key r)) rows).
Proof.
  intros Hfun. rewrite nunique_join; [|auto with frame|done].
  by rewrite groupby_buckets_perm.
Qed.
End column_totals.

(** ** The labels of [value_counts] *)

(** The index of [value_counts] holds exactly the values present. *)
Lemma value_counts_keys `{SortValues} l k : k ∈ fst <$> value_counts l ↔ Some k ∈ l.
Proof.
  unfold value_counts. rewrite <-elem_of_omap_id, list_elem_of_fmap. split.
  - intros ([k' n] & -> & Hin). apply elem_of_sort_values, list_elem_of_fmap in Hin as (k'' & [= <- _] & Hk).
    by apply drop_duplicates_go_elem in Hk as [? _].
  - intros Hk. assert (k ∈ id <$> drop_duplicates id (omap id l)) as Hd.
    { unfold drop_duplicates. rewrite drop_duplicates_go_keys, list_fmap_id. set_solver. }
    rewrite list_fmap_id in Hd. eexists. split; [|apply elem_of_sort_values, list_elem_of_fmap; eauto].
    done.
Qed.

Lemma index0_Ok {B} (l : list (string * B)) k : index0 l = Ok k → k ∈ fst <$> l.
Proof. destruct l as [|[k' b] l]; simpl; [done|]. intros [= ->]. left. Qed.

Lemma index0_nonempty {B} (l : list (string * B)) : l ≠ [] → ∃ k, index0 l = Ok k.
Proof. destruct l as [|[k b] l]; [done|]. by eexists. Qed.

(** ** [value_counts] of a column of distinct values *)

Lemma omap_Some {A} (l : list A) : omap id (Some <$> l) = l.
Proof. induction l as [|x l IH]; [done|]. cbn. f_equal. exact IH. Qed.

Lemma count_Some_distinct (l : list string) k :
  NoDup l → k ∈ l → length (filter (λ x, x = Some k) (Some <$> l)) = 1.
Proof.
  induction 1 as [|x l Hx Hnd IH]; [set_solver|]. intros Hk. rewrite fmap_cons, filter_cons.
  case_decide as Hxk.
  - injection Hxk as ->. simpl. rewrite filter_all_false; [done|].
    intros y (z & -> & Hz)%list_elem_of_fmap [= ->]. done.
  - apply IH. apply elem_of_cons in Hk as [->|]; [done|done].
Qed.

(** Every value of a column of distinct values occurs once, so all the
    counts tie at 1, in the column's order before the sort. *)
Lemma value_counts_distinct `{SortValues} (l : list string) :
  NoDup l → value_counts (Some <$> l) = sort_values (desc_by snd) ((λ k, (k, 1)) <$> l).
Proof.
  intros Hnd. unfold value_counts. rewrite omap_Some.
  unfold drop_duplicates. rewrite drop_duplicates_go_id; [|by rewrite list_fmap_id|set_solver].
  f_equal. apply list_fmap_ext. intros i k Hk. f_equal.
  apply count_Some_distinct; [done|]. by eapply list_elem_of_lookup_2.
Qed.

Lemma pairs_one_tied (l : list string) :
  ∀ x y, x ∈ (λ k, (k, 1)) <$> l → y ∈ (λ k, (k, 1)) <$> l → desc_by snd x y.
Proof.
  intros ? ? (? & -> & _)%list_elem_of_fmap (? & -> & _)%list_elem_of_fmap. unfold desc_by. simpl. lia.
Qed.

(** With a stable sort, [value_counts] keeps the column's order. *)
Lemma value_counts_distinct_stable (l : list string) :
  NoDup l → @value_counts insertion_sort_values (Some <$> l) = (λ k, (k, 1)) <$> l.
Proof.
  intros Hnd. rewrite value_counts_distinct by done. simpl.
  apply insertion_sort_tied, pairs_one_tied.
Qed.

(** With ties reversed, [value_counts] reverses the column. *)
Lemma value_counts_distinct_reversed (l : list string) :
  NoDup l → @value_counts reversed_ties_sort_values (Some <$> l) = (λ k, (k, 1)) <$> reverse l.
Proof.
  intros Hnd. rewrite value_counts_distinct by done. simpl.
  rewrite <-fmap_reverse. apply insertion_sort_tied, pairs_one_tied.
Qed.

(** ** Bounds of the column reductions *)

Lemma count_notna_le {A} (l : list (option A)) : count_notna l ≤ length l.
Proof. unfold count_notna. induction l as [|[?|] l IH]; csimpl; [done|simpl; lia|lia]. Qed.

(** The counts of the daily bins add up to at most the rows. *)
Lemma resample_nunique_le {R V} `{EqDecision V} (ts : R → option Z) (g : R → option V) rows :
  sum_list ((λ k, nunique (g <$> bucket (row_day ts) rows k)) <$> resample_bins ts rows) ≤ length rows.
Proof.
  etrans; [apply (sum_list_fmap_le _ (λ k, length (bucket (row_day ts) rows k))); intros k _;
           rewrite nunique_le_length, length_fmap; done|].
  change (λ k, length (bucket (row_day ts) rows k)) with (length ∘ bucket (row_day ts) rows).
  rewrite list_fmap_compose, <-length_join, (resample_buckets_perm ts rows). apply length_filter.
Qed.
