(* ===== verification/Reduce.v ===== *)
(** * Reduce: numpy's summation of a float64 column

    [Series.sum()] and [Series.mean()] on the float64 columns of the
    dashboard ([revenue], line 117; [total_spend], lines 137 and 141)
    go through pandas' [nanops.nansum] / [nanops.nanmean] to
    [values.sum()], that is [np.add.reduce].  For a contiguous column
    numpy's reduce starts from the identity 0 and adds
    [DOUBLE_pairwise_sum(a, n)] of loops_utils.h.src:
    - fewer than 8 values: a left-to-right loop from 0;
    - at most [PW_BLOCKSIZE] = 128 values: eight accumulators
      [r[0..7] = a[0..7]], then [r[j] += a[i+j]] for each further block
      of eight, the tree [((r0+r1)+(r2+r3))+((r4+r5)+(r6+r7))], then the
      last [n % 8] values one by one;
    - more: a recursive call on the first [n2 = n/2 - (n/2) % 8] values
      and one on the rest, and their sum.

    The last case recurses on halves, not on a structural subterm, so
    [pairwise_sum] takes the recursion depth as fuel.  The values are
    exact integers here, as in the rest of the development (see the
    root file); the theorems show the depth [Nat.log2 n] is always
    enough, and that the regrouping then gives the column's sum. *)

From stdpp Require Import list.
From S2P Require Import Prelude.

(** ** numpy's pairwise summation *)

Definition PW_BLOCKSIZE : nat := 128.

(** The unrolled loop: [k] further blocks of eight added into the
    accumulators, [r[j] += a[i+j]]. *)
Fixpoint pw_unrolled (k : nat) (r a : list Z) : list Z :=
  match k with
  | O => r
  | S k => pw_unrolled k (zip_with Z.add r (take 8 a)) (drop 8 a)
  end.

(** [res = ((r[0] + r[1]) + (r[2] + r[3])) + ((r[4] + r[5]) + (r[6] + r[7]))]. *)
Definition pw_res (r : list Z) : Z :=
  Z.add (Z.add (Z.add (r !!! 0) (r !!! 1)) (Z.add (r !!! 2) (r !!! 3)))
        (Z.add (Z.add (r !!! 4) (r !!! 5)) (Z.add (r !!! 6) (r !!! 7))).

(** [DOUBLE_pairwise_sum(a, n, stride)]; [None] when the recursion is
    deeper than [fuel]. *)
Fixpoint pairwise_sum (fuel : nat) (a : list Z) : option Z :=
  let n := length a in
  if decide (n < 8) then Some (foldl Z.add 0%Z a)
  else if decide (n ≤ PW_BLOCKSIZE) then
    let m := n - n `mod` 8 in
    let r := pw_unrolled (m / 8 - 1) (take 8 a) (drop 8 a) in
    Some (foldl Z.add (pw_res r) (drop m a))
  else
    match fuel with
    | O => None
    | S fuel =>
        let n2 := n / 2 - (n / 2) `mod` 8 in
        x ← pairwise_sum fuel (take n2 a);
        y ← pairwise_sum fuel (drop n2 a);
        Some (x + y)%Z
    end.

(** [np.add.reduce] of a contiguous column: the identity plus the
    pairwise sum, run with the depth [Nat.log2 n] (always enough, see
    [pairwise_sum_total]). *)
Definition add_reduce (a : list Z) : Z :=
  (0 + default 0 (pairwise_sum (Nat.log2 (length a)) a))%Z.

(** ** [np.add.reduce] of an int64 column *)

(** Two's complement wrap-around of a signed 64-bit integer. *)
Definition wrap_int64 (z : Z) : Z := ((z + 2 ^ 63) `mod` 2 ^ 64 - 2 ^ 63)%Z.

(** [LONG_add]'s reduce loop: [io1 += in2] on [npy_long], from the
    identity 0, one value after the other (no pairwise regrouping for
    integers). *)
Definition int64_add_reduce (a : list Z) : Z :=
  foldl (λ io1 x, wrap_int64 (io1 + x)) 0%Z a.

(** ** The pieces of the pairwise sum *)

Lemma foldl_add_sumZ z a : foldl Z.add z a = (z + Σ a)%Z.
Proof. revert z. induction a as [|x a IH]; intros z; cbn [foldl]; [cbn; lia|]. rewrite IH, sumZ_cons. lia. Qed.

Lemma sumZ_zip_with_add r b :
  length r = length b → Σ (zip_with Z.add r b) = (Σ r + Σ b)%Z.
Proof.
  revert b. induction r as [|x r IH]; intros [|y b] Hl; try discriminate; [done|].
  cbn [zip_with]. rewrite !sumZ_cons, IH by (simpl in Hl; lia). lia.
Qed.

Lemma pw_unrolled_spec k r a :
  length r = 8 → 8 * k ≤ length a →
  length (pw_unrolled k r a) = 8 ∧ Σ (pw_unrolled k r a) = (Σ r + Σ (take (8 * k) a))%Z.
Proof.
  revert r a. induction k as [|k IH]; intros r a Hr Ha; cbn [pw_unrolled].
  { split; [done|]. rewrite take_0. cbn. lia. }
  assert (length (take 8 a) = 8) by (rewrite length_take; lia).
  destruct (IH (zip_with Z.add r (take 8 a)) (drop 8 a)) as [-> ->];
    [rewrite length_zip_with; lia|rewrite length_drop; lia|].
  split; [done|]. rewrite sumZ_zip_with_add by lia.
  replace (8 * S k) with (8 + 8 * k) by lia.
  rewrite <-take_take_drop, sumZ_app. lia.
Qed.

Lemma pw_res_sumZ r : length r = 8 → pw_res r = Σ r.
Proof.
  intros Hr. do 8 (destruct r as [|? r]; simplify_eq/=). destruct r; [|done].
  unfold pw_res. simpl. lia.
Qed.

(** The block case sums the whole column. *)
Lemma pw_block_sum a :
  8 ≤ length a →
  foldl Z.add (pw_res (pw_unrolled ((length a - length a `mod` 8) / 8 - 1) (take 8 a) (drop 8 a)))
    (drop (length a - length a `mod` 8) a) = Σ a.
Proof.
  intros Hn. set (n := length a) in *.
  assert (n - n `mod` 8 = 8 * (n / 8)) as Hm.
  { pose proof (Nat.div_mod_eq n 8). lia. }
  assert (1 ≤ n / 8) by (apply Nat.div_le_lower_bound; lia).
  rewrite Hm, (Nat.mul_comm 8 (n / 8)), Nat.div_mul by lia.
  destruct (pw_unrolled_spec (n / 8 - 1) (take 8 a) (drop 8 a)) as [Hl Hs];
    [rewrite length_take; lia|rewrite length_drop; lia|].
  rewrite foldl_add_sumZ, pw_res_sumZ, Hs by done.
  rewrite <-(take_drop 8 a) at 4. rewrite sumZ_app.
  rewrite <-(take_drop (8 * (n / 8 - 1)) (drop 8 a)) at 2. rewrite sumZ_app, drop_drop.
  replace (8 + 8 * (n / 8 - 1)) with (n / 8 * 8) by lia. lia.
Qed.

(** Each half of the recursive case is at most about half the column:
    the depth measure [Nat.log2 (n - 15)] drops by one. *)
Lemma pw_split_bounds n :
  PW_BLOCKSIZE < n →
  n / 2 - (n / 2) `mod` 8 < n ∧ 2 * (n / 2 - (n / 2) `mod` 8 - 15) ≤ n - 15 ∧
  2 * (n - (n / 2 - (n / 2) `mod` 8) - 15) ≤ n - 15.
Proof.
  unfold PW_BLOCKSIZE. intros Hn.
  pose proof (Nat.div_mod_eq n 2). pose proof (Nat.mod_upper_bound n 2).
  pose proof (Nat.div_mod_eq (n / 2) 8). pose proof (Nat.mod_upper_bound (n / 2) 8).
  lia.
Qed.

Lemma log2_sub15_half x y f :
  2 * (x - 15) ≤ y - 15 → Nat.log2 (y - 15) ≤ S f → Nat.log2 (x - 15) ≤ f.
Proof.
  intros Hxy Hy. destruct (decide (x - 15 = 0)) as [Hx|Hx]; [rewrite Hx; apply Nat.le_0_l|].
  pose proof (Nat.log2_le_mono _ _ Hxy). rewrite Nat.log2_double in * by lia. lia.
Qed.

Lemma pairwise_sum_depth fuel a :
  Nat.log2 (length a - 15) ≤ fuel → pairwise_sum fuel a = Some (Σ a).
Proof.
  revert a. induction fuel as [|fuel IH]; intros a Hf; cbn [pairwise_sum];
    (destruct (decide (length a < 8)); [by rewrite foldl_add_sumZ|]);
    (destruct (decide (length a ≤ PW_BLOCKSIZE)); [by rewrite pw_block_sum by lia|]).
  - assert (64 ≤ length a - 15) by (unfold PW_BLOCKSIZE in *; lia).
    pose proof (Nat.log2_le_mono _ _ H). change (Nat.log2 64) with 6 in *. lia.
  - destruct (pw_split_bounds (length a)) as (Hlt & Hl & Hr); [lia|].
    rewrite (IH (take _ a)), (IH (drop _ a)); [do 2 bind_step; by rewrite <-sumZ_app, take_drop|..];
      rewrite ?length_drop, ?length_take_le by lia; by eapply log2_sub15_half.
Qed.

(** [np.add.reduce] of a column is its sum. *)
Lemma add_reduce_sumZ a : add_reduce a = Σ a.
Proof. unfold add_reduce. rewrite pairwise_sum_depth; [done|]. apply Nat.log2_le_mono. lia. Qed.

(** ** The int64 sum *)

Lemma wrap_int64_small z : (- 2 ^ 63 ≤ z < 2 ^ 63)%Z → wrap_int64 z = z.
Proof. intros Hz. unfold wrap_int64. rewrite Z.mod_small; lia. Qed.

Lemma wrap_int64_range z : (- 2 ^ 63 ≤ wrap_int64 z < 2 ^ 63)%Z.
Proof. unfold wrap_int64. pose proof (Z.mod_pos_bound (z + 2 ^ 63) (2 ^ 64)). lia. Qed.

Lemma int64_add_reduce_go acc a :
  (0 ≤ acc)%Z → Forall (λ x, 0 ≤ x)%Z a → (acc + Σ a < 2 ^ 63)%Z →
  foldl (λ io1 x, wrap_int64 (io1 + x)) acc a = (acc + Σ a)%Z.
Proof.
  revert acc. induction a as [|x a IH]; intros acc Hacc Ha Hs; cbn [foldl]; [cbn; lia|].
  apply Forall_cons in Ha as [Hx Ha]. pose proof (sumZ_nonneg a Ha). rewrite sumZ_cons in Hs.
  rewrite wrap_int64_small by lia. rewrite IH, sumZ_cons by (done || lia). lia.
Qed.

(** The int64 sum of a column of counts is their exact total while
    that total fits in an int64. *)
Lemma int64_add_reduce_nat (l : list nat) :
  (Z.of_nat (sum_list l) < 2 ^ 63)%Z → int64_add_reduce (Z.of_nat <$> l) = Z.of_nat (sum_list l).
Proof.
  intros Hl. unfold int64_add_reduce. rewrite int64_add_reduce_go, sumZ_of_nat; [lia|lia| |].
  - apply Forall_fmap, Forall_true. intros. cbn. lia.
  - rewrite sumZ_of_nat. lia.
Qed.

(** Past the int64 range the sum wraps to the negatives, as in C. *)
Example int64_add_reduce_wraps : int64_add_reduce [2 ^ 63 - 1; 1]%Z = (- 2 ^ 63)%Z.
Proof. reflexivity. Qed.

(** ** Termination *)

(** Numpy's pairwise summation terminates within a logarithmic
    recursion depth and computes the column's sum: for a column of [n]
    values, fuel [Nat.log2 n] is enough for [pairwise_sum] to return,
    and what it returns is the sum of the values, however the blocks of
    eight accumulators and the halves regroup them. *)
Theorem pairwise_sum_total fuel a :
  Nat.log2 (length a) ≤ fuel → pairwise_sum fuel a = Some (Σ a).
Proof.
  intros Hf. apply pairwise_sum_depth. etrans; [|exact Hf]. apply Nat.log2_le_mono. lia.
Qed.
