(* ===== verification/Timestamp.v ===== *)
(** * Timestamp: timestamps and dates as text

    The order table arrives as text: [pd.read_csv] (line 67) leaves
    [order_approved_at] a column of strings "YYYY-MM-DD HH:MM:SS", the
    load sort (line 68) orders those strings, and only then does
    [pd.to_datetime] (lines 75-76) turn them into timestamps.  The
    filter (lines 94-95) compares the timestamps with [str(start_date)],
    the text "YYYY-MM-DD" of a picked date, which pandas reads back as
    midnight of that day.  This file models the text: zero-padded
    digits ([pad], [read_num]), [format_date] (Python's [str] of a
    [datetime.date]), [format_datetime] (the CSV form),
    [parse_datetime] (what [pd.to_datetime] does with such a string,
    [None] for text not of that form) and [parse_date] (a string
    compared with a [datetime64] column).  Its theorems: parsing
    inverts printing, only canonical text parses, and the order of the
    strings is the order of the instants they denote. *)

From Stdlib Require Import Ascii.
From S2P Require Import Prelude Frame Calendar.

Local Open Scope Z_scope.

(** ** Digits *)

Definition digit (n : Z) : ascii := Ascii.ascii_of_N (48 + Z.to_N n).

Definition read_digit (c : ascii) : option Z :=
  let k := Z.of_N (Ascii.N_of_ascii c) in
  if decide (48 ≤ k ≤ 57) then Some (k - 48) else None.

(** The last [w] decimal digits of [n], most significant first. *)
Fixpoint pad (w : nat) (n : Z) : string :=
  match w with
  | O => ""
  | S w' => String (digit ((n `div` 10 ^ Z.of_nat w') `mod` 10)) (pad w' n)
  end.

(** Read [w] digits, accumulating onto [acc]. *)
Fixpoint read_num (w : nat) (acc : Z) (s : string) : option (Z * string) :=
  match w with
  | O => Some (acc, s)
  | S w' =>
      match s with
      | String c s' => d ← read_digit c; read_num w' (acc * 10 + d) s'
      | EmptyString => None
      end
  end.

(** The lexicographic combination of two comparisons. *)
Definition then_cmp (c1 c2 : comparison) : comparison :=
  match c1 with Eq => c2 | _ => c1 end.

(** ** Digit lemmas *)

Lemma append_nil_l s : "" +:+ s = s.
Proof. done. Qed.

Lemma append_cons c s1 s2 : String c s1 +:+ s2 = String c (s1 +:+ s2).
Proof. done. Qed.

Lemma read_digit_digit n : 0 ≤ n < 10 → read_digit (digit n) = Some n.
Proof.
  intros Hn. unfold read_digit, digit. rewrite Ascii.N_ascii_embedding by lia.
  rewrite decide_True by lia. f_equal. lia.
Qed.

Lemma read_digit_Some c n : read_digit c = Some n → 0 ≤ n < 10 ∧ c = digit n.
Proof.
  unfold read_digit, digit. case_decide as Hk; [|done]. intros [= <-]. split; [lia|].
  rewrite <-(Ascii.ascii_N_embedding c) at 1. f_equal. lia.
Qed.

Lemma compare_digit a b :
  0 ≤ a < 10 → 0 ≤ b < 10 → Ascii.compare (digit a) (digit b) = Z.compare a b.
Proof.
  intros Ha Hb. unfold Ascii.compare, digit. rewrite !Ascii.N_ascii_embedding by lia.
  rewrite <-N2Z.inj_compare, !N2Z.inj_add, !Z2N.id by lia. apply Z.add_compare_mono_l.
Qed.

Lemma pow10_pos (w : nat) : 0 < 10 ^ Z.of_nat w.
Proof. apply Z.pow_pos_nonneg; lia. Qed.

Lemma pow10_succ (w : nat) : 10 ^ Z.of_nat (S w) = 10 ^ Z.of_nat w * 10.
Proof. rewrite Nat2Z.inj_succ, Z.pow_succ_r by lia. lia. Qed.

Lemma mod_pow10_succ n (w : nat) :
  n mod 10 ^ Z.of_nat (S w) = n mod 10 ^ Z.of_nat w + 10 ^ Z.of_nat w * ((n `div` 10 ^ Z.of_nat w) mod 10).
Proof. pose proof (pow10_pos w). rewrite pow10_succ, Z.rem_mul_r; lia. Qed.

Lemma compare_split q1 r1 q2 r2 B :
  0 ≤ r1 < B → 0 ≤ r2 < B →
  Z.compare (B * q1 + r1) (B * q2 + r2) = then_cmp (Z.compare q1 q2) (Z.compare r1 r2).
Proof.
  intros H1 H2. unfold then_cmp.
  destruct (Z.compare_spec q1 q2) as [->|Hlt|Hgt].
  - apply Z.add_compare_mono_l.
  - apply Z.compare_lt_iff. nia.
  - apply Z.compare_gt_iff. nia.
Qed.

Lemma compare_mul_pos_r a b c : 0 < c → Z.compare (a * c) (b * c) = Z.compare a b.
Proof.
  intros Hc. destruct (Z.compare_spec a b) as [->|?|?].
  - apply Z.compare_refl.
  - apply Z.compare_lt_iff. nia.
  - apply Z.compare_gt_iff. nia.
Qed.

(** [pad w] only sees the last [w] digits. *)
Lemma pad_mod (w : nat) n : pad w n = pad w (n mod 10 ^ Z.of_nat w).
Proof.
  revert n. induction w as [|w IH]; intros n; [done|]. pose proof (pow10_pos w). cbn [pad].
  f_equal.
  - f_equal. rewrite mod_pow10_succ, Z.mul_comm, Z.div_add by lia.
    rewrite (Z.div_small (n `mod` _)) by (apply Z.mod_pos_bound; lia).
    rewrite Z.add_0_l, Z.mod_mod; lia.
  - rewrite (IH n), (IH (n `mod` 10 ^ Z.of_nat (S w))). f_equal.
    rewrite mod_pow10_succ, (Z.mul_comm (10 ^ _)), Z.mod_add, Z.mod_mod; lia.
Qed.

(** Reading back [w] padded digits gives the number modulo [10^w]. *)
Lemma read_num_pad (w : nat) acc n rest :
  read_num w acc (pad w n +:+ rest) = Some (acc * 10 ^ Z.of_nat w + n mod 10 ^ Z.of_nat w, rest).
Proof.
  revert acc. induction w as [|w IH]; intros acc.
  - cbn [pad]. rewrite append_nil_l. simpl. rewrite Z.mod_1_r. f_equal. f_equal. lia.
  - pose proof (pow10_pos w). cbn [pad]. rewrite append_cons. cbn [read_num].
    rewrite read_digit_digit by (apply Z.mod_pos_bound; lia). simpl. rewrite IH.
    rewrite mod_pow10_succ, pow10_succ. f_equal. f_equal. lia.
Qed.

(** Whatever [read_num] accepts is padded digits. *)
Lemma read_num_Some (w : nat) acc s n rest :
  read_num w acc s = Some (n, rest) →
  ∃ k, 0 ≤ k < 10 ^ Z.of_nat w ∧ n = acc * 10 ^ Z.of_nat w + k ∧ s = pad w k +:+ rest.
Proof.
  revert acc s. induction w as [|w IH]; intros acc s Hr.
  - simpl in Hr. injection Hr as <- <-. exists 0. change (10 ^ Z.of_nat 0) with 1.
    split_and!; [lia..|by rewrite append_nil_l].
  - destruct s as [|c s]; [done|]. cbn [read_num] in Hr.
    destruct (read_digit c) as [dg|] eqn:Hd; [|done]. simpl in Hr.
    apply read_digit_Some in Hd as [Hdg ->].
    destruct (IH _ _ Hr) as (k & Hk & -> & ->). pose proof (pow10_pos w).
    exists (10 ^ Z.of_nat w * dg + k). rewrite pow10_succ. split_and!; [nia|nia|lia|].
    cbn [pad]. rewrite append_cons. f_equal.
    + f_equal. rewrite Z.add_comm, Z.mul_comm, Z.div_add, Z.div_small by lia.
      rewrite Z.add_0_l, Z.mod_small; lia.
    + rewrite (pad_mod w (10 ^ Z.of_nat w * dg + k)).
      replace ((10 ^ Z.of_nat w * dg + k) `mod` 10 ^ Z.of_nat w) with k; [done|].
      rewrite Z.add_comm, Z.mul_comm, Z.mod_add, Z.mod_small; lia.
Qed.

Lemma then_cmp_assoc c1 c2 c3 : then_cmp (then_cmp c1 c2) c3 = then_cmp c1 (then_cmp c2 c3).
Proof. by destruct c1. Qed.

Lemma compare_cons c1 c2 s1 s2 :
  String.compare (String c1 s1) (String c2 s2) = then_cmp (Ascii.compare c1 c2) (String.compare s1 s2).
Proof. simpl. by destruct (Ascii.compare c1 c2). Qed.

Lemma compare_same_char c s1 s2 : String.compare (String c s1) (String c s2) = String.compare s1 s2.
Proof.
  rewrite compare_cons. unfold Ascii.compare. by rewrite N.compare_refl.
Qed.

Lemma append_nil_r s : s +:+ "" = s.
Proof. induction s as [|c s IH]; [done|]. by rewrite append_cons, IH. Qed.

(** Padded numbers followed by text compare as the numbers, then the
    text. *)
Lemma compare_pad (w : nat) a b s1 s2 :
  0 ≤ a < 10 ^ Z.of_nat w → 0 ≤ b < 10 ^ Z.of_nat w →
  String.compare (pad w a +:+ s1) (pad w b +:+ s2) =
  then_cmp (Z.compare a b) (String.compare s1 s2).
Proof.
  revert a b. induction w as [|w IH]; intros a b Ha Hb.
  - change (10 ^ Z.of_nat 0) with 1 in Ha, Hb. assert (a = 0 ∧ b = 0) as [-> ->] by lia. done.
  - pose proof (pow10_pos w). rewrite pow10_succ in Ha, Hb. cbn [pad]. rewrite !append_cons.
    assert (0 ≤ a `div` 10 ^ Z.of_nat w < 10) by (split; [apply Z.div_pos|apply Z.div_lt_upper_bound]; lia).
    assert (0 ≤ b `div` 10 ^ Z.of_nat w < 10) by (split; [apply Z.div_pos|apply Z.div_lt_upper_bound]; lia).
    rewrite compare_cons, !(Z.mod_small (_ `div` _)), compare_digit by lia.
    rewrite (pad_mod w a), (pad_mod w b), IH by (apply Z.mod_pos_bound; lia).
    rewrite <-then_cmp_assoc, <-(compare_split _ _ _ _ (10 ^ Z.of_nat w))
      by (apply Z.mod_pos_bound; lia).
    by rewrite <-!Z.div_mod by lia.
Qed.

Lemma compare_pad_end (w : nat) a b :
  0 ≤ a < 10 ^ Z.of_nat w → 0 ≤ b < 10 ^ Z.of_nat w →
  String.compare (pad w a) (pad w b) = Z.compare a b.
Proof.
  intros Ha Hb. rewrite <-(append_nil_r (pad w a)), <-(append_nil_r (pad w b)), compare_pad by done.
  by destruct (Z.compare a b).
Qed.

Lemma append_assoc s1 s2 s3 : (s1 +:+ s2) +:+ s3 = s1 +:+ (s2 +:+ s3).
Proof. induction s1 as [|c s1 IH]; [done|]. by rewrite !append_cons, IH. Qed.

(** ** The text forms *)

(** Python's [str] of a [datetime.date]: ["%04d-%02d-%02d"]. *)
Definition format_date (y m d : Z) : string :=
  pad 4 y +:+ String "-" (pad 2 m +:+ String "-" (pad 2 d)).

(** A timestamp as the CSV holds it: ["%Y-%m-%d %H:%M:%S"]. *)
Definition format_datetime (y m d hh mm ss : Z) : string :=
  format_date y m d +:+ String " " (pad 2 hh +:+ String ":" (pad 2 mm +:+ String ":" (pad 2 ss))).

Definition expect (c : ascii) (s : string) : option string :=
  match s with
  | String c' s' => if decide (c' = c) then Some s' else None
  | EmptyString => None
  end.

Definition parse_date_fields (s : string) : option (Z * Z * Z * string) :=
  '(y, s) ← read_num 4 0 s; s ← expect "-" s;
  '(m, s) ← read_num 2 0 s; s ← expect "-" s;
  '(d, s) ← read_num 2 0 s; Some (y, m, d, s).

Definition valid_time (hh mm ss : Z) : bool :=
  bool_decide (0 ≤ hh < 24 ∧ 0 ≤ mm < 60 ∧ 0 ≤ ss < 60).

Definition ns_per_second : Z := 1000000000.

(** The instant a date and a time of day denote, in nanoseconds. *)
Definition timestamp_of (y m d hh mm ss : Z) : Z :=
  days_from_civil y m d * ns_per_day + ((hh * 60 + mm) * 60 + ss) * ns_per_second.

(** [pd.to_datetime] on a string of the CSV's form; [None] for any other
    text. *)
Definition parse_datetime (s : string) : option Z :=
  '(y, m, d, s) ← parse_date_fields s; s ← expect " " s;
  '(hh, s) ← read_num 2 0 s; s ← expect ":" s;
  '(mm, s) ← read_num 2 0 s; s ← expect ":" s;
  '(ss, s) ← read_num 2 0 s;
  if decide (s = "" ∧ valid_date y m d = true ∧ valid_time hh mm ss = true)
  then Some (timestamp_of y m d hh mm ss) else None.

(** A string "YYYY-MM-DD" compared with a [datetime64] column: midnight
    of that day. *)
Definition parse_date (s : string) : option Z :=
  '(y, m, d, s) ← parse_date_fields s;
  if decide (s = "" ∧ valid_date y m d = true) then Some (days_from_civil y m d * ns_per_day)
  else None.

(** [datetime64[ns]] holds an instant as a signed 64-bit count of
    nanoseconds since the epoch, [-2^63] standing for [NaT]: the values
    are those strictly above [iNaT] and at most [2^63 - 1]. *)
Definition iNaT : Z := -9223372036854775808.
Definition ns_max : Z := 9223372036854775807.
Definition in_ns_bounds (t : Z) : bool := bool_decide (iNaT < t ≤ ns_max).

(** [Timestamp.min] and [Timestamp.max] to the second, in the CSV's form. *)
Definition ts_min_text : string := "1677-09-21 00:12:44".
Definition ts_max_text : string := "2262-04-11 23:47:16".

(** The fields read as one number, YYYYMMDDhhmmss. *)
Definition ts_key (y m d hh mm ss : Z) : Z :=
  100 * (100 * (100 * (100 * (100 * y + m) + d) + hh) + mm) + ss.

(** ** Parsing inverts printing *)

Lemma expect_same c s : expect c (String c s) = Some s.
Proof. simpl. by rewrite decide_True. Qed.

Lemma expect_Some c s s' : expect c s = Some s' → s = String c s'.
Proof. destruct s as [|c' s]; simpl; [done|]. case_decide; [|done]. by intros [= <-]; subst. Qed.

Lemma read_num_pad0 (w : nat) n rest :
  0 ≤ n < 10 ^ Z.of_nat w → read_num w 0 (pad w n +:+ rest) = Some (n, rest).
Proof. intros Hn. rewrite read_num_pad, Z.mod_small by done. by rewrite Z.mul_0_l, Z.add_0_l. Qed.

Lemma read_num_pad0_end (w : nat) n :
  0 ≤ n < 10 ^ Z.of_nat w → read_num w 0 (pad w n) = Some (n, "").
Proof. intros Hn. rewrite <-(append_nil_r (pad w n)). by apply read_num_pad0. Qed.

Lemma read_num0_Some (w : nat) s n rest :
  read_num w 0 s = Some (n, rest) → 0 ≤ n < 10 ^ Z.of_nat w ∧ s = pad w n +:+ rest.
Proof. intros (k & Hk & -> & ->)%read_num_Some. rewrite Z.mul_0_l, Z.add_0_l. done. Qed.

Lemma parse_date_fields_format y m d rest :
  0 ≤ y < 10000 → 0 ≤ m < 100 → 0 ≤ d < 100 →
  parse_date_fields (format_date y m d +:+ rest) = Some (y, m, d, rest).
Proof.
  intros Hy Hm Hd. unfold parse_date_fields, format_date.
  repeat (rewrite append_assoc || rewrite append_cons). rewrite read_num_pad0 by done. bind_step.
  rewrite expect_same. bind_step. rewrite read_num_pad0 by done. bind_step.
  rewrite expect_same. bind_step. rewrite read_num_pad0 by done. by bind_step.
Qed.

Lemma valid_date_ranges y m d : valid_date y m d = true → 1 ≤ m ≤ 12 ∧ 1 ≤ d ≤ 31.
Proof.
  intros [Hm Hd]%valid_date_spec. split; [done|]. unfold days_in_month in Hd.
  repeat case_match; lia.
Qed.

Lemma valid_time_spec hh mm ss :
  valid_time hh mm ss = true ↔ 0 ≤ hh < 24 ∧ 0 ≤ mm < 60 ∧ 0 ≤ ss < 60.
Proof. apply bool_decide_eq_true. Qed.

(** [pd.to_datetime] reads back the instant of any printed timestamp of
    a four-digit year. *)
Lemma parse_datetime_format y m d hh mm ss :
  0 ≤ y < 10000 → valid_date y m d = true → valid_time hh mm ss = true →
  parse_datetime (format_datetime y m d hh mm ss) = Some (timestamp_of y m d hh mm ss).
Proof.
  intros Hy Hv Ht. pose proof (valid_date_ranges _ _ _ Hv). pose proof (proj1 (valid_time_spec _ _ _) Ht).
  unfold parse_datetime, format_datetime. rewrite parse_date_fields_format by lia. bind_step.
  rewrite expect_same. bind_step. rewrite read_num_pad0 by (simpl; lia). bind_step.
  rewrite expect_same. bind_step. rewrite read_num_pad0 by (simpl; lia). bind_step.
  rewrite expect_same. bind_step. rewrite read_num_pad0_end by (simpl; lia). bind_step.
  by rewrite decide_True.
Qed.

(** Only printed timestamps parse. *)
Lemma parse_datetime_Some s t :
  parse_datetime s = Some t →
  ∃ y m d hh mm ss, 0 ≤ y < 10000 ∧ valid_date y m d = true ∧ valid_time hh mm ss = true ∧
    s = format_datetime y m d hh mm ss ∧ t = timestamp_of y m d hh mm ss.
Proof.
  unfold parse_datetime, parse_date_fields.
  destruct (read_num 4 0 s) as [[y s1]|] eqn:H1; [bind_step|intros ?; discriminate].
  destruct (expect _ s1) as [s2|] eqn:H2; [bind_step|intros ?; discriminate].
  destruct (read_num 2 0 s2) as [[m s3]|] eqn:H3; [bind_step|intros ?; discriminate].
  destruct (expect _ s3) as [s4|] eqn:H4; [bind_step|intros ?; discriminate].
  destruct (read_num 2 0 s4) as [[d s5]|] eqn:H5; [bind_step|intros ?; discriminate].
  bind_step.
  destruct (expect _ s5) as [s6|] eqn:H6; [bind_step|intros ?; discriminate].
  destruct (read_num 2 0 s6) as [[hh s7]|] eqn:H7; [bind_step|intros ?; discriminate].
  destruct (expect _ s7) as [s8|] eqn:H8; [bind_step|intros ?; discriminate].
  destruct (read_num 2 0 s8) as [[mm s9]|] eqn:H9; [bind_step|intros ?; discriminate].
  destruct (expect _ s9) as [s10|] eqn:H10; [bind_step|intros ?; discriminate].
  destruct (read_num 2 0 s10) as [[ss s11]|] eqn:H11; [bind_step|intros ?; discriminate].
  case_decide as Hok; [|intros ?; discriminate]. intros [= <-]. destruct Hok as (-> & Hv & Ht).
  apply read_num0_Some in H1 as [Hy ->], H3 as [_ ->], H5 as [_ ->], H7 as [_ ->],
    H9 as [_ ->], H11 as [_ ->].
  apply expect_Some in H2 as ->, H4 as ->, H6 as ->, H8 as ->, H10 as ->.
  exists y, m, d, hh, mm, ss. simpl in Hy. split_and!; [lia|lia|done|done| |done].
  unfold format_datetime, format_date. rewrite append_nil_r.
  by repeat (rewrite append_assoc || rewrite append_cons).
Qed.

(** ** Text order is time order *)

Lemma compare_format_datetime y1 m1 d1 hh1 mm1 ss1 y2 m2 d2 hh2 mm2 ss2 :
  0 ≤ y1 < 10000 → 0 ≤ m1 < 100 → 0 ≤ d1 < 100 → 0 ≤ hh1 < 100 → 0 ≤ mm1 < 100 → 0 ≤ ss1 < 100 →
  0 ≤ y2 < 10000 → 0 ≤ m2 < 100 → 0 ≤ d2 < 100 → 0 ≤ hh2 < 100 → 0 ≤ mm2 < 100 → 0 ≤ ss2 < 100 →
  String.compare (format_datetime y1 m1 d1 hh1 mm1 ss1) (format_datetime y2 m2 d2 hh2 mm2 ss2) =
  Z.compare (ts_key y1 m1 d1 hh1 mm1 ss1) (ts_key y2 m2 d2 hh2 mm2 ss2).
Proof.
  intros. unfold format_datetime, format_date, ts_key.
  repeat (rewrite append_assoc || rewrite append_cons).
  rewrite compare_pad, compare_same_char, compare_pad, compare_same_char, compare_pad,
    compare_same_char, compare_pad, compare_same_char, compare_pad, compare_same_char,
    compare_pad_end by (simpl; lia).
  rewrite !compare_split by lia. by rewrite !then_cmp_assoc.
Qed.

Lemma days_from_civil_compare y1 m1 d1 y2 m2 d2 :
  valid_date y1 m1 d1 = true → valid_date y2 m2 d2 = true →
  Z.compare (days_from_civil y1 m1 d1) (days_from_civil y2 m2 d2) =
  Z.compare (date_key (y1, m1, d1)) (date_key (y2, m2, d2)).
Proof.
  intros H1 H2. pose proof (days_from_civil_lt_iff _ _ _ _ _ _ H1 H2) as Hlt.
  pose proof (days_from_civil_lt_iff _ _ _ _ _ _ H2 H1) as Hgt.
  destruct (Z.compare_spec (days_from_civil y1 m1 d1) (days_from_civil y2 m2 d2)) as [Heq|?|?].
  - apply (f_equal civil_from_days) in Heq. rewrite !days_from_civil_inv in Heq by done.
    simplify_eq. symmetry. apply Z.compare_refl.
  - symmetry. apply Z.compare_lt_iff. by apply Hlt.
  - symmetry. apply Z.compare_gt_iff. by apply Hgt.
Qed.

Lemma compare_timestamp_of y1 m1 d1 hh1 mm1 ss1 y2 m2 d2 hh2 mm2 ss2 :
  valid_date y1 m1 d1 = true → valid_time hh1 mm1 ss1 = true →
  valid_date y2 m2 d2 = true → valid_time hh2 mm2 ss2 = true →
  Z.compare (timestamp_of y1 m1 d1 hh1 mm1 ss1) (timestamp_of y2 m2 d2 hh2 mm2 ss2) =
  Z.compare (ts_key y1 m1 d1 hh1 mm1 ss1) (ts_key y2 m2 d2 hh2 mm2 ss2).
Proof.
  intros Hv1 Ht1 Hv2 Ht2. pose proof (valid_date_ranges _ _ _ Hv1). pose proof (valid_date_ranges _ _ _ Hv2).
  apply valid_time_spec in Ht1, Ht2. unfold timestamp_of, ns_per_day, ns_per_second.
  rewrite !(Z.mul_comm (days_from_civil _ _ _)), compare_split by lia.
  rewrite compare_mul_pos_r by lia. rewrite days_from_civil_compare by done.
  unfold date_key, ts_key.
  replace ((hh1 * 60 + mm1) * 60 + ss1) with (60 * (60 * hh1 + mm1) + ss1) by lia.
  replace ((hh2 * 60 + mm2) * 60 + ss2) with (60 * (60 * hh2 + mm2) + ss2) by lia.
  replace (y1 * 10000 + m1 * 100 + d1) with (100 * (100 * y1 + m1) + d1) by lia.
  replace (y2 * 10000 + m2 * 100 + d2) with (100 * (100 * y2 + m2) + d2) by lia.
  rewrite !compare_split by lia. by rewrite !then_cmp_assoc.
Qed.

(** Two timestamps of the CSV compare as text exactly as the instants
    they denote compare. *)
Lemma parse_datetime_compare s1 s2 t1 t2 :
  parse_datetime s1 = Some t1 → parse_datetime s2 = Some t2 →
  String.compare s1 s2 = Z.compare t1 t2.
Proof.
  intros (y1 & m1 & d1 & hh1 & mm1 & ss1 & Hy1 & Hv1 & Ht1 & -> & ->)%parse_datetime_Some
    (y2 & m2 & d2 & hh2 & mm2 & ss2 & Hy2 & Hv2 & Ht2 & -> & ->)%parse_datetime_Some.
  rewrite compare_timestamp_of by done.
  pose proof (valid_date_ranges _ _ _ Hv1). pose proof (valid_date_ranges _ _ _ Hv2).
  apply valid_time_spec in Ht1, Ht2. apply compare_format_datetime; lia.
Qed.

Lemma parse_datetime_le s1 s2 t1 t2 :
  parse_datetime s1 = Some t1 → parse_datetime s2 = Some t2 → String.le s1 s2 ↔ t1 ≤ t2.
Proof.
  intros H1 H2. unfold String.le, String.leb. rewrite (parse_datetime_compare _ _ _ _ H1 H2).
  destruct (Z.compare_spec t1 t2); simpl; split; (done || lia).
Qed.

(** Every parsed timestamp is a whole number of seconds. *)
Lemma parse_datetime_seconds s t : parse_datetime s = Some t → ∃ k, t = k * ns_per_second.
Proof.
  intros (y & m & d & hh & mm & ss & _ & _ & _ & _ & ->)%parse_datetime_Some.
  exists (days_from_civil y m d * 86400 + (hh * 60 + mm) * 60 + ss).
  unfold timestamp_of, ns_per_day, ns_per_second. ring.
Qed.

(** A parsed timestamp fits a [datetime64[ns]] exactly when its text
    lies between [ts_min_text] and [ts_max_text]. *)
Lemma in_ns_bounds_text s t :
  parse_datetime s = Some t →
  in_ns_bounds t = String.leb ts_min_text s && String.leb s ts_max_text.
Proof.
  intros Ht. destruct (parse_datetime_seconds _ _ Ht) as [k ->].
  assert (parse_datetime ts_min_text = Some (-9223372036 * ns_per_second)) as Hmin
    by (vm_compute; reflexivity).
  assert (parse_datetime ts_max_text = Some (9223372036 * ns_per_second)) as Hmax
    by (vm_compute; reflexivity).
  unfold String.leb. rewrite (parse_datetime_compare _ _ _ _ Hmin Ht), (parse_datetime_compare _ _ _ _ Ht Hmax).
  unfold in_ns_bounds, iNaT, ns_max, ns_per_second.
  destruct (Z.compare_spec (-9223372036 * 1000000000) (k * 1000000000)),
    (Z.compare_spec (k * 1000000000) (9223372036 * 1000000000)); simpl;
    case_bool_decide; (done || exfalso; lia).
Qed.

(** Timestamps of the CSV's form sort as text exactly as the
    instants they denote: line 68, which sorts the column before line 76
    converts it, orders the rows by approval time. *)
Theorem timestamp_text_order s1 s2 t1 t2 :
  parse_datetime s1 = Some t1 → parse_datetime s2 = Some t2 →
  String.compare s1 s2 = Z.compare t1 t2 ∧ (String.le s1 s2 ↔ t1 ≤ t2).
Proof. intros H1 H2. split; [by apply parse_datetime_compare | by apply parse_datetime_le]. Qed.

(** [pd.to_datetime] reads back the instant of every printed
    timestamp of a four-digit year, and accepts nothing else: any text
    it parses is the canonical print of a valid date and time. *)
Theorem timestamp_text_roundtrip :
  (∀ y m d hh mm ss, 0 ≤ y < 10000 → valid_date y m d = true → valid_time hh mm ss = true →
     parse_datetime (format_datetime y m d hh mm ss) = Some (timestamp_of y m d hh mm ss)) ∧
  (∀ s t, parse_datetime s = Some t →
     ∃ y m d hh mm ss, 0 ≤ y < 10000 ∧ valid_date y m d = true ∧ valid_time hh mm ss = true ∧
       s = format_datetime y m d hh mm ss ∧ t = timestamp_of y m d hh mm ss).
Proof. split; [apply parse_datetime_format | apply parse_datetime_Some]. Qed.
