(* ===== verification/Dataset.v ===== *)
(** * Dataset: order records, the load step and the date filter

    Models lines 65-95 of dashboard.py: the joined order table
    [all_df] (one row per order, customer, product and payment), its
    sort by approval time at load, the bounds of the date picker and
    the filter that builds the working slice [main_df].  Missing values
    of pandas (NaN, NaT) are [None].  Timestamps are [datetime64[ns]]
    values (nanoseconds since the epoch, see [Frame.ns_per_day]); dates
    picked in the sidebar are day numbers since the epoch.  Payment
    values are exact integers (centavos): float rounding is not
    modelled. *)

From S2P Require Import Prelude Sort Frame.

(** A row of [all_df], restricted to the columns the dashboard reads.
    The other timestamp columns ([order_delivered_carrier_date], ...)
    are parsed at load but never read, and are left out. *)
Record OrderRecord := {
  order_id : option string;
  customer_id : option string;
  customer_state : option string;
  product_id : option string;
  product_category_name_english : option string;
  payment_value : option Z;
  order_approved_at : option Z
}.

#[export] Instance OrderRecord_eq_dec : EqDecision OrderRecord.
Proof. solve_decision. Defined.

(** [sort_values(by="order_approved_at")] with [na_position='last']:
    [a] may precede [b] when [a] is approved no later than [b], NaT rows
    going last.  (The column is still text when sorted; ISO 8601 text
    sorts like the instants it denotes.) *)
Definition approved_le : relation OrderRecord := λ a b,
  match order_approved_at a, order_approved_at b with
  | Some x, Some y => (x ≤ y)%Z
  | _, None => True
  | None, Some _ => False
  end.

#[export] Instance approved_le_dec : RelDecision approved_le.
Proof.
  intros a b. unfold approved_le.
  destruct (order_approved_at a), (order_approved_at b); apply _.
Defined.

(** Lines 67-69: the table as loaded, sorted by approval time. *)
Definition load_all_df `{SortValues} (csv_rows : list OrderRecord) : list OrderRecord :=
  sort_values approved_le csv_rows.

(** Lines 78-79: [all_df["order_approved_at"].min()] and [.max()],
    skipping NaT; NaT when the column has no value. *)
Definition min_date (all_df : list OrderRecord) : option Z :=
  match omap order_approved_at all_df with
  | [] => None
  | t :: ts => Some (foldr Z.min t ts)
  end.

Definition max_date (all_df : list OrderRecord) : option Z :=
  match omap order_approved_at all_df with
  | [] => None
  | t :: ts => Some (foldr Z.max t ts)
  end.

(** [str(d)] of a picked date is ["YYYY-MM-DD"]; compared with a
    [datetime64] column it denotes midnight at the start of that day. *)
Definition midnight (d : Z) : Z := (d * ns_per_day)%Z.

(** Lines 94-95: [(t >= str(start_date)) & (t <= str(end_date))]; NaT
    compares false. *)
Definition in_date_range (start_date end_date : Z) (r : OrderRecord) : bool :=
  match order_approved_at r with
  | Some t => bool_decide (midnight start_date ≤ t ≤ midnight end_date)%Z
  | None => false
  end.

Definition main_df (all_df : list OrderRecord) (start_date end_date : Z) : list OrderRecord :=
  filter (λ r, in_date_range start_date end_date r = true) all_df.

(** Lines 86-91: the picker's default value, the calendar days of
    [min_date] and [max_date]. *)
Definition default_date_range (all_df : list OrderRecord) : option (Z * Z) :=
  match min_date all_df, max_date all_df with
  | Some lo, Some hi => Some (floor_day lo, floor_day hi)
  | _, _ => None
  end.

(** ** Lemmas *)

#[export] Instance approved_le_trans : Transitive approved_le.
Proof.
  intros a b c. unfold approved_le.
  destruct (order_approved_at a), (order_approved_at b), (order_approved_at c); try done; lia.
Qed.

#[export] Instance approved_le_total : Total approved_le.
Proof.
  intros a b. unfold approved_le.
  destruct (order_approved_at a), (order_approved_at b); auto; lia.
Qed.

Lemma elem_of_main_df all_df s e r :
  r ∈ main_df all_df s e ↔ r ∈ all_df ∧ ∃ t, order_approved_at r = Some t ∧
    (midnight s ≤ t ≤ midnight e)%Z.
Proof.
  unfold main_df, in_date_range. rewrite list_elem_of_filter.
  destruct (order_approved_at r); [|naive_solver].
  rewrite bool_decide_eq_true. naive_solver.
Qed.

Lemma main_df_timestamps all_df s e r :
  r ∈ main_df all_df s e → is_Some (order_approved_at r).
Proof. intros (_ & t & -> & _)%elem_of_main_df. by eexists. Qed.

Lemma main_df_timed all_df s e :
  filter (λ r, is_Some (order_approved_at r)) (main_df all_df s e) = main_df all_df s e.
Proof. apply filter_all_true, main_df_timestamps. Qed.

Lemma max_date_ge all_df r t m :
  r ∈ all_df → order_approved_at r = Some t → max_date all_df = Some m → (t ≤ m)%Z.
Proof.
  intros Hr Ht. unfold max_date.
  assert (Hin : t ∈ omap order_approved_at all_df) by (apply list_elem_of_omap; eauto).
  destruct (omap _ _) as [|t0 ts]; [set_solver|]. intros [= <-]. by apply foldr_max_ge.
Qed.

Lemma max_date_elem all_df m :
  max_date all_df = Some m → ∃ r, r ∈ all_df ∧ order_approved_at r = Some m.
Proof.
  unfold max_date. destruct (omap _ _) as [|t0 ts] eqn:Ho; [done|]. intros [= <-].
  pose proof (foldr_max_elem t0 ts) as Hin.
  rewrite <-Ho in Hin. apply list_elem_of_omap in Hin as (r & ? & ?). eauto.
Qed.

Lemma min_date_elem all_df m :
  min_date all_df = Some m → ∃ r, r ∈ all_df ∧ order_approved_at r = Some m.
Proof.
  unfold min_date. destruct (omap _ _) as [|t0 ts] eqn:Ho; [done|]. intros [= <-].
  pose proof (foldr_min_elem t0 ts) as Hin.
  rewrite <-Ho in Hin. apply list_elem_of_omap in Hin as (r & ? & ?). eauto.
Qed.

(** ** The slice and the picker bounds depend on the rows, not their order *)

#[export] Instance main_df_proper : Proper ((≡ₚ) ==> (=) ==> (=) ==> (≡ₚ)) main_df.
Proof. intros l1 l2 Hp s ? <- e ? <-. unfold main_df. by rewrite Hp. Qed.

#[export] Instance default_date_range_proper : Proper ((≡ₚ) ==> (=)) default_date_range.
Proof.
  intros l1 l2 Hp. unfold default_date_range, min_date, max_date.
  pose proof (omap_perm order_approved_at _ _ Hp) as Ho.
  destruct (omap _ l1) as [|t ts], (omap _ l2) as [|t' ts'];
    [done | by apply Permutation_nil_cons in Ho | symmetry in Ho; by apply Permutation_nil_cons in Ho |].
  by rewrite (foldr_min_perm _ _ _ _ Ho), (foldr_max_perm _ _ _ _ Ho).
Qed.

(** ** The date filter *)

(** C7: the slice [main_df start end] holds the rows approved on the
    days [start], ..., [end - 1], and of the day [end] only those
    approved at exactly midnight: the picked end day is in effect
    excluded, although the picker presents the range as inclusive. *)
Theorem main_df_day_range all_df s e r t :
  r ∈ all_df → order_approved_at r = Some t →
  r ∈ main_df all_df s e ↔ (s ≤ floor_day t < e)%Z ∨ (t = midnight e ∧ (s ≤ e)%Z).
Proof.
  intros Hr Ht. rewrite elem_of_main_df, Ht. pose proof (floor_day_spec t).
  unfold midnight. unfold ns_per_day in *. split.
  - intros (_ & t' & [= <-] & Hb). nia.
  - intros Hd. split; [done|]. exists t. split; [done|]. nia.
Qed.

(** C8: with the default date range, the latest approved order is not
    in the slice unless it was approved at exactly midnight, so the
    dashboard's initial view leaves out the last day's orders. *)
Theorem default_range_drops_latest all_df lo hi m :
  default_date_range all_df = Some (lo, hi) → max_date all_df = Some m →
  (m `mod` ns_per_day ≠ 0)%Z →
  ∃ r, r ∈ all_df ∧ order_approved_at r = Some m ∧ r ∉ main_df all_df lo hi.
Proof.
  unfold default_date_range. intros Hd Hm Hmod. rewrite Hm in Hd.
  destruct (min_date all_df) as [lo'|]; [|done]. injection Hd as <- <-.
  destruct (max_date_elem all_df m Hm) as (r & Hr & Hrm).
  exists r. split_and!; [done..|]. intros (_ & t & Ht & Hin)%elem_of_main_df.
  rewrite Hrm in Ht. injection Ht as <-. apply Hmod.
  pose proof (floor_day_spec m). unfold midnight, ns_per_day in *.
  assert (m = floor_day m * (86400 * 1000000000))%Z as -> by lia. by rewrite Z.mod_mul.
Qed.

(** ** A sample slice

    Four orders: three approved on 2018-01-01 (day 17532 since the
    epoch) paying 10, 20 and 30, one approved on 2018-01-03 at 00:01
    paying 5, in states SP, SP, MA, SP. *)

Definition sample_row (oid cid st pid cat : string) (pay t : Z) : OrderRecord :=
  {| order_id := Some oid; customer_id := Some cid; customer_state := Some st;
     product_id := Some pid; product_category_name_english := Some cat;
     payment_value := Some pay; order_approved_at := Some t |}.

Definition sample_day : Z := 17532.

Definition sample_last : OrderRecord :=
  sample_row "o4" "c4" "SP" "p4" "toys" 5 (midnight (sample_day + 2) + 60000000000).

Definition sample_df : list OrderRecord :=
  [sample_row "o1" "c1" "SP" "p1" "toys" 10 (midnight sample_day + 3600000000000);
   sample_row "o2" "c2" "SP" "p2" "toys" 20 (midnight sample_day + 7200000000000);
   sample_row "o3" "c3" "MA" "p3" "books" 30 (midnight sample_day + 7200000000000);
   sample_last]%Z.

Lemma main_df_day_range_witness :
  sample_last ∉ main_df sample_df sample_day (sample_day + 2).
Proof.
  intros Hin.
  apply (main_df_day_range sample_df sample_day (sample_day + 2) sample_last
           (midnight (sample_day + 2) + 60000000000)) in Hin;
    [| by right; right; right; left | reflexivity].
  vm_compute in Hin. destruct Hin as [[_ Hlt]|[Heq _]]; [discriminate | discriminate].
Defined.

Lemma default_range_drops_latest_witness :
  ∃ r, r ∈ sample_df ∧ order_approved_at r = Some (midnight (sample_day + 2) + 60000000000)%Z ∧
       r ∉ main_df sample_df sample_day (sample_day + 2).
Proof.
  apply default_range_drops_latest; [vm_compute; reflexivity | vm_compute; reflexivity |].
  vm_compute. discriminate.
Defined.
