(* ===== verification/Load.v ===== *)
(** * Load: the order table from text to timestamps

    [pd.read_csv] (line 67) returns the six timestamp columns of
    [datetime_cols] as text.  Line 68 sorts the table on the
    [order_approved_at] text, missing values last, and only the loop of
    lines 75-76 converts the columns, one after the other, with
    [pd.to_datetime], which raises [ValueError] on text that is not a
    timestamp and [OutOfBoundsDatetime] on an instant a [datetime64[ns]]
    cannot hold.  Lines 94-95 then compare the timestamps with
    [str(start_date)] and [str(end_date)].  This file models those steps
    on raw rows ([RawOrder]) and proves that they implement what
    [Dataset] assumes: the load gives the rows sorted by instant
    ([load_all_df]'s contract; with a stable sort, the very same list),
    every loaded instant is a [datetime64[ns]] value, the conversion
    raises exactly when some cell of the six columns does not convert,
    and the text comparison is the comparison with midnight of the
    picked days ([main_df]). *)

From S2P Require Import Prelude Sort Frame Calendar Timestamp Dataset.

(** A row of all_df.csv as [pd.read_csv] returns it: the columns the
    dashboard reads, and the six timestamp columns of [datetime_cols]
    (line 66) as text. *)
Record RawOrder := {
  raw_order_id : option string;
  raw_customer_id : option string;
  raw_customer_state : option string;
  raw_product_id : option string;
  raw_product_category_name_english : option string;
  raw_payment_value : option Z;
  raw_order_approved_at : option string;
  raw_order_delivered_carrier_date : option string;
  raw_order_delivered_customer_date : option string;
  raw_order_estimated_delivery_date : option string;
  raw_order_purchase_timestamp : option string;
  raw_shipping_limit_date : option string
}.

(** Line 66, in its order: the loop of lines 75-76 converts
    [order_approved_at] first. *)
Definition other_datetime_cols : list (RawOrder → option string) :=
  [raw_order_delivered_carrier_date; raw_order_delivered_customer_date;
   raw_order_estimated_delivery_date; raw_order_purchase_timestamp; raw_shipping_limit_date].

Definition datetime_cols : list (RawOrder → option string) :=
  raw_order_approved_at :: other_datetime_cols.

(** Line 68: [sort_values(by="order_approved_at")] on the text column,
    NaN last. *)
Definition approved_text_le : relation RawOrder := λ a b,
  match raw_order_approved_at a, raw_order_approved_at b with
  | Some x, Some y => String.le x y
  | _, None => True
  | None, Some _ => False
  end.

#[export] Instance approved_text_le_dec : RelDecision approved_text_le.
Proof.
  intros a b. unfold approved_text_le.
  destruct (raw_order_approved_at a), (raw_order_approved_at b); apply _.
Defined.

#[export] Instance approved_text_le_trans : Transitive approved_text_le.
Proof.
  intros a b c. unfold approved_text_le.
  destruct (raw_order_approved_at a), (raw_order_approved_at b), (raw_order_approved_at c);
    try done. apply (transitivity (R := String.le)).
Qed.

#[export] Instance approved_text_le_total : Total approved_text_le.
Proof.
  intros a b. unfold approved_text_le.
  destruct (raw_order_approved_at a), (raw_order_approved_at b); auto. apply (total String.le).
Qed.

(** [pd.to_datetime] on one cell: NaN stays NaT, a timestamp of the
    CSV's form becomes its instant if a [datetime64[ns]] holds it and
    raises [OutOfBoundsDatetime] if not, other text raises
    [ValueError]. *)
Definition to_datetime_cell (c : option string) : result (option Z) :=
  match c with
  | None => Ok None
  | Some s =>
      match parse_datetime s with
      | Some t => if in_ns_bounds t then Ok (Some t) else Raise OutOfBoundsDatetime
      | None => Raise ValueError
      end
  end.

(** [pd.to_datetime(all_df[col])]: the whole column, cell by cell. *)
Definition to_datetime_col (col : RawOrder → option string) (rows : list RawOrder)
    : result (list (option Z)) :=
  mapM (to_datetime_cell ∘ col) rows.

Definition with_approved_at (r : RawOrder) (t : option Z) : OrderRecord :=
  {| order_id := raw_order_id r; customer_id := raw_customer_id r;
     customer_state := raw_customer_state r; product_id := raw_product_id r;
     product_category_name_english := raw_product_category_name_english r;
     payment_value := raw_payment_value r; order_approved_at := t |}.

(** Lines 75-76, [for col in datetime_cols: all_df[col] =
    pd.to_datetime(all_df[col])]: the first iteration converts the
    column the dashboard reads; the later ones convert columns nothing
    reads, and matter only by the error they may raise. *)
Definition to_datetime (rows : list RawOrder) : result (list OrderRecord) :=
  all_df ← mapM (λ r, t ← to_datetime_cell (raw_order_approved_at r); mret (with_approved_at r t)) rows;
  _ ← mapM (λ col, to_datetime_col col rows) other_datetime_cols;
  mret all_df.

(** Lines 67-76: sort on the text, then convert. *)
Definition load_csv `{SortValues} (csv : list RawOrder) : result (list OrderRecord) :=
  to_datetime (sort_values approved_text_le csv).

(** Line 94-95: [str(d)] of a picked date. *)
Definition str_date (d : Z) : string :=
  let '(y, m, dd) := civil_from_days d in format_date y m dd.

(** [(t >= lo) & (t <= hi)] on one row; NaT compares false. *)
Definition compare_approved (lo hi : Z) (r : OrderRecord) : bool :=
  match order_approved_at r with
  | Some t => bool_decide (lo ≤ t ≤ hi)%Z
  | None => false
  end.

(** Lines 94-95 as written: each timestamp is compared with the text of
    the picked dates, which pandas reads with [parse_date]. *)
Definition main_df_text (all_df : list OrderRecord) (start_date end_date : Z)
    : result (list OrderRecord) :=
  match parse_date (str_date start_date), parse_date (str_date end_date) with
  | Some lo, Some hi => Ok (filter (λ r, compare_approved lo hi r = true) all_df)
  | _, _ => Raise ValueError
  end.

(** ** What the conversion gives *)

(** A cell converts: missing, or a timestamp a [datetime64[ns]] holds. *)
Definition cell_ok (c : option string) : bool :=
  match c with
  | None => true
  | Some s => match parse_datetime s with Some t => in_ns_bounds t | None => false end
  end.

(** Every timestamp cell of a row converts. *)
Definition text_ok (r : RawOrder) : bool := forallb (λ col, cell_ok (col r)) datetime_cols.

Definition approved_time (r : RawOrder) : option Z :=
  s ← raw_order_approved_at r; parse_datetime s.

Definition parsed (r : RawOrder) : OrderRecord := with_approved_at r (approved_time r).

Section load_facts.
Context `{SortValues}.

Lemma text_ok_spec r : text_ok r = true ↔ ∀ col, col ∈ datetime_cols → cell_ok (col r) = true.
Proof.
  unfold text_ok. rewrite forallb_forall. by setoid_rewrite list_elem_of_In.
Qed.

Lemma text_ok_approved r : text_ok r = true → cell_ok (raw_order_approved_at r) = true.
Proof. rewrite text_ok_spec. intros Hok. apply Hok. left. Qed.

Lemma to_datetime_cell_ok c : cell_ok c = true → to_datetime_cell c = Ok (c ≫= parse_datetime).
Proof.
  unfold cell_ok, to_datetime_cell. destruct c as [s|]; [|done]. simpl.
  destruct (parse_datetime s) as [t|]; [|done]. intros Ht. by rewrite ?Ht.
Qed.

Lemma to_datetime_cell_Raise c e :
  to_datetime_cell c = Raise e → cell_ok c = false ∧ is_ValueError e = true.
Proof.
  unfold to_datetime_cell, cell_ok. destruct c as [s|]; [|done].
  destruct (parse_datetime s) as [t|]; [|by intros [= <-]].
  by destruct (in_ns_bounds t); intros [= <-].
Qed.

Lemma to_datetime_cell_not_ok c : cell_ok c = false → ∃ e, to_datetime_cell c = Raise e.
Proof.
  unfold to_datetime_cell, cell_ok. destruct c as [s|]; [|done].
  destruct (parse_datetime s) as [t|]; [|by eexists]. intros ->. by eexists.
Qed.

Lemma to_datetime_cell_Ok_Some c t : to_datetime_cell c = Ok (Some t) → in_ns_bounds t = true.
Proof.
  unfold to_datetime_cell. destruct c as [s|]; [|done].
  destruct (parse_datetime s) as [t'|]; [|done]. by destruct (in_ns_bounds t') eqn:?; intros [= ->].
Qed.

Lemma to_datetime_col_Raise col rows e :
  to_datetime_col col rows = Raise e → ∃ r, r ∈ rows ∧ to_datetime_cell (col r) = Raise e.
Proof. apply mapM_Raise_inv. Qed.

(** On well-formed rows the text order is the order of the instants. *)
Lemma approved_text_le_parsed a b :
  text_ok a = true → text_ok b = true → approved_text_le a b ↔ approved_le (parsed a) (parsed b).
Proof.
  intros Ha%text_ok_approved Hb%text_ok_approved.
  unfold cell_ok, approved_text_le, approved_le, parsed, approved_time in *. simpl.
  destruct (raw_order_approved_at a) as [s1|], (raw_order_approved_at b) as [s2|]; simpl; try done.
  - destruct (parse_datetime s1) as [t1|] eqn:Ht1, (parse_datetime s2) as [t2|] eqn:Ht2; try done.
    by apply parse_datetime_le.
  - by destruct (parse_datetime s1).
  - by destruct (parse_datetime s2).
Qed.

Lemma to_datetime_ok rows :
  (∀ r, r ∈ rows → text_ok r = true) → to_datetime rows = Ok (parsed <$> rows).
Proof.
  intros Hok. unfold to_datetime.
  rewrite (mapM_Ok_fmap _ parsed), (mapM_Ok_fmap _ (λ col, (λ r, col r ≫= parse_datetime) <$> rows));
    [done| |].
  - intros col Hcol. apply mapM_Ok_fmap. intros r Hr. apply to_datetime_cell_ok.
    apply text_ok_spec; [by apply Hok|]. by right.
  - intros r Hr. unfold parsed, approved_time.
    by rewrite to_datetime_cell_ok by (by apply text_ok_approved, Hok).
Qed.

(** The rows [to_datetime] returns carry converted cells only. *)
Lemma to_datetime_elem rows all_df r :
  to_datetime rows = Ok all_df → r ∈ all_df →
  ∃ r0 t, r0 ∈ rows ∧ to_datetime_cell (raw_order_approved_at r0) = Ok t ∧ r = with_approved_at r0 t.
Proof.
  unfold to_datetime. destruct (mapM _ rows) as [l|e] eqn:Hl; rewrite ?bind_Ok, ?bind_Raise; [|done].
  destruct (mapM (λ col, to_datetime_col col rows) other_datetime_cols);
    rewrite ?bind_Ok, ?bind_Raise; [|done]. intros [= <-] Hr.
  destruct (mapM_Ok_elem _ _ _ _ Hl Hr) as (r0 & Hr0 & Hc).
  destruct (to_datetime_cell _) as [t|] eqn:Ht; simpl in Hc; [|done]. injection Hc as <-. eauto.
Qed.

(** A conversion that raises raises the error of one of its cells. *)
Lemma to_datetime_Raise rows e :
  to_datetime rows = Raise e →
  ∃ r col, r ∈ rows ∧ col ∈ datetime_cols ∧ to_datetime_cell (col r) = Raise e.
Proof.
  unfold to_datetime. destruct (mapM _ rows) as [l|e'] eqn:Hl; rewrite ?bind_Ok, ?bind_Raise.
  - destruct (mapM (λ col, to_datetime_col col rows) other_datetime_cols) as [vs|e'] eqn:Hv;
      rewrite ?bind_Ok, ?bind_Raise; [done|]. intros [= ->].
    destruct (mapM_Raise_inv _ _ _ Hv) as (col & Hcol & (r & Hr & Hc)%to_datetime_col_Raise).
    exists r, col. split_and!; [done|by right|done].
  - intros [= ->]. destruct (mapM_Raise_inv _ _ _ Hl) as (r & Hr & Hc).
    destruct (to_datetime_cell _) eqn:Ht; simpl in Hc; [done|]. injection Hc as ->.
    exists r, raw_order_approved_at. split_and!; [done|left|done].
Qed.

(** A row with a cell that does not convert makes the conversion raise. *)
Lemma to_datetime_not_ok rows r :
  r ∈ rows → text_ok r = false → ∃ e, to_datetime rows = Raise e.
Proof.
  intros Hr Hbad. destruct (to_datetime rows) as [l|e] eqn:Hl; [exfalso|by eexists].
  destruct (forallb_false_elem _ _ Hbad) as (col & Hcol & Hc).
  destruct (to_datetime_cell_not_ok _ Hc) as [e0 He0]. unfold to_datetime in Hl.
  destruct (mapM _ rows) as [l'|e'] eqn:Hl'; rewrite ?bind_Ok, ?bind_Raise in Hl; [|done].
  apply elem_of_cons in Hcol as [->|Hcol].
  - destruct (mapM_Ok_inv _ _ _ _ Hl' Hr) as [y Hy]. rewrite He0 in Hy. done.
  - destruct (mapM (λ col, to_datetime_col col rows) other_datetime_cols) as [vs|e'] eqn:Hv;
      rewrite ?bind_Ok, ?bind_Raise in Hl; [|done].
    destruct (mapM_Ok_inv _ _ _ _ Hv Hcol) as [y Hy]. unfold to_datetime_col in Hy.
    destruct (mapM_Raise_exists (to_datetime_cell ∘ col) _ _ _ Hr He0) as [e1 He1]. congruence.
Qed.
End load_facts.

(** ** The load implements [load_all_df] *)

Section load.
Context `{SortValues}.

(** The load of a CSV whose timestamps convert: its rows, sorted on
    the approval text, with their instants. *)
Lemma load_csv_parsed csv :
  (∀ r, r ∈ csv → text_ok r = true) →
  load_csv csv = Ok (parsed <$> sort_values approved_text_le csv).
Proof.
  intros Hok. apply to_datetime_ok. intros r Hr. apply Hok. by apply elem_of_sort_values in Hr.
Qed.

(** C23: when every timestamp text of the CSV is a timestamp a
    [datetime64[ns]] holds, or missing, sorting the text (line 68) and
    converting the six columns (lines 75-76) loads the table: the rows
    of the CSV with their instants, sorted by instant with missing
    values last, which is the contract of [load_all_df]. *)
Theorem load_csv_contract csv :
  (∀ r, r ∈ csv → text_ok r = true) →
  ∃ rows, load_csv csv = Ok rows ∧ rows ≡ₚ parsed <$> csv ∧ StronglySorted approved_le rows.
Proof.
  intros Hok. exists (parsed <$> sort_values approved_text_le csv). split_and!.
  - by apply load_csv_parsed.
  - by rewrite sort_values_Permutation.
  - apply (StronglySorted_fmap_in _ approved_text_le); [|apply sort_values_sorted; apply _].
    intros a b Ha Hb. apply approved_text_le_parsed; apply Hok; by eapply elem_of_sort_values.
Qed.

(** C24: one timestamp text, in any of the six columns, that is not a
    timestamp or that a [datetime64[ns]] cannot hold makes the load
    raise, whatever its position; the error raised is that of one of the
    cells that do not convert, a [ValueError] or its subclass
    [OutOfBoundsDatetime]. *)
Theorem load_csv_raises csv :
  (∃ r, r ∈ csv ∧ text_ok r = false) →
  ∃ r col e, r ∈ csv ∧ col ∈ datetime_cols ∧ to_datetime_cell (col r) = Raise e ∧
    load_csv csv = Raise e ∧ is_ValueError e = true.
Proof.
  intros (r & Hr & Hbad). unfold load_csv.
  destruct (to_datetime_not_ok (sort_values approved_text_le csv) r) as [e He];
    [by apply elem_of_sort_values| done |].
  destruct (to_datetime_Raise _ _ He) as (r' & col & Hr' & Hcol & Hc).
  exists r', col, e. split_and!; [by eapply elem_of_sort_values|done..|].
  by apply (to_datetime_cell_Raise _ _ Hc).
Qed.

End load.

(** C26: a timestamp of the CSV's form converts exactly when its text
    lies between [Timestamp.min] and [Timestamp.max] (1677-09-21
    00:12:44 and 2262-04-11 23:47:16, compared as text); any other
    raises [OutOfBoundsDatetime]. *)
Theorem to_datetime_cell_bounds s t :
  parse_datetime s = Some t →
  to_datetime_cell (Some s) =
    if String.leb ts_min_text s && String.leb s ts_max_text then Ok (Some t)
    else Raise OutOfBoundsDatetime.
Proof. intros Ht. unfold to_datetime_cell. by rewrite Ht, (in_ns_bounds_text _ _ Ht). Qed.



(** The instants of a parsed row are those its conversion gives. *)
Lemma parsed_in_bounds r t :
  text_ok r = true → order_approved_at (parsed r) = Some t → in_ns_bounds t = true.
Proof.
  intros Hok%text_ok_approved. unfold parsed, approved_time, cell_ok in *. simpl.
  destruct (raw_order_approved_at r) as [s|]; simpl; [|done].
  destruct (parse_datetime s); [|done]. by intros [= <-].
Qed.

(** ** The filter on text implements [main_df] *)

(** The day numbers of Python's [datetime.date], from [date.min] to
    [date.max]. *)
Definition py_date (d : Z) : Prop :=
  (days_from_civil 1 1 1 ≤ d ≤ days_from_civil 9999 12 31)%Z.

Lemma py_date_year d :
  py_date d → let '(y, m, dd) := civil_from_days d in
  valid_date y m dd = true ∧ days_from_civil y m dd = d ∧ (1 ≤ y ≤ 9999)%Z.
Proof.
  intros [Hlo Hhi]. pose proof (civil_from_days_inv d) as Hinv.
  pose proof (date_key_civil_le _ _ Hlo) as Hklo. pose proof (date_key_civil_le _ _ Hhi) as Hkhi.
  rewrite days_from_civil_inv in Hklo, Hkhi by done.
  destruct (civil_from_days d) as [[y m] dd]. destruct Hinv as [Hv Hd].
  pose proof (valid_date_ranges _ _ _ Hv). simpl in Hklo, Hkhi. split_and!; [done|done|lia|lia].
Qed.

(** pandas reads [str(d)] back as midnight of day [d]. *)
Lemma parse_date_str_date d : py_date d → parse_date (str_date d) = Some (midnight d).
Proof.
  intros Hd. pose proof (py_date_year d Hd) as Hy. unfold str_date, parse_date.
  destruct (civil_from_days d) as [[y m] dd]. destruct Hy as (Hv & Hdays & Hy).
  pose proof (valid_date_ranges _ _ _ Hv).
  rewrite <-(append_nil_r (format_date y m dd)), parse_date_fields_format by lia. simpl.
  rewrite decide_True by done. by rewrite Hdays.
Qed.

(** Every day of a [datetime64[ns]] instant is a day of
    [datetime.date]. *)
Lemma py_date_floor_day t : in_ns_bounds t = true → py_date (floor_day t).
Proof.
  intros Ht%bool_decide_eq_true. pose proof (floor_day_spec t).
  unfold py_date, iNaT, ns_max, ns_per_day in *.
  assert (days_from_civil 1 1 1 = -719162)%Z as -> by (vm_compute; reflexivity).
  assert (days_from_civil 9999 12 31 = 2932896)%Z as -> by (vm_compute; reflexivity).
  lia.
Qed.

(** The picker's bounds on a table of [datetime64[ns]] instants are days
    of [datetime.date]. *)
Lemma default_date_range_py_date all_df lo hi :
  (∀ r t, r ∈ all_df → order_approved_at r = Some t → in_ns_bounds t = true) →
  default_date_range all_df = Some (lo, hi) → py_date lo ∧ py_date hi.
Proof.
  intros Hb. unfold default_date_range.
  destruct (min_date all_df) as [m|] eqn:Hm, (max_date all_df) as [M|] eqn:HM; try done.
  intros [= <- <-]. destruct (min_date_elem _ _ Hm) as (r1 & ? & ?), (max_date_elem _ _ HM) as (r2 & ? & ?).
  split; apply py_date_floor_day; eauto.
Qed.

Lemma main_df_text_main_df all_df s e :
  py_date s → py_date e → main_df_text all_df s e = Ok (main_df all_df s e).
Proof.
  intros Hs He. unfold main_df_text. rewrite !parse_date_str_date by done.
  (* the comparison with midnight is [in_date_range] itself *)
  reflexivity.
Qed.


(** ** Witnesses *)

(** A row of the CSV approved at [t] and purchased at [p_at], with no
    delivery or shipping dates yet. *)
Definition raw_row (o c st p cat : string) (pay : Z) (t p_at : option string) : RawOrder :=
  {| raw_order_id := Some o; raw_customer_id := Some c; raw_customer_state := Some st;
     raw_product_id := Some p; raw_product_category_name_english := Some cat;
     raw_payment_value := Some pay; raw_order_approved_at := t;
     raw_order_delivered_carrier_date := None; raw_order_delivered_customer_date := None;
     raw_order_estimated_delivery_date := None; raw_order_purchase_timestamp := p_at;
     raw_shipping_limit_date := None |}.

Definition raw_o1 : RawOrder :=
  raw_row "o1" "c1" "SP" "p1" "toys" 10 (Some "2018-01-02 10:00:00") (Some "2018-01-02 09:41:07").
Definition raw_o2 : RawOrder :=
  raw_row "o2" "c2" "MA" "p2" "books" 20 (Some "2017-12-31 23:59:59") (Some "2017-12-31 23:10:00").
Definition raw_o3 : RawOrder := raw_row "o3" "c3" "AP" "p3" "toys" 5 None (Some "2018-01-03 12:00:00").

Definition raw_sample : list RawOrder := [raw_o1; raw_o2; raw_o3].

(** An order whose approval text is fine but whose purchase text names
    February 30th: the loop raises at its fifth column. *)
Definition raw_bad : RawOrder :=
  raw_row "o4" "c4" "SP" "p4" "toys" 7 (Some "2018-02-28 08:00:00") (Some "2018-02-30 07:55:00").

Lemma raw_sample_ok : ∀ r, r ∈ raw_sample → text_ok r = true.
Proof. intros r Hr. unfold raw_sample in Hr. mem_cases; vm_compute; reflexivity. Qed.

Lemma load_csv_contract_witness :
  ∃ rows, @load_csv merge_sort_values raw_sample = Ok rows ∧ rows ≡ₚ parsed <$> raw_sample ∧
          StronglySorted approved_le rows.
Proof. apply load_csv_contract, raw_sample_ok. Defined.


Lemma load_csv_raises_witness :
  ∃ r col e, r ∈ raw_sample ++ [raw_bad] ∧ col ∈ datetime_cols ∧ to_datetime_cell (col r) = Raise e ∧
    @load_csv insertion_sort_values (raw_sample ++ [raw_bad]) = Raise e ∧ is_ValueError e = true.
Proof.
  apply load_csv_raises. exists raw_bad. split; [vm_compute; mem_pick|]. vm_compute. reflexivity.
Defined.

Lemma to_datetime_cell_bounds_witness :
  to_datetime_cell (Some "2262-04-11 23:47:16") = Ok (Some (timestamp_of 2262 4 11 23 47 16)) ∧
  to_datetime_cell (Some "2262-04-11 23:47:17") = Raise OutOfBoundsDatetime.
Proof.
  split.
  - rewrite (to_datetime_cell_bounds _ (timestamp_of 2262 4 11 23 47 16)); vm_compute; reflexivity.
  - rewrite (to_datetime_cell_bounds _ (timestamp_of 2262 4 11 23 47 17)); vm_compute; reflexivity.
Defined.


