(* ===== verification/Analyzer.v ===== *)
(** * Analyzer: the [DataAnalyzer] class (dashboard.py lines 8-45)

    [DataAnalyzer] wraps the filtered slice [df] and derives four
    tables from it.  Each output table is a record whose fields are the
    columns of the pandas frame the method returns, in a module named
    after it.  The methods are parameterised by the [SortValues]
    contract, so the theorems below hold whichever order pandas gives
    to tied rows.  Each table is a function of the multiset of rows of
    the slice: [same_rows] relates two analyzers over the same rows, and
    every method is [Proper] for it, which lets clients rewrite a slice
    with a permutation of it. *)

From S2P Require Import Prelude Sort Frame Dataset.

(** Columns of [daily_orders_df] (lines 13-19). *)
Module DailyOrders.
Record row := { order_approved_at : Z; order_count : nat; revenue : Z }.
End DailyOrders.

(** Columns of [sum_spend_df] (lines 24-28). *)
Module SumSpend.
Record row := { order_approved_at : Z; total_spend : Z }.
End SumSpend.

(** Columns of [sum_order_items_df] (lines 33-35). *)
Module SumOrderItems.
Record row := { product_category_name_english : string; product_count : nat }.
End SumOrderItems.

(** Columns of [bystate_df] (lines 40-43). *)
Module ByState.
Record row := { customer_state : string; customer_count : nat }.
End ByState.

(** [DataAnalyzer.__init__] stores the frame. *)
Record DataAnalyzer := { df : list OrderRecord }.

Section DataAnalyzer.
  Context `{SortValues} (self : DataAnalyzer).

(** Lines 12-21: resample by day on [order_approved_at], counting
    distinct orders and summing payments. *)
Definition create_daily_orders_df : list DailyOrders.row :=
    (λ '(t, (c, rv)), {| DailyOrders.order_approved_at := t;
                         DailyOrders.order_count := c;
                         DailyOrders.revenue := rv |})
    <$> resample_D order_approved_at
          (λ rs, (nunique (order_id <$> rs), sum_skipna (payment_value <$> rs)))
          (df self).

(** Lines 23-30: the same resampling, summing payments only. *)
Definition create_sum_spend_df : list SumSpend.row :=
    (λ '(t, sp), {| SumSpend.order_approved_at := t; SumSpend.total_spend := sp |})
    <$> resample_D order_approved_at (λ rs, sum_skipna (payment_value <$> rs)) (df self).

(** Lines 32-37: count the product ids of each category, then sort by
    the count, descending. *)
Definition create_sum_order_items_df : list SumOrderItems.row :=
    sort_values (desc_by SumOrderItems.product_count)
      ((λ '(k, n), {| SumOrderItems.product_category_name_english := k;
                      SumOrderItems.product_count := n |})
       <$> groupby product_category_name_english (λ rs, count_notna (product_id <$> rs))
             (df self)).

(** Line 40-41: distinct customers per state, in state order. *)
Definition bystate_groups : list ByState.row :=
    (λ '(k, n), {| ByState.customer_state := k; ByState.customer_count := n |})
    <$> groupby customer_state (λ rs, nunique (customer_id <$> rs)) (df self).

(** Lines 39-45: the state of the row found by [idxmax] on the
    unsorted grouping (raising [ValueError] when it is empty), and the
    grouping sorted by count, descending. *)
Definition create_bystate_df : result (list ByState.row * string) :=
    let bystate_df := bystate_groups in
    best ← idxmax ByState.customer_count bystate_df;
    let most_common_state := ByState.customer_state best in
    mret (sort_values (desc_by ByState.customer_count) bystate_df, most_common_state).
End DataAnalyzer.

(** ** The tables as maps over their bins and groups *)

Section shapes.
  Context (self : DataAnalyzer).

Lemma daily_orders_rows :
  create_daily_orders_df self =
  (λ k, {| DailyOrders.order_approved_at := k * ns_per_day;
           DailyOrders.order_count :=
             nunique (order_id <$> bucket (row_day order_approved_at) (df self) k);
           DailyOrders.revenue :=
             sum_skipna (payment_value <$> bucket (row_day order_approved_at) (df self) k) |})%Z
  <$> resample_bins order_approved_at (df self).
Proof. unfold create_daily_orders_df, resample_D. by rewrite <-list_fmap_compose. Qed.

Lemma sum_spend_rows :
  create_sum_spend_df self =
  (λ k, {| SumSpend.order_approved_at := k * ns_per_day;
           SumSpend.total_spend :=
             sum_skipna (payment_value <$> bucket (row_day order_approved_at) (df self) k) |})%Z
  <$> resample_bins order_approved_at (df self).
Proof. unfold create_sum_spend_df, resample_D. by rewrite <-list_fmap_compose. Qed.

Lemma bystate_groups_rows :
  bystate_groups self =
  (λ k, {| ByState.customer_state := k;
           ByState.customer_count := nunique (customer_id <$> bucket customer_state (df self) k) |})
  <$> group_keys customer_state (df self).
Proof. unfold bystate_groups, groupby. by rewrite <-list_fmap_compose. Qed.
End shapes.

(** ** Daily series (lines 12-30) *)

Section daily.
Context (self : DataAnalyzer).
Abbreviation rows := (df self).
Abbreviation timed := (filter (λ r, is_Some (order_approved_at r)) (df self)).


(** C1: the revenue column adds up to the payments of every row that
    has an approval time. *)
Theorem daily_orders_revenue_total :
  Σ (DailyOrders.revenue <$> create_daily_orders_df self) = sum_skipna (payment_value <$> timed).
Proof.
  rewrite daily_orders_rows, <-list_fmap_compose. apply resample_sum_skipna.
Qed.

(** C2: when every order is approved on a single day, the daily order
    counts add up to the number of distinct orders. *)
Theorem daily_orders_count_total :
  (∀ r1 r2 o, r1 ∈ rows → r2 ∈ rows → order_id r1 = Some o → order_id r2 = Some o →
     row_day order_approved_at r1 = row_day order_approved_at r2) →
  sum_list (DailyOrders.order_count <$> create_daily_orders_df self) = nunique (order_id <$> timed).
Proof.
  intros Hfun. rewrite daily_orders_rows, <-list_fmap_compose. by apply resample_nunique.
Qed.

(** C12: the series has a row for the day of every approved row, and
    consecutive rows are consecutive days: no day is skipped. *)
Theorem daily_orders_consecutive_days :
  (∀ r t, r ∈ rows → order_approved_at r = Some t →
     ∃ row, row ∈ create_daily_orders_df self ∧
            DailyOrders.order_approved_at row = midnight (floor_day t)) ∧
  (∀ i a b,
     (DailyOrders.order_approved_at <$> create_daily_orders_df self) !! i = Some a →
     (DailyOrders.order_approved_at <$> create_daily_orders_df self) !! S i = Some b →
     b = (a + ns_per_day)%Z).
Proof.
  rewrite daily_orders_rows. split.
  - intros r t Hr Ht. eexists; split; [apply list_elem_of_fmap_2|done].
    eapply resample_bins_cover; [done|]. unfold row_day. by rewrite Ht.
  - intros i a b. rewrite <-list_fmap_compose, !list_lookup_fmap.
    destruct (resample_bins _ _ !! i) as [x|] eqn:Hx,
             (resample_bins _ _ !! S i) as [y|] eqn:Hy; intros; simplify_eq/=.
    rewrite (resample_bins_consecutive _ _ _ _ _ Hx Hy). lia.
Qed.

(** A day between two days with approved orders on which nothing
    was approved appears in the series with count 0 and revenue 0. *)
Theorem daily_orders_gap_zero r1 r2 t1 t2 k :
  r1 ∈ rows → r2 ∈ rows → order_approved_at r1 = Some t1 → order_approved_at r2 = Some t2 →
  (floor_day t1 ≤ k ≤ floor_day t2)%Z →
  (∀ r, r ∈ rows → row_day order_approved_at r ≠ Some k) →
  {| DailyOrders.order_approved_at := midnight k; DailyOrders.order_count := 0;
     DailyOrders.revenue := 0 |} ∈ create_daily_orders_df self.
Proof.
  intros Hr1 Hr2 Ht1 Ht2 Hk Hnone. rewrite daily_orders_rows.
  assert (bucket (row_day order_approved_at) rows k = []) as Hb.
  { apply filter_all_false. intros r Hr. by apply Hnone. }
  apply list_elem_of_fmap. exists k. split; [by rewrite Hb|]. unfold resample_bins.
  assert (floor_day t1 ∈ omap (row_day order_approved_at) rows) as H1
    by (apply list_elem_of_omap; exists r1; unfold row_day; by rewrite Ht1).
  assert (floor_day t2 ∈ omap (row_day order_approved_at) rows) as H2
    by (apply list_elem_of_omap; exists r2; unfold row_day; by rewrite Ht2).
  destruct (omap _ rows) as [|d ds]; [set_solver|].
  pose proof (foldr_min_le d ds _ H1). pose proof (foldr_max_ge d ds _ H2).
  apply elem_of_seqZ. lia.
Qed.

(** The "Total Spend" of line 137: the payments of the approved rows. *)
Lemma sum_spend_total :
  Σ (SumSpend.total_spend <$> create_sum_spend_df self) = sum_skipna (payment_value <$> timed).
Proof. rewrite sum_spend_rows, <-list_fmap_compose. apply resample_sum_skipna. Qed.

Lemma sum_spend_length : length (create_sum_spend_df self) = length (create_daily_orders_df self).
Proof. by rewrite sum_spend_rows, daily_orders_rows, !length_fmap. Qed.

(** C14: [sum_spend_df] is [daily_orders_df]'s revenue column under
    another name: same days, same totals. *)
Theorem sum_spend_agrees_with_daily_orders :
  (λ r, (SumSpend.order_approved_at r, SumSpend.total_spend r)) <$> create_sum_spend_df self =
  (λ r, (DailyOrders.order_approved_at r, DailyOrders.revenue r)) <$> create_daily_orders_df self.
Proof. by rewrite sum_spend_rows, daily_orders_rows, <-!list_fmap_compose. Qed.

(** C15: the daily tables are empty exactly when no row has an approval
    time (an empty date range gives empty tables, not an error). *)
Theorem daily_tables_empty_iff :
  create_daily_orders_df self = [] ∧ create_sum_spend_df self = [] ↔
  ∀ r, r ∈ rows → order_approved_at r = None.
Proof.
  rewrite daily_orders_rows, sum_spend_rows, !fmap_eq_nil. unfold resample_bins.
  destruct (omap (row_day order_approved_at) rows) as [|d ds] eqn:Ho.
  - split; [|done]. intros _ r Hr. destruct (order_approved_at r) as [t|] eqn:Ht; [|done].
    assert (floor_day t ∈ omap (row_day order_approved_at) rows) as Hin
      by (apply list_elem_of_omap; exists r; unfold row_day; by rewrite Ht).
    rewrite Ho in Hin. by apply elem_of_nil in Hin.
  - split.
    + intros [Hs _]. apply seqZ_nil_inv in Hs. pose proof (foldr_min_elem d ds).
      pose proof (foldr_min_le d ds _ (foldr_max_elem d ds)). lia.
    + intros Hnone. assert (d ∈ omap (row_day order_approved_at) rows) as Hd by (rewrite Ho; left).
      apply list_elem_of_omap in Hd as (r & Hr & Hrd). unfold row_day in Hrd.
      by rewrite Hnone in Hrd.
Qed.
End daily.

(** ** Category and state tables (lines 32-45) *)

Section groups.
  Context `{SortValues} (self : DataAnalyzer).
  Abbreviation rows := (df self).

Lemma sum_order_items_perm :
  create_sum_order_items_df self ≡ₚ
  (λ k, {| SumOrderItems.product_category_name_english := k;
           SumOrderItems.product_count :=
             count_notna (product_id <$> bucket product_category_name_english rows k) |})
  <$> group_keys product_category_name_english rows.
Proof.
  unfold create_sum_order_items_df. rewrite sort_values_Permutation.
  unfold groupby. by rewrite <-list_fmap_compose.
Qed.

Lemma bystate_groups_states :
  ByState.customer_state <$> bystate_groups self = group_keys customer_state rows.
Proof. rewrite bystate_groups_rows, <-list_fmap_compose. apply list_fmap_id. Qed.

(** The state grouping is empty exactly when no row has a state. *)
Lemma bystate_groups_nil_iff :
bystate_groups self = [] ↔ ∀ r, r ∈ rows → customer_state r = None.
Proof.
rewrite <-(fmap_eq_nil ByState.customer_state), bystate_groups_states. split.
- intros Hk r Hr. destruct (customer_state r) as [k|] eqn:Hrk; [|done].
  assert (k ∈ group_keys customer_state rows) as Hin by (apply elem_of_group_keys; eauto).
  rewrite Hk in Hin. by apply elem_of_nil in Hin.
- intros Hnone. destruct (group_keys customer_state rows) as [|k ks] eqn:Hk; [done|].
  assert (k ∈ group_keys customer_state rows) as Hin by (rewrite Hk; left).
  apply elem_of_group_keys in Hin as (r & Hr & Hrk). by rewrite Hnone in Hrk.
Qed.

Lemma create_bystate_df_no_state :
  (∀ r, r ∈ rows → customer_state r = None) → create_bystate_df self = Raise ValueError.
Proof. intros Hnone. unfold create_bystate_df. by rewrite (proj2 bystate_groups_nil_iff Hnone). Qed.

Lemma sum_order_items_total :
  sum_list (SumOrderItems.product_count <$> create_sum_order_items_df self) =
  count_notna (product_id <$> filter (λ r, is_Some (product_category_name_english r)) rows).
Proof. rewrite sum_order_items_perm, <-list_fmap_compose. apply groupby_count_notna. Qed.

(** One row per distinct category present. *)
Lemma sum_order_items_length :
  length (create_sum_order_items_df self) = nunique (product_category_name_english <$> rows).
Proof.
  rewrite sum_order_items_perm, length_fmap, group_keys_Permutation. unfold nunique.
  by rewrite omap_id_fmap.
Qed.

Lemma create_bystate_df_Raise e :
  create_bystate_df self = Raise e → e = ValueError ∧ ∀ r, r ∈ rows → customer_state r = None.
Proof.
  unfold create_bystate_df. rewrite <-bystate_groups_nil_iff.
  destruct (idxmax _ _) as [best|e'] eqn:Hbest; simpl; [done|].
  intros [= <-]. by apply idxmax_raise in Hbest as [-> ->].
Qed.

(** A state table that is computed is not empty and names exactly the
    states of the slice. *)
Lemma create_bystate_df_states tbl s0 :
  create_bystate_df self = Ok (tbl, s0) →
  tbl ≠ [] ∧ ∀ k, k ∈ ByState.customer_state <$> tbl ↔ ∃ r, r ∈ rows ∧ customer_state r = Some k.
Proof.
  unfold create_bystate_df. destruct (idxmax _ _) as [best|e] eqn:Hbest; simpl; [|done].
  intros [= <- _]. split.
  - intros Hnil. destruct (idxmax_first_max _ _ _ Hbest) as (i & Hi & _).
    pose proof (sort_values_Permutation (desc_by ByState.customer_count) (bystate_groups self)) as Hp.
    rewrite Hnil in Hp. apply Permutation_nil in Hp. by rewrite Hp in Hi.
  - intros k. rewrite sort_values_Permutation, bystate_groups_states. apply elem_of_group_keys.
Qed.

(** C3: the category table is sorted by count, descending, and its
      counts add up to the product ids of the rows that have a
      category. *)
Theorem sum_order_items_sorted_total :
  StronglySorted (desc_by SumOrderItems.product_count) (create_sum_order_items_df self) ∧
  sum_list (SumOrderItems.product_count <$> create_sum_order_items_df self) =
  count_notna (product_id <$> filter (λ r, is_Some (product_category_name_english r)) rows).
Proof.
  split; [apply sort_values_sorted; apply _ | apply sum_order_items_total].
Qed.

(** C16: the category table has one row per category present, and no
    other. *)
Theorem sum_order_items_categories :
  NoDup (SumOrderItems.product_category_name_english <$> create_sum_order_items_df self) ∧
  ∀ c, c ∈ SumOrderItems.product_category_name_english <$> create_sum_order_items_df self ↔
       ∃ r, r ∈ rows ∧ product_category_name_english r = Some c.
Proof.
  split; [|intros c]; rewrite sum_order_items_perm, <-list_fmap_compose, list_fmap_id.
  - apply group_keys_NoDup.
  - apply elem_of_group_keys.
Qed.

(** C4: [most_common_state] is the state of largest customer count,
    the alphabetically first one when several states tie. *)
Theorem bystate_most_common_state tbl s :
  create_bystate_df self = Ok (tbl, s) →
  ∃ n, {| ByState.customer_state := s; ByState.customer_count := n |} ∈ tbl ∧
       (∀ row, row ∈ tbl → ByState.customer_count row ≤ n) ∧
       (∀ row, row ∈ tbl → ByState.customer_count row = n →
               String.le s (ByState.customer_state row)).
Proof.
  unfold create_bystate_df. destruct (idxmax _ _) as [best|e] eqn:Hbest; [|done].
  simpl. intros [= <- <-]. destruct (idxmax_first_max _ _ _ Hbest) as (i & Hi & Hmax & Hfirst).
  exists (ByState.customer_count best). split_and!.
  - rewrite elem_of_sort_values. destruct best. by eapply list_elem_of_lookup_2.
  - intros row. rewrite elem_of_sort_values. apply Hmax.
  - intros row. rewrite elem_of_sort_values. intros Hrow Hn.
    apply list_elem_of_lookup in Hrow as [j Hj].
    destruct (lt_eq_lt_dec j i) as [[Hlt| ->]|Hlt].
    + specialize (Hfirst j row Hlt Hj). lia.
    + rewrite Hi in Hj. injection Hj as ->. reflexivity.
    + pose proof (group_keys_sorted customer_state rows) as Hs.
      rewrite <-bystate_groups_states in Hs.
      apply (StronglySorted_lookup_lt _ _ i j _ _ Hs); [| |done];
        rewrite list_lookup_fmap; [by rewrite Hi | by rewrite Hj].
Qed.

(** C5: [create_bystate_df] raises [ValueError] exactly when no row
    has a customer state, e.g. on an empty date range. *)
Theorem bystate_raises_iff e :
  create_bystate_df self = Raise e ↔
  e = ValueError ∧ ∀ r, r ∈ rows → customer_state r = None.
Proof.
  split; [apply create_bystate_df_Raise | intros [-> Hnone]; by apply create_bystate_df_no_state].
Qed.
End groups.

Section groups_totals.
  Context `{SortValues} (self : DataAnalyzer).

(** C17: the state table is sorted by count, descending, and when each
    customer id belongs to a single state its counts add up to the
    number of distinct customers that have a state. *)
Theorem bystate_sorted_total tbl s :
  create_bystate_df self = Ok (tbl, s) →
  StronglySorted (desc_by ByState.customer_count) tbl ∧
  ((∀ r1 r2 c, r1 ∈ df self → r2 ∈ df self → customer_id r1 = Some c →
      customer_id r2 = Some c → customer_state r1 = customer_state r2) →
   sum_list (ByState.customer_count <$> tbl) =
   nunique (customer_id <$> filter (λ r, is_Some (customer_state r)) (df self))).
Proof.
  unfold create_bystate_df. destruct (idxmax _ _) as [best|e]; [|done].
  simpl. intros [= <- _]. split; [apply sort_values_sorted; apply _|]. intros Hfun.
  rewrite (sort_values_Permutation _ (bystate_groups self)), bystate_groups_rows,
    <-list_fmap_compose.
  by apply groupby_nunique.
Qed.
End groups_totals.

(** ** Independence from the row order *)

Section order.
  Context `{SortValues}.

Lemma bucket_aggregates_perm {K} `{EqDecision K} (key : OrderRecord → option K) l1 l2 k :
  l1 ≡ₚ l2 →
  nunique (order_id <$> bucket key l1 k) = nunique (order_id <$> bucket key l2 k) ∧
  nunique (customer_id <$> bucket key l1 k) = nunique (customer_id <$> bucket key l2 k) ∧
  sum_skipna (payment_value <$> bucket key l1 k) = sum_skipna (payment_value <$> bucket key l2 k) ∧
  count_notna (product_id <$> bucket key l1 k) = count_notna (product_id <$> bucket key l2 k).
Proof.
  intros Hp. pose proof (bucket_perm key l1 l2 k Hp) as Hb.
  split_and!; [by rewrite Hb | by rewrite Hb | by apply sum_skipna_perm | by apply count_notna_perm].
Qed.

(** Two analyzers over the same rows, in any order. *)
Definition same_rows (a b : DataAnalyzer) : Prop := df a ≡ₚ df b.

#[export] Instance same_rows_equiv : Equivalence same_rows.
Proof. unfold same_rows. split; [intros ?|intros ???|intros ?????]; by etrans. Qed.

#[export] Instance Build_DataAnalyzer_proper : Proper ((≡ₚ) ==> same_rows) Build_DataAnalyzer.
Proof. by intros l1 l2 Hp. Qed.

#[export] Instance create_daily_orders_df_proper : Proper (same_rows ==> (=)) create_daily_orders_df.
Proof.
  intros a b Hp. rewrite !daily_orders_rows, (resample_bins_perm _ _ _ Hp).
  apply list_fmap_ext. intros _ k _.
  by destruct (bucket_aggregates_perm (row_day order_approved_at) _ _ k Hp) as (-> & _ & -> & _).
Qed.

#[export] Instance create_sum_spend_df_proper : Proper (same_rows ==> (=)) create_sum_spend_df.
Proof.
  intros a b Hp. rewrite !sum_spend_rows, (resample_bins_perm _ _ _ Hp).
  apply list_fmap_ext. intros _ k _.
  by destruct (bucket_aggregates_perm (row_day order_approved_at) _ _ k Hp) as (_ & _ & -> & _).
Qed.

#[export] Instance create_sum_order_items_df_proper :
  Proper (same_rows ==> (=)) create_sum_order_items_df.
Proof.
  intros a b Hp. unfold create_sum_order_items_df. do 2 f_equal. unfold groupby.
  rewrite (group_keys_perm _ _ _ Hp). apply list_fmap_ext. intros _ k _.
  by destruct (bucket_aggregates_perm product_category_name_english _ _ k Hp) as (_ & _ & _ & ->).
Qed.

#[export] Instance bystate_groups_proper : Proper (same_rows ==> (=)) bystate_groups.
Proof.
  intros a b Hp. rewrite !bystate_groups_rows, (group_keys_perm _ _ _ Hp).
  apply list_fmap_ext. intros _ k _.
  by destruct (bucket_aggregates_perm customer_state _ _ k Hp) as (_ & -> & _ & _).
Qed.

#[export] Instance create_bystate_df_proper : Proper (same_rows ==> (=)) create_bystate_df.
Proof. intros a b Hp. unfold create_bystate_df. cbv zeta. by rewrite (bystate_groups_proper a b Hp). Qed.

(** C18: the four tables depend only on which rows the slice holds,
    not on their order; in particular the sort at load (line 68) does
    not change them. *)
Theorem analyzer_order_independent l1 l2 :
  l1 ≡ₚ l2 →
  create_daily_orders_df {| df := l1 |} = create_daily_orders_df {| df := l2 |} ∧
  create_sum_spend_df {| df := l1 |} = create_sum_spend_df {| df := l2 |} ∧
  create_sum_order_items_df {| df := l1 |} = create_sum_order_items_df {| df := l2 |} ∧
  create_bystate_df {| df := l1 |} = create_bystate_df {| df := l2 |}.
Proof. intros Hp. split_and!; by rewrite Hp. Qed.
End order.

(** ** Witnesses on the sample slice of [Dataset] *)

Definition sample_analyzer : DataAnalyzer := {| df := sample_df |}.

Lemma daily_orders_count_total_witness :
  sum_list (DailyOrders.order_count <$> create_daily_orders_df sample_analyzer) =
  nunique (order_id <$> filter (λ r, is_Some (order_approved_at r)) sample_df).
Proof.
  apply daily_orders_count_total. intros r1 r2 o H1 H2 Ho1 Ho2. unfold sample_analyzer, sample_df in H1, H2; simpl in H1, H2.
  mem_cases; simplify_eq/=; reflexivity.
Defined.

Lemma daily_orders_gap_zero_witness :
  {| DailyOrders.order_approved_at := midnight (sample_day + 1);
     DailyOrders.order_count := 0; DailyOrders.revenue := 0 |}
  ∈ create_daily_orders_df sample_analyzer.
Proof.
  apply (daily_orders_gap_zero sample_analyzer
           (sample_row "o1" "c1" "SP" "p1" "toys" 10 (midnight sample_day + 3600000000000))
           sample_last
           (midnight sample_day + 3600000000000) (midnight (sample_day + 2) + 60000000000));
    [by left | by right; right; right; left | reflexivity | reflexivity | split; vm_compute; congruence |].
  intros r Hr. unfold sample_analyzer, sample_df in Hr; simpl in Hr. mem_cases; vm_compute; discriminate.
Defined.

Lemma bystate_most_common_state_witness :
  @create_bystate_df insertion_sort_values sample_analyzer =
    Ok ([{| ByState.customer_state := "SP"; ByState.customer_count := 3 |};
         {| ByState.customer_state := "MA"; ByState.customer_count := 1 |}], "SP") ∧
  ∃ n, {| ByState.customer_state := "SP"; ByState.customer_count := n |} ∈
         [{| ByState.customer_state := "SP"; ByState.customer_count := 3 |};
          {| ByState.customer_state := "MA"; ByState.customer_count := 1 |}] ∧
       (∀ row, row ∈ [{| ByState.customer_state := "SP"; ByState.customer_count := 3 |};
                      {| ByState.customer_state := "MA"; ByState.customer_count := 1 |}] →
               ByState.customer_count row ≤ n) ∧
       (∀ row, row ∈ [{| ByState.customer_state := "SP"; ByState.customer_count := 3 |};
                      {| ByState.customer_state := "MA"; ByState.customer_count := 1 |}] →
               ByState.customer_count row = n → String.le "SP" (ByState.customer_state row)).
Proof.
  split; [vm_compute; reflexivity|]. apply (bystate_most_common_state (H := insertion_sort_values) sample_analyzer).
  vm_compute. reflexivity.
Defined.

Lemma bystate_sorted_total_witness :
  sum_list (ByState.customer_count <$>
    [{| ByState.customer_state := "SP"; ByState.customer_count := 3 |};
     {| ByState.customer_state := "MA"; ByState.customer_count := 1 |}]) =
  nunique (customer_id <$> filter (λ r, is_Some (customer_state r)) sample_df).
Proof.
  apply (bystate_sorted_total (H := insertion_sort_values) sample_analyzer _ "SP");
    [vm_compute; reflexivity|].
  intros r1 r2 c H1 H2 Hc1 Hc2. unfold sample_analyzer, sample_df in H1, H2; simpl in H1, H2. mem_cases; simplify_eq/=; reflexivity.
Defined.

Lemma analyzer_order_independent_witness :
  @create_bystate_df insertion_sort_values {| df := sample_df |} =
  @create_bystate_df insertion_sort_values {| df := reverse sample_df |}.
Proof.
  assert (Hp : sample_df ≡ₚ reverse sample_df)
    by (apply (bool_decide_unpack _); vm_compute; reflexivity).
  exact (proj2 (proj2 (proj2 (analyzer_order_independent (H := insertion_sort_values) _ _ Hp)))).
Defined.
