(* ===== verification/DailySeries.v ===== *)
(** * DailySeries: the calendar contract of the daily tables

    What the "Daily Orders" and "Customer Spend Money" sections promise,
    stated without pandas: one row per calendar day (UTC) from the day
    of the earliest approval to the day of the latest, in order, each
    row carrying the distinct orders and the payments approved during
    that day, a day being the interval [[midnight k, midnight (k+1))].
    [daily_series_spec] states that contract with no [div] and no
    resampling; the theorem of this file is that
    [create_daily_orders_df] (dashboard.py lines 12-21) is the one
    series meeting it. *)

From S2P Require Import Prelude Sort Frame Dataset Analyzer.

(** ** The contract *)

Section daily_spec.
Context (rows : list OrderRecord).

(** Row [r] was approved during day [k]. *)
Definition approved_on (k : Z) (r : OrderRecord) : bool :=
  match order_approved_at r with
  | Some t => bool_decide (midnight k ≤ t < midnight (k + 1))%Z
  | None => false
  end.

Definition orders_on (k : Z) : list OrderRecord := filter (λ r, approved_on k r = true) rows.

(** [lo] is the day of the earliest approval. *)
Definition first_day (lo : Z) : Prop :=
  (∃ r, r ∈ rows ∧ approved_on lo r = true) ∧
  ∀ r t, r ∈ rows → order_approved_at r = Some t → (midnight lo ≤ t)%Z.

(** [hi] is the day of the latest approval. *)
Definition last_day (hi : Z) : Prop :=
  (∃ r, r ∈ rows ∧ approved_on hi r = true) ∧
  ∀ r t, r ∈ rows → order_approved_at r = Some t → (t < midnight (hi + 1))%Z.

(** The row the chart shows for day [k]. *)
Definition daily_row (k : Z) : DailyOrders.row :=
  {| DailyOrders.order_approved_at := midnight k;
     DailyOrders.order_count := nunique (order_id <$> orders_on k);
     DailyOrders.revenue := sum_skipna (payment_value <$> orders_on k) |}.

Record daily_series_spec (series : list DailyOrders.row) : Prop := {
  series_untimed : (∀ r, r ∈ rows → order_approved_at r = None) → series = [];
  series_span : ∀ lo hi, first_day lo → last_day hi → length series = Z.to_nat (hi - lo + 1);
  series_rows : ∀ lo i row, first_day lo → series !! i = Some row →
                row = daily_row (lo + Z.of_nat i)
}.
End daily_spec.

(** ** Days as intervals *)

Lemma floor_day_iff t k :
  floor_day t = k ↔ (midnight k ≤ t < midnight (k + 1))%Z.
Proof.
  pose proof (floor_day_spec t). unfold midnight.
  split; [intros <-; lia|]. intros Hk. nia.
Qed.

Lemma approved_on_row_day k r :
  approved_on k r = true ↔ row_day order_approved_at r = Some k.
Proof.
  unfold approved_on, row_day. destruct (order_approved_at r) as [t|]; simpl; [|done].
  rewrite bool_decide_eq_true, <-floor_day_iff. naive_solver.
Qed.

Lemma orders_on_bucket rows k :
  orders_on rows k = bucket (row_day order_approved_at) rows k.
Proof. apply list_filter_iff. intros r. apply approved_on_row_day. Qed.

Section first_last.
Context (rows : list OrderRecord).

Lemma approved_on_time k r t :
  approved_on k r = true → order_approved_at r = Some t →
  (midnight k ≤ t < midnight (k + 1))%Z.
Proof. unfold approved_on. intros Hk Ht. rewrite Ht in Hk. by apply bool_decide_eq_true in Hk. Qed.

Lemma first_day_unique lo lo' : first_day rows lo → first_day rows lo' → lo = lo'.
Proof.
  unfold midnight. intros [(r & Hr & Hon) Hle] [(r' & Hr' & Hon') Hle'].
  destruct (order_approved_at r) as [t|] eqn:Ht; [|by unfold approved_on in Hon; rewrite Ht in Hon].
  destruct (order_approved_at r') as [t'|] eqn:Ht';
    [|by unfold approved_on in Hon'; rewrite Ht' in Hon'].
  pose proof (approved_on_time _ _ _ Hon Ht). pose proof (approved_on_time _ _ _ Hon' Ht').
  specialize (Hle _ _ Hr' Ht'). specialize (Hle' _ _ Hr Ht). unfold midnight in *. nia.
Qed.

(** A day [k] with an approval in it is a day of [omap row_day]. *)
Lemma approved_on_omap k r :
  r ∈ rows → approved_on k r = true → k ∈ omap (row_day order_approved_at) rows.
Proof. intros Hr Hk. apply list_elem_of_omap. exists r. by rewrite <-approved_on_row_day. Qed.

Lemma approval_day_omap r t :
  r ∈ rows → order_approved_at r = Some t → floor_day t ∈ omap (row_day order_approved_at) rows.
Proof. intros Hr Ht. apply list_elem_of_omap. exists r. unfold row_day. by rewrite Ht. Qed.

Lemma omap_day_witness k :
  k ∈ omap (row_day order_approved_at) rows → ∃ r, r ∈ rows ∧ approved_on k r = true.
Proof.
  intros (r & Hr & Hk)%list_elem_of_omap. exists r. by rewrite approved_on_row_day.
Qed.

Lemma first_day_min d ds :
  omap (row_day order_approved_at) rows = d :: ds → first_day rows (foldr Z.min d ds).
Proof.
  intros Ho. split.
  - apply omap_day_witness. rewrite Ho. apply foldr_min_elem.
  - intros r t Hr Ht. pose proof (approval_day_omap _ _ Hr Ht) as Hd. rewrite Ho in Hd.
    pose proof (foldr_min_le _ _ _ Hd). pose proof (floor_day_spec t). unfold midnight. nia.
Qed.

Lemma last_day_max d ds :
  omap (row_day order_approved_at) rows = d :: ds → last_day rows (foldr Z.max d ds).
Proof.
  intros Ho. split.
  - apply omap_day_witness. rewrite Ho. apply foldr_max_elem.
  - intros r t Hr Ht. pose proof (approval_day_omap _ _ Hr Ht) as Hd. rewrite Ho in Hd.
    pose proof (foldr_max_ge _ _ _ Hd). pose proof (floor_day_spec t). unfold midnight. nia.
Qed.

Lemma last_day_unique hi hi' : last_day rows hi → last_day rows hi' → hi = hi'.
Proof.
  intros [(r & Hr & Hon) Hlt] [(r' & Hr' & Hon') Hlt'].
  destruct (order_approved_at r) as [t|] eqn:Ht; [|by unfold approved_on in Hon; rewrite Ht in Hon].
  destruct (order_approved_at r') as [t'|] eqn:Ht';
    [|by unfold approved_on in Hon'; rewrite Ht' in Hon'].
  pose proof (approved_on_time _ _ _ Hon Ht). pose proof (approved_on_time _ _ _ Hon' Ht').
  specialize (Hlt _ _ Hr' Ht'). specialize (Hlt' _ _ Hr Ht). unfold midnight in *. nia.
Qed.

Lemma first_day_le_last lo hi : first_day rows lo → last_day rows hi → (lo ≤ hi)%Z.
Proof.
  intros [(r & Hr & Hon) _] [_ Hlt].
  destruct (order_approved_at r) as [t|] eqn:Ht; [|by unfold approved_on in Hon; rewrite Ht in Hon].
  pose proof (approved_on_time _ _ _ Hon Ht). specialize (Hlt _ _ Hr Ht). unfold midnight in *. nia.
Qed.

Lemma first_day_omap lo : first_day rows lo → omap (row_day order_approved_at) rows ≠ [].
Proof.
  intros [(r & Hr & Hon) _] Ho. pose proof (approved_on_omap _ _ Hr Hon) as Hk.
  rewrite Ho in Hk. by apply elem_of_nil in Hk.
Qed.

Lemma untimed_omap :
  (∀ r, r ∈ rows → order_approved_at r = None) ↔ omap (row_day order_approved_at) rows = [].
Proof.
  split.
  - intros Hnone. destruct (omap _ rows) as [|d ds] eqn:Ho; [done|].
    destruct (omap_day_witness d) as (r & Hr & Hon); [rewrite Ho; left|].
    unfold approved_on in Hon. by rewrite Hnone in Hon.
  - intros Ho r Hr. destruct (order_approved_at r) as [t|] eqn:Ht; [|done].
    pose proof (approval_day_omap _ _ Hr Ht) as Hd. rewrite Ho in Hd. by apply elem_of_nil in Hd.
Qed.
End first_last.

(** ** Refinement *)

Lemma daily_orders_daily_row self :
  create_daily_orders_df self = daily_row (df self) <$> resample_bins order_approved_at (df self).
Proof.
  rewrite daily_orders_rows. apply list_fmap_ext. intros _ k _.
  unfold daily_row, midnight. by rewrite orders_on_bucket.
Qed.

Lemma daily_orders_meets_spec self : daily_series_spec (df self) (create_daily_orders_df self).
Proof.
  rewrite daily_orders_daily_row. unfold resample_bins.
  destruct (omap _ (df self)) as [|d ds] eqn:Ho; split.
  - done.
  - intros lo hi Hlo. by destruct (first_day_omap _ _ Hlo).
  - intros lo i row _. simpl. by rewrite lookup_nil.
  - intros Hnone%untimed_omap. congruence.
  - intros lo hi Hlo Hhi.
    rewrite (first_day_unique _ _ _ Hlo (first_day_min _ _ _ Ho)),
      (last_day_unique _ _ _ Hhi (last_day_max _ _ _ Ho)), length_fmap, length_seqZ. lia.
  - intros lo i row Hlo. rewrite (first_day_unique _ _ _ Hlo (first_day_min _ _ _ Ho)).
    rewrite list_lookup_fmap. destruct (seqZ _ _ !! i) as [k|] eqn:Hk; [|done].
    apply lookup_seqZ in Hk as [<- _]. by intros [= <-].
Qed.

Lemma daily_series_spec_unique rows s1 s2 :
  daily_series_spec rows s1 → daily_series_spec rows s2 → s1 = s2.
Proof.
  intros [U1 S1 R1] [U2 S2 R2].
  destruct (omap (row_day order_approved_at) rows) as [|d ds] eqn:Ho.
  - pose proof (proj2 (untimed_omap rows) Ho) as Hn. by rewrite U1, U2.
  - pose proof (first_day_min _ _ _ Ho) as Hlo. pose proof (last_day_max _ _ _ Ho) as Hhi.
    eapply list_eq_same_length; [apply (S2 _ _ Hlo Hhi)|apply (S1 _ _ Hlo Hhi)|].
    intros i x y _ Hx Hy. by rewrite (R1 _ _ _ Hlo Hx), (R2 _ _ _ Hlo Hy).
Qed.

(** C21: [create_daily_orders_df] implements the calendar contract of
    the daily series, and is the only series that does: any table with
    one row per day from the first approval day to the last, each
    holding that day's distinct orders and payments, is this one. *)
Theorem daily_orders_refines_spec self :
  daily_series_spec (df self) (create_daily_orders_df self) ∧
  ∀ series, daily_series_spec (df self) series → series = create_daily_orders_df self.
Proof.
  split; [apply daily_orders_meets_spec|].
  intros series Hs. apply (daily_series_spec_unique _ _ _ Hs), daily_orders_meets_spec.
Qed.

(** ** Witness *)

Lemma daily_orders_refines_spec_witness :
  daily_series_spec sample_df
    [{| DailyOrders.order_approved_at := midnight sample_day; DailyOrders.order_count := 3;
        DailyOrders.revenue := 60 |};
     {| DailyOrders.order_approved_at := midnight (sample_day + 1); DailyOrders.order_count := 0;
        DailyOrders.revenue := 0 |};
     {| DailyOrders.order_approved_at := midnight (sample_day + 2); DailyOrders.order_count := 1;
        DailyOrders.revenue := 5 |}].
Proof.
  replace [_; _; _] with (create_daily_orders_df sample_analyzer) by (vm_compute; reflexivity).
  apply (daily_orders_refines_spec sample_analyzer).
Defined.

(** ** Bounds of the daily counts *)

Lemma floor_day_midnight k : floor_day (midnight k) = k.
Proof. apply floor_day_iff. unfold midnight, ns_per_day. lia. Qed.

(** Each day's order count is bounded by the rows approved that
    day: it is at most their number, and it is zero exactly when none
    of them carries an order id. *)
Theorem daily_orders_count_bounds self row :
  row ∈ create_daily_orders_df self →
  let k := floor_day (DailyOrders.order_approved_at row) in
  DailyOrders.order_count row ≤ length (orders_on (df self) k) ∧
  (DailyOrders.order_count row = 0 ↔ ∀ r, r ∈ orders_on (df self) k → order_id r = None).
Proof.
  rewrite daily_orders_daily_row. intros (k & -> & _)%list_elem_of_fmap. cbv zeta.
  unfold daily_row. simpl. rewrite floor_day_midnight. split.
  - etrans; [apply nunique_le_length|]. by rewrite length_fmap.
  - rewrite nunique_zero_iff. split.
    + intros Hall r Hr. apply Hall, list_elem_of_fmap. eauto.
    + intros Hall x (r & -> & Hr)%list_elem_of_fmap. by apply Hall.
Qed.

Lemma daily_orders_count_bounds_witness :
  let row := {| DailyOrders.order_approved_at := midnight (sample_day + 1);
                DailyOrders.order_count := 0; DailyOrders.revenue := 0 |} in
  let k := floor_day (DailyOrders.order_approved_at row) in
  DailyOrders.order_count row ≤ length (orders_on (df sample_analyzer) k) ∧
  (DailyOrders.order_count row = 0 ↔ ∀ r, r ∈ orders_on (df sample_analyzer) k → order_id r = None).
Proof. apply daily_orders_count_bounds. vm_compute. mem_pick. Defined.
