(* ===== verification/GeoMap.v ===== *)
(** * GeoMap: the geolocation dataset and [BrazilMapPlotter]

    Models lines 47-60 and 71-73 of dashboard.py.  The geolocation
    table is deduplicated on [customer_unique_id], keeping the first
    row of each customer ([drop_duplicates(subset=...)]).  [plot] reads
    the background image through [urllib.request.urlopen] and
    [mpimg.imread], then issues drawing commands: a scatter of every
    customer's (longitude, latitude), the axes switched off, the image
    stretched over Brazil's bounding box, and the figure handed to
    Streamlit.  Drawing is modelled as the list of commands issued, in
    order; fetching the image as the [ImageResource] capability, whose
    failure ([URLError]) propagates out of [plot] unhandled.
    Coordinates are decimal degrees held as integers in units of
    1e-8 degree, so the constants of the source are exact. *)

From S2P Require Import Prelude Frame.

(** A row of [geolocation.csv]: coordinates in units of 1e-8 degree. *)
Record GeoPoint := {
  customer_unique_id : option string;
  geolocation_lng : Z;
  geolocation_lat : Z
}.

(** Line 73: [geolocation.drop_duplicates(subset='customer_unique_id')]. *)
Definition dedup_geolocation (geolocation : list GeoPoint) : list GeoPoint :=
  drop_duplicates customer_unique_id geolocation.

(** The decoded background image, as far as [plot] uses it: an opaque
    raster. *)
Record Image := { pixels : list (list Z) }.

(** What [plot] needs from [urllib] and [mpimg]: fetch and decode an
    image by URL, or fail. *)
Class ImageResource := imread_url : string → result Image.

(** The extent [left, right, bottom, top] given to [imshow] (line 59),
    in units of 1e-8 degree. *)
Record Extent := { ext_left : Z; ext_right : Z; ext_bottom : Z; ext_top : Z }.

(** The drawing commands [plot] issues. *)
Inductive DrawCmd :=
| Scatter (xs ys : list Z) (figsize : Z * Z) (alpha size : Z * Z) (color : string)
    (* [alpha] and [s] as (numerator, denominator): 0.3 is (3, 10) *)
| AxisOff
| ImShow (img : Image) (extent : Extent)
| StPyplot.

Definition brazil_url : string :=
  "https://i.pinimg.com/originals/3a/0c/e1/3a0ce18b3c842748c255bc0aa445ad41.jpg".

Definition brazil_extent : Extent :=
  {| ext_left := -7398283055; ext_right := -3380000000;
     ext_bottom := -3375116944; ext_top := 540000000 |}.

(** [BrazilMapPlotter.__init__] stores the data (the library handles
    are the [ImageResource] instance). *)
Record BrazilMapPlotter := { data : list GeoPoint }.

(** Lines 55-60: read the image (raising when the fetch fails), then
    scatter the points with [alpha=0.3], [s=0.3], in green, switch the
    axes off, draw the image over the extent and render. *)
Definition plot `{ImageResource} (self : BrazilMapPlotter) : result (list DrawCmd) :=
  brazil ← imread_url brazil_url;
  mret [Scatter (geolocation_lng <$> data self) (geolocation_lat <$> data self)
          (10, 10)%Z (3, 10)%Z (3, 10)%Z "green";
        AxisOff;
        ImShow brazil brazil_extent;
        StPyplot].

(** ** Properties *)


Section dedup.
Implicit Types l : list GeoPoint.

(** C19: the deduplicated table has at most one row per customer,
    the same customers as the raw table, its rows in their original
    order, and each is the first row of its customer. *)
Theorem dedup_geolocation_spec l :
  NoDup (customer_unique_id <$> dedup_geolocation l) ∧
  (∀ c, c ∈ customer_unique_id <$> dedup_geolocation l ↔ c ∈ customer_unique_id <$> l) ∧
  dedup_geolocation l `sublist_of` l ∧
  (∀ l1 p l2, l = l1 ++ p :: l2 → customer_unique_id p ∉ customer_unique_id <$> l1 →
     p ∈ dedup_geolocation l).
Proof.
  unfold dedup_geolocation, drop_duplicates. split_and!.
  - apply drop_duplicates_go_NoDup.
  - intros c. rewrite drop_duplicates_go_keys. set_solver.
  - apply drop_duplicates_go_sublist.
  - intros l1 p l2 -> Hfresh.
    replace (l1 ++ p :: l2) with ((l1 ++ [p]) ++ l2) by by rewrite <-(assoc_L (++)).
    assert (p ∈ drop_duplicates_go customer_unique_id [] (l1 ++ [p])) as Hp.
    { rewrite drop_duplicates_go_snoc, decide_False by set_solver. set_solver. }
    assert (Hsub := drop_duplicates_go_sublist customer_unique_id [] (l1 ++ [p])).
    clear -Hp. induction l2 as [|x l2 IH] using rev_ind; [by rewrite app_nil_r|].
    rewrite (assoc_L (++)), drop_duplicates_go_snoc. set_solver.
Qed.

(** Deduplicating twice changes nothing. *)
Lemma dedup_geolocation_idemp l :
  dedup_geolocation (dedup_geolocation l) = dedup_geolocation l.
Proof.
  unfold dedup_geolocation, drop_duplicates. apply drop_duplicates_go_id.
  - apply drop_duplicates_go_NoDup.
  - intros ? _ ?%elem_of_nil. done.
Qed.
End dedup.

Section plot.
Context `{ImageResource}.

End plot.
