(* ===== verification/Dashboard.v ===== *)
(** * Dashboard: the script's main flow (dashboard.py lines 62-227)

    A Streamlit script runs top to bottom on every interaction: it loads
    and sorts the orders, deduplicates the geolocations, filters the
    orders by the picked dates, builds a [DataAnalyzer] on the slice,
    derives the four tables, and emits the page.  [render_page] is the
    run from the slice on (lines 97-227): it returns the widgets
    emitted, in order, with the exception that stopped the script, if
    any (Streamlit shows what was emitted before an uncaught exception,
    then the exception).  [render] is that page for the slice
    [main_df] of the loaded rows (lines 94-95).  The sidebar is in
    [Session], the script from the CSV text in [Script]; here the picked
    dates are inputs.  The sums and means of the float columns are
    numpy's pairwise summation ([Reduce.add_reduce]).  Chart styling
    (sizes, colours, fonts, rotations) is left out: a chart is its
    data. *)

From Stdlib Require Import QArith.
From S2P Require Import Prelude Sort Frame Reduce Dataset Analyzer DailySeries GeoMap.

(** What an [st.markdown(f"Label: **{v}**")] line shows. *)
Inductive Value :=
| VInt (n : Z)
| VMean (m : option Q)   (* [Series.mean()]: NaN on an empty column *)
| VStr (s : string).

(** The widgets of the page. *)
Inductive Widget :=
| Header (s : string)
| Subheader (s : string)
| Metric (label : string) (v : Value)
| LineChart (xs ys : list Z)
| BarChart (title : string) (labels : list string) (values : list nat)
| MapFigure (cmds : list DrawCmd)
| Tabs (labels : list string)
| Expander (label : string) (body : string)
| Caption (s : string).

(** Lines 206-209: the text [st.write] shows in the state tab's
    expander, verbatim (the triple-quoted string with its newlines and
    indentation). *)
Definition state_explanation : string := "
                 The graph above shows the number of customers from each state. The state with the most customers is São Paulo (SP), followed by Maranhão (MA) in second, and Amapá (AP) in third.
                 ".

(** Lines 214-220: the text of the map tab's expander, verbatim. *)
Definition map_explanation : string := "
                 The graph above shows the distribution of customers in Brazil. The green dots represent the location of the customers.
                 
                The map shows that most customers are located in the southeast and south of Brazil. Many of which resides in the main cities such as São Paulo, Rio de Janeiro, Porto Alegre, and others.
                 ".

(** [Series.mean()] ([nanops.nanmean]): the column's [np.add.reduce]
    in float64 divided by its length, NaN ([None]) when the column is
    empty. *)
Definition mean (l : list Z) : option Q :=
  match l with
  | [] => None
  | _ => Some (add_reduce l # Pos.of_nat (length l))
  end.

Section page.
Context `{SortValues} `{ImageResource}.

(** Line 196: [state.customer_state.value_counts().index[0]], which
    overwrites the [most_common_state] of line 103. *)
Definition displayed_most_common_state (state : list ByState.row) : result string :=
  index0 (value_counts (Some ∘ ByState.customer_state <$> state)).

(** Lines 199-204: bars labelled by the [value_counts] index, with
    heights taken from the [customer_count] column in table order. *)
Definition state_bar_chart (state : list ByState.row) : Widget :=
  BarChart "Number customers from State"
    (fst <$> value_counts (Some ∘ ByState.customer_state <$> state))
    (ByState.customer_count <$> state).

(** Lines 105-193: the sections of the page that only read the tables,
    up to the tabs of the customer demographic. *)
Definition summary_widgets (daily_orders_df : list DailyOrders.row)
    (sum_spend_df : list SumSpend.row) (sum_order_items_df : list SumOrderItems.row)
    : list Widget :=
  let total_order := int64_add_reduce (Z.of_nat <$> (DailyOrders.order_count <$> daily_orders_df)) in
  let total_revenue := add_reduce (DailyOrders.revenue <$> daily_orders_df) in
  let total_spend := add_reduce (SumSpend.total_spend <$> sum_spend_df) in
  let avg_spend := mean (SumSpend.total_spend <$> sum_spend_df) in
  let total_items :=
    int64_add_reduce (Z.of_nat <$> (SumOrderItems.product_count <$> sum_order_items_df)) in
  let avg_items := mean (Z.of_nat ∘ SumOrderItems.product_count <$> sum_order_items_df) in
  [Header "Brazil E-Commerce Public Data Analysis";
   Subheader "Daily Orders";
   Metric "Total Order" (VInt total_order);
   Metric "Total Revenue" (VInt total_revenue);
   LineChart (DailyOrders.order_approved_at <$> daily_orders_df)
             (Z.of_nat ∘ DailyOrders.order_count <$> daily_orders_df);
   Subheader "Customer Spend Money";
   Metric "Total Spend" (VInt total_spend);
   Metric "Average Spend" (VMean avg_spend);
   LineChart (SumSpend.order_approved_at <$> sum_spend_df)
             (SumSpend.total_spend <$> sum_spend_df);
   Subheader "Order Items";
   Metric "Total Items" (VInt total_items);
   Metric "Average Items" (VMean avg_items);
   BarChart "Most sold products"
     (SumOrderItems.product_category_name_english <$> take 5 sum_order_items_df)
     (SumOrderItems.product_count <$> take 5 sum_order_items_df);
   BarChart "Fewest products sold"
     (SumOrderItems.product_category_name_english <$>
        take 5 (sort_values (asc_by SumOrderItems.product_count) sum_order_items_df))
     (SumOrderItems.product_count <$>
        take 5 (sort_values (asc_by SumOrderItems.product_count) sum_order_items_df));
   Subheader "Customer Demographic";
   Tabs ["State"; "Geolocation"]].

(** Lines 97-227: the page for the slice [main_df] of lines 94-95 and
    the geolocation rows. *)
Definition render_page (geolocation : list GeoPoint) (main_df : list OrderRecord)
    : list Widget * option PyError :=
  let data := dedup_geolocation geolocation in
  let function := {| df := main_df |} in
  let map_plot := {| GeoMap.data := data |} in
  let daily_orders_df := create_daily_orders_df function in
  let sum_spend_df := create_sum_spend_df function in
  let sum_order_items_df := create_sum_order_items_df function in
  match create_bystate_df function with
  | Raise e => ([], Some e)
  | Ok (state, _) =>
      let page := summary_widgets daily_orders_df sum_spend_df sum_order_items_df in
      match displayed_most_common_state state with
      | Raise e => (page, Some e)
      | Ok most_common_state =>
          let page := page ++ [Metric "Most Common State" (VStr most_common_state);
                               state_bar_chart state;
                               Expander "See Explanation" state_explanation] in
          match plot map_plot with
          | Raise e => (page, Some e)
          | Ok cmds =>
              (page ++ [MapFigure cmds; Expander "See Explanation" map_explanation;
                        Caption "Copyright (C) Gilbert Immanuel 2024"], None)
          end
      end
  end.

(** The run after the sidebar (lines 94-227) on the CSV rows, the
    geolocation rows and the picked dates. *)
Definition render (csv_rows : list OrderRecord) (geolocation : list GeoPoint)
    (start_date end_date : Z) : list Widget * option PyError :=
  render_page geolocation (main_df (load_all_df csv_rows) start_date end_date).
End page.

(** ** The page *)

(** The page depends on the rows of the slice, not on their order. *)
#[export] Instance render_page_proper `{SortValues} `{ImageResource} geolocation :
  Proper ((≡ₚ) ==> (=)) (render_page geolocation).
Proof.
  intros l1 l2 Hp. unfold render_page. cbv zeta.
  assert (same_rows {| df := l1 |} {| df := l2 |}) as Hs by done.
  by rewrite (create_daily_orders_df_proper _ _ Hs), (create_sum_spend_df_proper _ _ Hs),
    (create_sum_order_items_df_proper _ _ Hs), (create_bystate_df_proper _ _ Hs).
Qed.

Section page_facts.
Context `{SortValues} `{ImageResource}.

(** Once line 103 returns, the page holds the summary sections and,
    when line 196 returns, the state metric and chart. *)
Lemma render_page_ok geo rows tbl s0 :
  create_bystate_df {| df := rows |} = Ok (tbl, s0) →
  let page := summary_widgets (create_daily_orders_df {| df := rows |})
                (create_sum_spend_df {| df := rows |}) (create_sum_order_items_df {| df := rows |}) in
  (∀ w, w ∈ page → w ∈ (render_page geo rows).1) ∧
  (∀ m, displayed_most_common_state tbl = Ok m →
     Metric "Most Common State" (VStr m) ∈ (render_page geo rows).1 ∧
     state_bar_chart tbl ∈ (render_page geo rows).1).
Proof.
  intros Hb. unfold render_page. cbv zeta. rewrite Hb.
  destruct (displayed_most_common_state tbl) as [m|ex]; [|split; [done|intros ? [=]]].
  split; [|intros ? [= <-]]; destruct (plot _) as [cmds|ex]; simpl; set_solver.
Qed.

Lemma render_bystate_ok csv geo s e tbl s0 :
  create_bystate_df {| df := main_df (load_all_df csv) s e |} = Ok (tbl, s0) →
  let page := summary_widgets (create_daily_orders_df {| df := main_df (load_all_df csv) s e |})
                (create_sum_spend_df {| df := main_df (load_all_df csv) s e |})
                (create_sum_order_items_df {| df := main_df (load_all_df csv) s e |}) in
  (∀ w, w ∈ page → w ∈ (render csv geo s e).1) ∧
  (∀ m, displayed_most_common_state tbl = Ok m →
     Metric "Most Common State" (VStr m) ∈ (render csv geo s e).1 ∧
     state_bar_chart tbl ∈ (render csv geo s e).1).
Proof. apply render_page_ok. Qed.

(** A page that shows anything shows as "Total Revenue" and "Total
    Spend" the payments of the approved rows it was drawn from. *)
Lemma render_page_totals geo rows :
  (render_page geo rows).1 ≠ [] →
  Metric "Total Revenue" (VInt (sum_skipna (payment_value <$> filter (λ r, is_Some (order_approved_at r)) rows)))
    ∈ (render_page geo rows).1 ∧
  Metric "Total Spend" (VInt (sum_skipna (payment_value <$> filter (λ r, is_Some (order_approved_at r)) rows)))
    ∈ (render_page geo rows).1.
Proof.
  intros Hne. destruct (create_bystate_df {| df := rows |}) as [[tbl s0]|ex] eqn:Hb.
  2: { exfalso. apply Hne. unfold render_page. cbv zeta. by rewrite Hb. }
  destruct (render_page_ok geo rows tbl s0 Hb) as [Hpage _].
  split; apply Hpage; unfold summary_widgets; cbv zeta; rewrite !add_reduce_sumZ.
  - assert (Σ (DailyOrders.revenue <$> create_daily_orders_df {| df := rows |}) =
            sum_skipna (payment_value <$> filter (λ r, is_Some (order_approved_at r)) rows)) as <-
      by (rewrite daily_orders_rows, <-list_fmap_compose; apply resample_sum_skipna).
    set_solver.
  - assert (Σ (SumSpend.total_spend <$> create_sum_spend_df {| df := rows |}) =
            sum_skipna (payment_value <$> filter (λ r, is_Some (order_approved_at r)) rows)) as <-
      by (rewrite sum_spend_rows, <-list_fmap_compose; apply resample_sum_skipna).
    set_solver.
Qed.

(** Line 196 never raises once line 103 has returned: the state table
    is not empty, and the state shown is a state of the slice. *)
Lemma displayed_most_common_state_Ok self tbl s0 :
  create_bystate_df self = Ok (tbl, s0) →
  ∃ m, displayed_most_common_state tbl = Ok m ∧ ∃ r, r ∈ df self ∧ customer_state r = Some m.
Proof.
  intros Hb. destruct (create_bystate_df_states _ _ _ Hb) as [Hne Hst].
  unfold displayed_most_common_state. destruct tbl as [|row tbl']; [done|].
  destruct (index0_nonempty (value_counts (Some ∘ ByState.customer_state <$> row :: tbl'))) as [m Hm].
  { intros Hvc. assert (ByState.customer_state row ∈
      fst <$> value_counts (Some ∘ ByState.customer_state <$> row :: tbl')) as Hin.
    { apply value_counts_keys, list_elem_of_fmap. exists row. split; [done|left]. }
    rewrite Hvc in Hin. by apply elem_of_nil in Hin. }
  exists m. split; [done|]. apply Hst. apply index0_Ok, value_counts_keys in Hm.
  apply list_elem_of_fmap in Hm as (r & [= ->] & Hr). apply list_elem_of_fmap. eauto.
Qed.

(** C20: a run stops early in two places only: at line 103, with
    [ValueError] and nothing shown, when no row of the slice has a
    state; or at the map, with the image fetch's error, after the state
    tab has been drawn naming a state of the slice.  The [IndexError]
    that [index[0]] could raise at line 196 never happens. *)
Theorem render_error_sources csv geo s e ws err :
  render csv geo s e = (ws, Some err) →
  (err = ValueError ∧ ws = [] ∧ ∀ r, r ∈ main_df (load_all_df csv) s e → customer_state r = None) ∨
  (imread_url brazil_url = Raise err ∧
   ∃ page m bar, ws = page ++ [Metric "Most Common State" (VStr m); bar;
                               Expander "See Explanation" state_explanation] ∧
     ∃ r, r ∈ main_df (load_all_df csv) s e ∧ customer_state r = Some m).
Proof.
  unfold render, render_page. cbv zeta.
  destruct (create_bystate_df _) as [[tbl s0]|ex] eqn:Hb.
  - destruct (displayed_most_common_state_Ok _ _ _ Hb) as (m & -> & Hr).
    unfold plot. destruct (imread_url brazil_url) as [img|ex] eqn:Hi; cbn [mbind result_bind]; [done|].
    intros Heq. right. split; [congruence|]. eexists _, m, _. split; [|done].
    symmetry. exact (f_equal fst Heq).
  - intros [= <- <-]. left. destruct (create_bystate_df_Raise _ _ Hb) as [-> Hn]. auto.
Qed.

(** C6: an empty date range (or any slice without a customer state)
    renders no section at all: [create_bystate_df] raises [ValueError]
    at line 103, before the first header, instead of showing empty
    tables and zero totals. *)
Theorem render_no_state_fails csv geo s e :
  (∀ r, r ∈ main_df (load_all_df csv) s e → customer_state r = None) →
  render csv geo s e = ([], Some ValueError).
Proof.
  intros Hnone. unfold render, render_page. cbv zeta.
  by rewrite (create_bystate_df_no_state {| df := main_df (load_all_df csv) s e |}).
Qed.

(** C11: whenever the page shows anything, its "Total Revenue" and "Total
    Spend", numpy's pairwise sums of the float columns, are the sum of
    the payments of the slice. *)
Theorem render_totals csv geo s e :
  (render csv geo s e).1 ≠ [] →
  Metric "Total Revenue" (VInt (sum_skipna (payment_value <$> main_df (load_all_df csv) s e)))
    ∈ (render csv geo s e).1 ∧
  Metric "Total Spend" (VInt (sum_skipna (payment_value <$> main_df (load_all_df csv) s e)))
    ∈ (render csv geo s e).1.
Proof.
  intros Hne. rewrite <-(main_df_timed (load_all_df csv) s e) at 1 2. by apply render_page_totals.
Qed.

(** The counts behind "Total Order" and "Total Items" are at most the
    rows of the slice. *)
Lemma int64_totals_le (self : DataAnalyzer) :
  sum_list (DailyOrders.order_count <$> create_daily_orders_df self) ≤ length (df self) ∧
  sum_list (SumOrderItems.product_count <$> create_sum_order_items_df self) ≤ length (df self).
Proof.
  split.
  - rewrite daily_orders_rows, <-list_fmap_compose. apply resample_nunique_le.
  - rewrite sum_order_items_total, count_notna_le, length_fmap. apply length_filter.
Qed.

(** C13: "Total Order" (line 113) and "Total Items" (line 163) are sums
    of int64 columns, which numpy adds one value after the other with
    64-bit wrap-around.  Whenever the page shows anything and the slice
    has fewer than 2^63 rows, neither wraps: "Total Order" shows the
    numbers of distinct order ids of the approval days added over the
    days, and "Total Items" the number of product ids of the rows that
    have a category. *)
Theorem render_int64_totals csv geo s e :
  (render csv geo s e).1 ≠ [] →
  (Z.of_nat (length (main_df (load_all_df csv) s e)) < 2 ^ 63)%Z →
  Metric "Total Order" (VInt (Z.of_nat (sum_list
      ((λ k, nunique (order_id <$> bucket (row_day order_approved_at) (main_df (load_all_df csv) s e) k))
       <$> resample_bins order_approved_at (main_df (load_all_df csv) s e)))))
    ∈ (render csv geo s e).1 ∧
  Metric "Total Items" (VInt (Z.of_nat (count_notna (product_id <$>
      filter (λ r, is_Some (product_category_name_english r)) (main_df (load_all_df csv) s e)))))
    ∈ (render csv geo s e).1.
Proof.
  intros Hne Hlen. destruct (create_bystate_df {| df := main_df (load_all_df csv) s e |})
    as [[tbl s0]|ex] eqn:Hb.
  2: { exfalso. apply Hne. unfold render, render_page. cbv zeta. by rewrite Hb. }
  destruct (render_bystate_ok csv geo s e tbl s0 Hb) as [Hpage _].
  destruct (int64_totals_le {| df := main_df (load_all_df csv) s e |}) as [Ho Hi]. cbn [df] in Ho, Hi.
  split; apply Hpage; unfold summary_widgets; cbv zeta; rewrite !int64_add_reduce_nat by lia.
  - rewrite daily_orders_rows, <-list_fmap_compose. set_solver.
  - rewrite (sum_order_items_total {| df := _ |}). set_solver.
Qed.
End page_facts.

(** ** Line 196 against line 42 *)

(** The state table of line 45 is the grouping sorted by count, one
    row per state. *)
Lemma state_table_shape `{SortValues} self tbl s0 :
  create_bystate_df self = Ok (tbl, s0) →
  tbl = sort_values (desc_by ByState.customer_count) (bystate_groups self) ∧
  NoDup (ByState.customer_state <$> tbl).
Proof.
  unfold create_bystate_df. destruct (idxmax _ _) as [best|e]; [|done]. simpl. intros [= <- _].
  split; [done|]. rewrite (sort_values_Permutation _ (bystate_groups self)), bystate_groups_states.
  apply group_keys_NoDup.
Qed.

(** With a stable tie order the sorted state table starts with the row
    [idxmax] picked, and its states are distinct. *)
Lemma stable_state_table self tbl s0 :
  @create_bystate_df insertion_sort_values self = Ok (tbl, s0) →
  NoDup (ByState.customer_state <$> tbl) ∧
  ∃ row rest, tbl = row :: rest ∧ ByState.customer_state row = s0.
Proof.
  unfold create_bystate_df. destruct (idxmax _ _) as [best|e] eqn:Hbest; [|done].
  simpl. intros [= <- <-]. split.
  - rewrite (insertion_sort_Permutation _ (bystate_groups self)), bystate_groups_states.
    apply group_keys_NoDup.
  - destruct (insertion_sort _ (bystate_groups self)) as [|x l'] eqn:Hs.
    + exfalso. destruct (idxmax_first_max _ _ _ Hbest) as (i & Hi & _).
      assert (bystate_groups self = []) as Hnil.
      { apply Permutation_nil_r. by rewrite <-(insertion_sort_Permutation (desc_by ByState.customer_count)), Hs. }
      by rewrite Hnil in Hi.
    + exists x, l'. split; [done|]. destruct (insertion_sort_desc_head _ _ _ _ Hs) as [i Hfm].
      rewrite (idxmax_Ok _ _ _ _ Hfm) in Hbest. by injection Hbest as ->.
Qed.

(** C10: with a stable tie order, the "Most Common State" the page shows
    (line 196) is the [most_common_state] of [create_bystate_df] (line
    42), and each bar of the state chart carries its own state's count. *)
Theorem render_state_stable_tie_order `{ImageResource} csv geo s e tbl s0 :
  @create_bystate_df insertion_sort_values
    {| df := main_df (@load_all_df insertion_sort_values csv) s e |} = Ok (tbl, s0) →
  Metric "Most Common State" (VStr s0) ∈ (@render insertion_sort_values _ csv geo s e).1 ∧
  BarChart "Number customers from State" (ByState.customer_state <$> tbl)
    (ByState.customer_count <$> tbl) ∈ (@render insertion_sort_values _ csv geo s e).1.
Proof.
  intros Hb. destruct (render_bystate_ok (H := insertion_sort_values) csv geo s e tbl s0 Hb)
    as [_ Hshow].
  destruct (stable_state_table _ _ _ Hb) as [Hnd (row & rest & Htbl & Hrow)].
  assert (value_counts (H := insertion_sort_values) (Some ∘ ByState.customer_state <$> tbl) =
          (λ k, (k, 1)) <$> (ByState.customer_state <$> tbl)) as Hvc.
  { rewrite list_fmap_compose. by apply value_counts_distinct_stable. }
  destruct (Hshow s0) as [Hm Hbar].
  - unfold displayed_most_common_state. rewrite Hvc, Htbl. simpl. by rewrite Hrow.
  - split; [done|]. unfold state_bar_chart in Hbar. rewrite Hvc, <-list_fmap_compose in Hbar.
    by rewrite list_fmap_id in Hbar.
Qed.

(** A slice with a tie in the counts of the value_counts step: SP has
    two customers, MA and AP one each, all on 2018-01-01. *)
Definition tie_rows : list OrderRecord :=
  [sample_row "o1" "c1" "SP" "p1" "toys" 10 (midnight sample_day + 3600000000000);
   sample_row "o2" "c2" "SP" "p2" "toys" 20 (midnight sample_day + 7200000000000);
   sample_row "o3" "c3" "MA" "p3" "books" 30 (midnight sample_day + 7200000000000);
   sample_row "o4" "c4" "AP" "p4" "toys" 5 (midnight sample_day + 60000000000)]%Z.

(** An image source that is offline. *)
Definition offline_image : ImageResource := λ _, Raise URLError.


(** C9: line 196 takes [value_counts] of the state column of the state
    table, which has one row per state, so every count is 1 and the
    state it shows is decided by the tie order alone, not by the
    customer counts.  Under the tie order that reverses ties, which the
    [sort_values] contract allows, the page names the state of the last
    row of the table sorted by customer count, a state with the fewest
    customers, and labels the bars with the states in reverse order
    while their heights stay in table order. *)
Theorem render_state_reversed_ties `{ImageResource} csv geo s e tbl s0 :
  @create_bystate_df reversed_ties_sort_values
    {| df := main_df (@load_all_df reversed_ties_sort_values csv) s e |} = Ok (tbl, s0) →
  ∃ rest row, tbl = rest ++ [row] ∧
    (∀ r, r ∈ tbl → ByState.customer_count row ≤ ByState.customer_count r) ∧
    Metric "Most Common State" (VStr (ByState.customer_state row))
      ∈ (@render reversed_ties_sort_values _ csv geo s e).1 ∧
    BarChart "Number customers from State" (reverse (ByState.customer_state <$> tbl))
      (ByState.customer_count <$> tbl) ∈ (@render reversed_ties_sort_values _ csv geo s e).1.
Proof.
  intros Hb. destruct (render_bystate_ok (H := reversed_ties_sort_values) csv geo s e tbl s0 Hb)
    as [_ Hshow].
  destruct (state_table_shape _ _ _ Hb) as [Htbl Hnd].
  destruct (exists_last (proj1 (create_bystate_df_states _ _ _ Hb))) as (rest & row & Hlast).
  assert (value_counts (H := reversed_ties_sort_values) (Some ∘ ByState.customer_state <$> tbl) =
          (λ k, (k, 1)) <$> reverse (ByState.customer_state <$> tbl)) as Hvc.
  { rewrite list_fmap_compose. by apply value_counts_distinct_reversed. }
  exists rest, row. split_and!; [done| |..].
  - rewrite Hlast. apply StronglySorted_desc_last. rewrite <-Hlast, Htbl. apply (sort_values_sorted (desc_by ByState.customer_count)).
  - destruct (Hshow (ByState.customer_state row)) as [Hm _]; [|done].
    unfold displayed_most_common_state. rewrite Hvc, Hlast, fmap_app, reverse_app. done.
  - destruct (Hshow (ByState.customer_state row)) as [_ Hbar].
    { unfold displayed_most_common_state. rewrite Hvc, Hlast, fmap_app, reverse_app. done. }
    unfold state_bar_chart in Hbar. rewrite Hvc, <-list_fmap_compose, list_fmap_id in Hbar. done.
Qed.

(** ** The averages *)

Lemma mean_length (l : list Z) : l ≠ [] → mean l = Some (Σ l # Pos.of_nat (length l)).
Proof. rewrite <-add_reduce_sumZ. by destruct l. Qed.

(** C28: "Average Spend" (line 141) is the payments of the approved
    rows divided by the number of calendar days from the first approval
    day to the last, the days without orders included, and NaN when no
    row is approved; "Average Items" (line 159) is the product ids of
    the rows with a category divided by the number of distinct
    categories, and NaN when no row has a category. *)
Theorem summary_averages `{SortValues} self :
  let page := summary_widgets (create_daily_orders_df self) (create_sum_spend_df self)
                (create_sum_order_items_df self) in
  (∀ lo hi, first_day (df self) lo → last_day (df self) hi →
     Metric "Average Spend"
       (VMean (Some (sum_skipna (payment_value <$> filter (λ r, is_Some (order_approved_at r)) (df self))
                     # Pos.of_nat (Z.to_nat (hi - lo + 1))))) ∈ page) ∧
  ((∀ r, r ∈ df self → order_approved_at r = None) → Metric "Average Spend" (VMean None) ∈ page) ∧
  Metric "Average Items"
    (VMean (match nunique (product_category_name_english <$> df self) with
            | O => None
            | n => Some (Z.of_nat (count_notna (product_id <$>
                           filter (λ r, is_Some (product_category_name_english r)) (df self)))
                         # Pos.of_nat n)
            end)) ∈ page.
Proof.
  cbv zeta. unfold summary_widgets. cbv zeta. split_and!.
  - intros lo hi Hlo Hhi. pose proof (first_day_le_last _ _ _ Hlo Hhi).
    assert (length (create_sum_spend_df self) = Z.to_nat (hi - lo + 1)) as Hlen
      by (rewrite sum_spend_length; by apply (series_span _ _ (daily_orders_meets_spec self))).
    rewrite (mean_length (SumSpend.total_spend <$> _)), sum_spend_total, length_fmap, Hlen; [mem_pick|].
    intros Hnil%fmap_eq_nil. rewrite Hnil in Hlen. simpl in Hlen. lia.
  - intros Hnone. assert (create_sum_spend_df self = []) as ->; [|mem_pick].
    rewrite sum_spend_rows. unfold resample_bins. by rewrite (proj1 (untimed_omap _) Hnone).
  - pose proof (sum_order_items_length self) as Hlen.
    destruct (nunique _) as [|n] eqn:Hn.
    + apply nil_length_inv in Hlen as ->. mem_pick.
    + rewrite (mean_length (Z.of_nat ∘ SumOrderItems.product_count <$> _)).
      * rewrite (list_fmap_compose SumOrderItems.product_count Z.of_nat), sumZ_of_nat, sum_order_items_total, !length_fmap, Hlen. mem_pick.
      * intros Hnil%fmap_eq_nil. by rewrite Hnil in Hlen.
Qed.

(** ** The map *)


(** ** Witnesses *)

(** An image source that serves a blank image. *)
Definition blank_image : ImageResource := λ _, Ok {| pixels := [] |}.

Definition sample_geolocation : list GeoPoint :=
  [{| customer_unique_id := Some "u1"; geolocation_lng := -4663000000; geolocation_lat := -2354000000 |};
   {| customer_unique_id := Some "u1"; geolocation_lng := -4664000000; geolocation_lat := -2355000000 |};
   {| customer_unique_id := Some "u2"; geolocation_lng := -4319000000; geolocation_lat := -2290000000 |}]%Z.

Lemma render_no_state_fails_witness :
  @render insertion_sort_values offline_image tie_rows [] (sample_day + 5) (sample_day + 6) =
  ([], Some ValueError).
Proof.
  apply render_no_state_fails. intros r Hr. vm_compute in Hr. by apply elem_of_nil in Hr.
Defined.

Lemma render_totals_witness :
  let ws := (@render insertion_sort_values offline_image tie_rows [] sample_day (sample_day + 1)).1 in
  Metric "Total Revenue" (VInt (sum_skipna (payment_value <$>
     main_df (@load_all_df insertion_sort_values tie_rows) sample_day (sample_day + 1)))) ∈ ws ∧
  Metric "Total Spend" (VInt (sum_skipna (payment_value <$>
     main_df (@load_all_df insertion_sort_values tie_rows) sample_day (sample_day + 1)))) ∈ ws.
Proof. apply render_totals. vm_compute. discriminate. Defined.

Lemma render_int64_totals_witness :
  let all := @load_all_df insertion_sort_values tie_rows in
  let ws := (@render insertion_sort_values offline_image tie_rows [] sample_day (sample_day + 1)).1 in
  Metric "Total Order" (VInt (Z.of_nat (sum_list
      ((λ k, nunique (order_id <$> bucket (row_day order_approved_at) (main_df all sample_day (sample_day + 1)) k))
       <$> resample_bins order_approved_at (main_df all sample_day (sample_day + 1)))))) ∈ ws ∧
  Metric "Total Items" (VInt (Z.of_nat (count_notna (product_id <$>
      filter (λ r, is_Some (product_category_name_english r)) (main_df all sample_day (sample_day + 1))))))
    ∈ ws.
Proof. apply render_int64_totals; vm_compute; [discriminate|done]. Defined.

(** The state table of [tie_rows] under reversed ties: SP first, with
    two customers, then MA and AP with one each. *)
Definition tie_state_table : list ByState.row :=
  [{| ByState.customer_state := "SP"; ByState.customer_count := 2 |};
   {| ByState.customer_state := "MA"; ByState.customer_count := 1 |};
   {| ByState.customer_state := "AP"; ByState.customer_count := 1 |}].

Lemma render_state_reversed_ties_witness :
  ∃ rest row, tie_state_table = rest ++ [row] ∧
    (∀ r, r ∈ tie_state_table → ByState.customer_count row ≤ ByState.customer_count r) ∧
    Metric "Most Common State" (VStr (ByState.customer_state row))
      ∈ (@render reversed_ties_sort_values offline_image tie_rows [] sample_day (sample_day + 1)).1 ∧
    BarChart "Number customers from State" (reverse (ByState.customer_state <$> tie_state_table))
      (ByState.customer_count <$> tie_state_table)
      ∈ (@render reversed_ties_sort_values offline_image tie_rows [] sample_day (sample_day + 1)).1.
Proof.
  apply (render_state_reversed_ties (H := offline_image) tie_rows [] sample_day (sample_day + 1)
           tie_state_table "SP").
  vm_compute. reflexivity.
Defined.

Lemma render_state_stable_tie_order_witness :
  Metric "Most Common State" (VStr "SP")
    ∈ (@render insertion_sort_values blank_image tie_rows [] sample_day (sample_day + 1)).1 ∧
  BarChart "Number customers from State" ["SP"; "AP"; "MA"] [2; 1; 1]
    ∈ (@render insertion_sort_values blank_image tie_rows [] sample_day (sample_day + 1)).1.
Proof.
  apply (render_state_stable_tie_order (H := blank_image) tie_rows [] sample_day (sample_day + 1)
           [{| ByState.customer_state := "SP"; ByState.customer_count := 2 |};
            {| ByState.customer_state := "AP"; ByState.customer_count := 1 |};
            {| ByState.customer_state := "MA"; ByState.customer_count := 1 |}]).
  vm_compute. reflexivity.
Defined.


(** ** The category charts *)

(** C25: the "Most sold products" chart shows five categories (all of
    them when there are fewer), none sold less than any category left
    out, and the "Fewest products sold" chart five categories none sold
    more than any category left out, whatever order pandas gives to
    ties. *)
Theorem category_bar_charts `{SortValues} self daily spend :
  let tbl := create_sum_order_items_df self in
  ∃ most rest fewest rest',
    BarChart "Most sold products" (SumOrderItems.product_category_name_english <$> most)
      (SumOrderItems.product_count <$> most) ∈ summary_widgets daily spend tbl ∧
    BarChart "Fewest products sold" (SumOrderItems.product_category_name_english <$> fewest)
      (SumOrderItems.product_count <$> fewest) ∈ summary_widgets daily spend tbl ∧
    length most = min 5 (length tbl) ∧ length fewest = min 5 (length tbl) ∧
    tbl ≡ₚ most ++ rest ∧ tbl ≡ₚ fewest ++ rest' ∧
    (∀ x y, x ∈ most → y ∈ rest → SumOrderItems.product_count y ≤ SumOrderItems.product_count x) ∧
    (∀ x y, x ∈ fewest → y ∈ rest' →
       SumOrderItems.product_count x ≤ SumOrderItems.product_count y).
Proof.
  cbv zeta. set (tbl := create_sum_order_items_df self).
  set (asc := sort_values (asc_by SumOrderItems.product_count) tbl).
  exists (take 5 tbl), (drop 5 tbl), (take 5 asc), (drop 5 asc).
  split_and!; [unfold summary_widgets; mem_pick.. | | | | | |].
  - rewrite length_take. lia.
  - subst asc. rewrite length_take, length_sort_values. lia.
  - by rewrite take_drop.
  - subst asc. by rewrite take_drop, sort_values_Permutation.
  - intros x y Hx Hy. apply (StronglySorted_take_drop (desc_by SumOrderItems.product_count) tbl 5);
      [apply sort_values_sorted; apply _|done|done].
  - intros x y Hx Hy. apply (StronglySorted_take_drop (asc_by SumOrderItems.product_count) asc 5);
      [apply sort_values_sorted; apply _|done|done].
Qed.

(** On the sample slice (orders on 2018-01-01 and 2018-01-03, paying 65
    in all) the average spend is over three days, the empty 2018-01-02
    included. *)
Lemma summary_averages_witness :
  Metric "Average Spend" (VMean (Some (65 # 3))) ∈
    @summary_widgets insertion_sort_values (create_daily_orders_df sample_analyzer)
      (create_sum_spend_df sample_analyzer) (@create_sum_order_items_df insertion_sort_values sample_analyzer).
Proof.
  assert (first_day (df sample_analyzer) sample_day) as Hlo.
  { change sample_day with (foldr Z.min 17532 [17532; 17532; 17534])%Z.
    apply first_day_min. vm_compute. reflexivity. }
  assert (last_day (df sample_analyzer) (sample_day + 2)) as Hhi.
  { change (sample_day + 2)%Z with (foldr Z.max 17532 [17532; 17532; 17534])%Z.
    apply last_day_max. vm_compute. reflexivity. }
  pose proof (proj1 (summary_averages (H := insertion_sort_values) sample_analyzer) _ _ Hlo Hhi) as Hm.
  vm_compute in Hm. vm_compute. exact Hm.
Defined.

(** With the image source offline, the sample run stops at the map. *)
Lemma render_error_sources_witness :
  let ws := (@render insertion_sort_values offline_image tie_rows [] sample_day (sample_day + 1)).1 in
  (URLError = ValueError ∧ ws = [] ∧
   ∀ r, r ∈ main_df (@load_all_df insertion_sort_values tie_rows) sample_day (sample_day + 1) →
     customer_state r = None) ∨
  (@imread_url offline_image brazil_url = Raise URLError ∧
   ∃ page m bar, ws = page ++ [Metric "Most Common State" (VStr m); bar;
                               Expander "See Explanation" state_explanation] ∧
     ∃ r, r ∈ main_df (@load_all_df insertion_sort_values tie_rows) sample_day (sample_day + 1) ∧
          customer_state r = Some m).
Proof.
  apply (render_error_sources (H := insertion_sort_values) (H0 := offline_image) tie_rows [] sample_day
           (sample_day + 1) _ URLError).
  vm_compute. reflexivity.
Defined.
