(* ===== verification/Session.v ===== *)
(** * Session: the sidebar and Streamlit's rerun loop

    Streamlit runs the whole script again on every interaction; the
    only state that survives a run is the value each widget holds.
    This file models lines 78-92 of dashboard.py, the part of a run
    before the main page: the sidebar title and logo, the range date
    picker [st.date_input] with its default [value=[min_date,
    max_date]], and the unpacking [start_date, end_date = ...] of what
    the picker returns.  [run] is one execution of the script for the
    picker's current value, composed with [Dashboard.render] for the
    rest.  A session is the picker's value and the screen shown;
    [step] is an interaction: the user commits a pick (any tuple the
    picker allows: at most two days, within its bounds, in order) or
    triggers a rerun without changing it.  Reachable sessions are the
    reflexive-transitive closure of [step] from the first run. *)

From stdpp Require Import relations.
From S2P Require Import Prelude Sort Frame Dataset Analyzer GeoMap Dashboard.

(** What the sidebar shows (lines 81-91). *)
Inductive SidebarElem :=
| SbMarkdown (html : string)
| SbImage (url : string)
| SbDateInput (label : string) (value : list Z) (min_value max_value : Z).

(** The screen after a run: the sidebar, the main page, and the
    exception that stopped the script, if any. *)
Record Screen := { sidebar : list SidebarElem; main : list Widget; error : option PyError }.

Definition title_html : string := "<h1 style='text-align: center;'>Brazil E-Commerce</h1>".

Definition logo_url : string :=
  "https://raw.githubusercontent.com/GilbertImmanuel/dicoding-data-analysis/main/dashboard/logo.png".

(** Lines 86-91: in range mode [st.date_input] returns the tuple of
    days the user has committed (zero, one or two), and [value] before
    any interaction. *)
Definition date_input (value : list Z) (widget_value : option (list Z)) : list Z :=
  default value widget_value.

(** Line 86: [start_date, end_date = ...] raises [ValueError] on any
    tuple that is not a pair. *)
Definition unpack_pair (l : list Z) : result (Z * Z) :=
  match l with
  | [a; b] => Ok (a, b)
  | _ => Raise ValueError
  end.

(** The tuples the picker lets a user commit: at most two days within
    [[min_value, max_value]], the start first. *)
Definition valid_pick (min_value max_value : Z) (l : list Z) : bool :=
  match l with
  | [] => true
  | [d] => bool_decide (min_value ≤ d ≤ max_value)%Z
  | [a; b] => bool_decide (min_value ≤ a ≤ b ∧ b ≤ max_value)%Z
  | _ => false
  end.

Section run.
Context `{SortValues} `{ImageResource} (csv_rows : list OrderRecord) (geolocation : list GeoPoint).

(** Lines 78-79 and 86-91: the picker's bounds and default, the days of
    the first and last approval. *)
Definition picker_bounds : option (Z * Z) := default_date_range (load_all_df csv_rows).

Definition sidebar_of (min_d max_d : Z) : list SidebarElem :=
  [SbMarkdown title_html; SbImage logo_url;
   SbDateInput "Select Date Range" [min_d; max_d] min_d max_d].

(** One run of the script (lines 62-227) for the picker's current
    value; [None] when the approval column holds no timestamp at all,
    where the bounds are NaT (not modelled). *)
Definition run (widget_value : option (list Z)) : option Screen :=
  '(min_d, max_d) ← picker_bounds;
  Some (match unpack_pair (date_input [min_d; max_d] widget_value) with
        | Raise e => {| sidebar := sidebar_of min_d max_d; main := []; error := Some e |}
        | Ok (start_date, end_date) =>
            let '(ws, err) := render csv_rows geolocation start_date end_date in
            {| sidebar := sidebar_of min_d max_d; main := ws; error := err |}
        end).

(** A session: the value the picker holds ([None] before any
    interaction) and the screen of the last run. *)
Record Session := { widget_value : option (list Z); screen : option Screen }.

Definition session_init : Session := {| widget_value := None; screen := run None |}.

Inductive step : Session → Session → Prop :=
| step_pick s l min_d max_d :
    picker_bounds = Some (min_d, max_d) → valid_pick min_d max_d l = true →
    step s {| widget_value := Some l; screen := run (Some l) |}
| step_rerun s :
    step s {| widget_value := widget_value s; screen := run (widget_value s) |}.

Definition reachable (s : Session) : Prop := rtc step session_init s.
End run.

(** ** Invariant of reachable sessions *)

Section session_facts.
Context `{SortValues} `{ImageResource} (csv_rows : list OrderRecord) (geolocation : list GeoPoint).
Abbreviation run' := (run csv_rows geolocation).
Abbreviation reachable' := (reachable csv_rows geolocation).
Abbreviation bounds := (picker_bounds csv_rows).

Lemma run_not_pair min_d max_d l :
  bounds = Some (min_d, max_d) → length l ≠ 2 →
  run' (Some l) = Some {| sidebar := sidebar_of min_d max_d; main := []; error := Some ValueError |}.
Proof.
  unfold run. intros -> Hl. cbn -[render]. destruct l as [|a [|b [|c l]]]; simpl in *; done.
Qed.


Definition session_ok (s : Session) : Prop :=
  screen s = run' (widget_value s) ∧
  ∀ l, widget_value s = Some l →
       ∃ min_d max_d, bounds = Some (min_d, max_d) ∧ valid_pick min_d max_d l = true.

Lemma step_session_ok s s' : step csv_rows geolocation s s' → session_ok s → session_ok s'.
Proof.
  intros [s0 l min_d max_d Hb Hv|s0] [_ Hval]; split; simpl; [done| |done|done].
  intros l' [= <-]. eauto.
Qed.

Lemma reachable_session_ok s : reachable' s → session_ok s.
Proof.
  unfold reachable. revert s. apply rtc_ind_r.
  - split; [done|]. by intros l [=].
  - intros s1 s2 _ Hstep IH. by eapply step_session_ok.
Qed.





(** C22: a run with fewer or more than two days in the picker (after
    the first click of a new range, or a cleared picker) raises
    [ValueError] at line 86 and shows the sidebar alone; and from every
    session such a screen is one click away. *)
Theorem session_partial_pick_fails s min_d max_d :
  reachable' s → bounds = Some (min_d, max_d) →
  (∀ l, widget_value s = Some l → length l ≠ 2 →
     screen s = Some {| sidebar := sidebar_of min_d max_d; main := []; error := Some ValueError |}) ∧
  ∀ d, (min_d ≤ d ≤ max_d)%Z →
    ∃ s', step csv_rows geolocation s s' ∧ widget_value s' = Some [d] ∧
      screen s' = Some {| sidebar := sidebar_of min_d max_d; main := []; error := Some ValueError |}.
Proof.
  intros [Hscr _]%reachable_session_ok Hb. split.
  - intros l Hl Hlen. rewrite Hscr, Hl. by apply run_not_pair.
  - intros d Hd. eexists. split_and!; [eapply step_pick; [done|] | done |].
    + simpl. by apply bool_decide_eq_true.
    + simpl. by apply run_not_pair.
Qed.

End session_facts.

(** ** Witnesses *)

(** The session after the first click of a new range. *)
Definition sample_pick_session : Session :=
  {| widget_value := Some [sample_day];
     screen := @run insertion_sort_values blank_image tie_rows sample_geolocation (Some [sample_day]) |}.

Lemma sample_pick_session_reachable :
  @reachable insertion_sort_values blank_image tie_rows sample_geolocation sample_pick_session.
Proof.
  apply rtc_once. eapply step_pick with (min_d := sample_day) (max_d := sample_day);
    vm_compute; reflexivity.
Qed.



Lemma session_partial_pick_fails_witness :
  (∀ l, widget_value sample_pick_session = Some l → length l ≠ 2 →
     screen sample_pick_session =
       Some {| sidebar := sidebar_of sample_day sample_day; main := []; error := Some ValueError |}) ∧
  ∀ d, (sample_day ≤ d ≤ sample_day)%Z →
    ∃ s', @step insertion_sort_values blank_image tie_rows sample_geolocation sample_pick_session s' ∧
      widget_value s' = Some [d] ∧
      screen s' = Some {| sidebar := sidebar_of sample_day sample_day; main := [];
                          error := Some ValueError |}.
Proof.
  apply session_partial_pick_fails; [apply sample_pick_session_reachable | vm_compute; reflexivity].
Defined.

