(* ===== verification/Script.v ===== *)
(** * Script: dashboard.py run from the CSV text

    [script_run] is one run of dashboard.py from the rows [pd.read_csv]
    returns, composed the way the script composes its parts: the load
    of lines 67-76 ([Load.load_csv]; an exception there stops the
    script before the sidebar is drawn), the bounds and picker of lines
    78-91 ([Session.sidebar_of], [Session.date_input],
    [Session.unpack_pair]), the filter of lines 94-95 as written,
    comparing each timestamp with the text of the picked dates
    ([Load.main_df_text]), and the page of lines 97-227
    ([Dashboard.render_page]).

    The theorem of this file is about the first screen, the one
    dashboard.py shows before the picker is touched: stated against the
    CSV alone, its "Total Revenue" leaves out the orders approved on the
    day of the latest approval after its midnight, whatever order the
    sorts give to tied rows. *)

From S2P Require Import Prelude Sort Frame Calendar Timestamp Dataset Load Analyzer GeoMap Dashboard Session.

Section script.
Context `{SortValues} `{ImageResource}.

(** Lines 62-227 for the picker's value [widget_value]; [None] when no
    row has an approval time, where [min_date] is NaT (not modelled). *)
Definition script_run (csv : list RawOrder) (geolocation : list GeoPoint)
    (widget_value : option (list Z)) : option Screen :=
  match load_csv csv with
  | Raise e => Some {| sidebar := []; main := []; error := Some e |}
  | Ok all_df =>
      '(min_d, max_d) ← default_date_range all_df;
      Some (match unpack_pair (date_input [min_d; max_d] widget_value) with
            | Raise e => {| sidebar := sidebar_of min_d max_d; main := []; error := Some e |}
            | Ok (start_date, end_date) =>
                match main_df_text all_df start_date end_date with
                | Raise e => {| sidebar := sidebar_of min_d max_d; main := []; error := Some e |}
                | Ok main_df =>
                    let '(ws, err) := render_page geolocation main_df in
                    {| sidebar := sidebar_of min_d max_d; main := ws; error := err |}
                end
            end)
  end.
End script.

(** ** The first screen *)

(** A row approved before the day of the instant [m], or at the
    midnight that starts it. *)
Definition approved_before_day_of (m : Z) (r : OrderRecord) : bool :=
  match order_approved_at r with
  | Some t => bool_decide (floor_day t < floor_day m ∨ t = midnight (floor_day m))%Z
  | None => false
  end.

Lemma min_date_le all_df r t m :
  r ∈ all_df → order_approved_at r = Some t → min_date all_df = Some m → (m ≤ t)%Z.
Proof.
  intros Hr Ht. unfold min_date.
  assert (Hin : t ∈ omap order_approved_at all_df) by (apply list_elem_of_omap; eauto).
  destruct (omap _ _) as [|t0 ts]; [set_solver|]. intros [= <-]. by apply foldr_min_le.
Qed.

Lemma elem_of_parsed (csv : list RawOrder) r :
  r ∈ parsed <$> csv ↔ ∃ r0, r0 ∈ csv ∧ r = parsed r0.
Proof. rewrite list_elem_of_fmap. naive_solver. Qed.

(** Between the first and the last approval, the default range of the
    picker selects the rows [approved_before_day_of] the last one. *)
Lemma default_range_rows rows lo hi mn mx r t :
  min_date rows = Some mn → max_date rows = Some mx → lo = floor_day mn → hi = floor_day mx →
  r ∈ rows → order_approved_at r = Some t →
  in_date_range lo hi r = true ↔ approved_before_day_of mx r = true.
Proof.
  intros Hmn Hmx -> -> Hr Ht. unfold in_date_range, approved_before_day_of. rewrite Ht, !bool_decide_eq_true.
  pose proof (min_date_le _ _ _ _ Hr Ht Hmn). pose proof (max_date_ge _ _ _ _ Hr Ht Hmx).
  pose proof (floor_day_spec t). pose proof (floor_day_spec mn). pose proof (floor_day_spec mx).
  unfold midnight. unfold ns_per_day in *. nia.
Qed.

Section script_facts.
Context `{SortValues} `{ImageResource} (csv : list RawOrder) (geolocation : list GeoPoint).

Lemma parsed_csv_in_bounds :
  (∀ r, r ∈ csv → text_ok r = true) →
  ∀ r t, r ∈ parsed <$> csv → order_approved_at r = Some t → in_ns_bounds t = true.
Proof. intros Hok r t (r0 & Hr0 & ->)%elem_of_parsed. apply parsed_in_bounds. by apply Hok. Qed.

(** C27: the first screen, drawn before the picker is touched (lines
    67-227 with the picker's default [value=[min_date, max_date]]), when
    every timestamp text of the CSV converts and the page shows
    anything, has as "Total Revenue" the payments of the orders
    approved before the day of the latest approval or at its midnight:
    the orders of that last day are left out, whatever order the sorts
    give to tied rows. *)
Theorem script_first_screen_revenue scr :
  (∀ r, r ∈ csv → text_ok r = true) →
  script_run csv geolocation None = Some scr → main scr ≠ [] →
  ∃ m, (∃ r, r ∈ csv ∧ approved_time r = Some m) ∧
       (∀ r t, r ∈ csv → approved_time r = Some t → (t ≤ m)%Z) ∧
       Metric "Total Revenue" (VInt (sum_skipna (payment_value <$>
         filter (λ r, approved_before_day_of m r = true) (parsed <$> csv)))) ∈ main scr.
Proof.
  intros Hok Hrun Hne. unfold script_run in Hrun. rewrite (load_csv_parsed csv Hok) in Hrun.
  assert (Hperm : parsed <$> sort_values approved_text_le csv ≡ₚ parsed <$> csv)
    by (by rewrite sort_values_Permutation).
  rewrite (default_date_range_proper _ _ Hperm) in Hrun.
  destruct (default_date_range (parsed <$> csv)) as [[lo hi]|] eqn:Hd; [|done].
  rewrite bind_Some in Hrun. cbv beta iota in Hrun.
  destruct (default_date_range_py_date _ _ _ (parsed_csv_in_bounds Hok) Hd) as [Hlo Hhi].
  change (unpack_pair (date_input [lo; hi] None)) with (Ok (lo, hi) : result (Z * Z)) in Hrun.
  cbv iota beta in Hrun. rewrite main_df_text_main_df in Hrun by done.
  destruct (render_page geolocation _) as [ws err] eqn:Hp. injection Hrun as <-. simpl in Hne |- *.
  unfold default_date_range in Hd.
  destruct (min_date (parsed <$> csv)) as [mn|] eqn:Hmn,
    (max_date (parsed <$> csv)) as [mx|] eqn:Hmx; try done. injection Hd as Hlo' Hhi'.
  exists mx. split_and!.
  - destruct (max_date_elem _ _ Hmx) as (r & (r0 & Hr0 & ->)%elem_of_parsed & Ht). eauto.
  - intros r t Hr Ht. apply (max_date_ge (parsed <$> csv) (parsed r)); [|done..].
    apply elem_of_parsed. eauto.
  - destruct (render_page_totals geolocation (main_df (parsed <$> sort_values approved_text_le csv) lo hi))
      as [Hrev _]; [by rewrite Hp|].
    rewrite main_df_timed, Hp in Hrev. simpl in Hrev.
    erewrite sum_skipna_perm in Hrev; [exact Hrev|]. unfold main_df. rewrite Hperm.
    apply reflexive_eq, filter_ext_elem. intros r Hr.
    destruct (order_approved_at r) as [t|] eqn:Ht.
    + by apply (default_range_rows (parsed <$> csv) lo hi mn mx r t).
    + unfold in_date_range, approved_before_day_of. by rewrite Ht.
Qed.
End script_facts.

(** ** Witness *)

(** On [Load.raw_sample] the latest approval is at 10:00 on 2018-01-02:
    the first screen shows as revenue the 20 of the order approved on
    2017-12-31, not the 10 of that last one. *)
Lemma script_first_screen_revenue_witness :
  ∃ m, (∃ r, r ∈ raw_sample ∧ approved_time r = Some m) ∧
       (∀ r t, r ∈ raw_sample → approved_time r = Some t → (t ≤ m)%Z) ∧
       Metric "Total Revenue" (VInt (sum_skipna (payment_value <$>
         filter (λ r, approved_before_day_of m r = true) (parsed <$> raw_sample))))
       ∈ main (default (Build_Screen [] [] None)
                 (@script_run insertion_sort_values blank_image raw_sample sample_geolocation None)).
Proof.
  apply (script_first_screen_revenue (H := insertion_sort_values) (H0 := blank_image) raw_sample
           sample_geolocation); [apply raw_sample_ok|vm_compute; reflexivity|vm_compute; discriminate].
Defined.
